(** * ChunkHound benchmark harness: [python-deps/benchmark_parsers.py]

    A shallow embedding of the Python benchmarking script and the
    properties its specification states about it.

    Conventions of the embedding.
    - A Python [str] is a sequence of code points.  The strings the script
      names, prints or writes (paths, identifiers, messages) are Rocq
      [string]s, one character per code point below 256.  The strings it only
      measures and embeds (file contents, chunk contents) are [unicode]
      values, lists of arbitrary code points, lone surrogates included; [len] is the
      number of code points and [str.encode()] is UTF-8, which raises
      [UnicodeEncodeError] on a surrogate.
    - A Python [int] is a [Z]; a Python [float] is an IEEE-754 binary64
      value, a [spec_float] operated on at precision 53 and [emax] 1024,
      rounding to nearest, ties to even.
    - A Python [dict] is an association list in insertion order, which is
      also the order in which [json.dump] emits it.
    - An exception is a value of [exn], standing for an instance of
      [Exception]; a [try] body runs in the error monad, and the outside
      world (clock, file system, parsers, standard output) is threaded as
      explicit state.  The clock can always be read; the standard output
      is taken to be open and to accept every line, so [print] does not
      raise; and a file that could be opened for writing accepts what is
      written to it.  Every other call that leaves the script may raise.
    - What the script takes from CPython is modelled from its documented
      behaviour and checked on known values: [hashlib.md5] (RFC 1321),
      [float.__repr__], [json.dump] with [indent=2] and [json.loads]. *)

From Stdlib Require Import ZArith List String Ascii Bool Lia SpecFloat.
From Stdlib Require Import DecimalString DecimalN DecimalZ.
Import ListNotations.
Local Open Scope string_scope.
Local Open Scope list_scope.
Local Open Scope Z_scope.

(* ================================================================== *)
(** ** [hashlib.md5]: RFC 1321 on 32-bit words kept in [Z] *)

Module MD5.

Definition w32 (x : Z) : Z := x mod 2 ^ 32.

Definition add32 (x y : Z) : Z := w32 (x + y).

Definition not32 (x : Z) : Z := Z.lxor x 0xffffffff.

Definition rotl32 (x : Z) (n : Z) : Z :=
  Z.lor (w32 (Z.shiftl x n)) (Z.shiftr x (32 - n)).

(** Per-round shift amounts. *)
Definition S : list Z :=
  [ 7; 12; 17; 22;  7; 12; 17; 22;  7; 12; 17; 22;  7; 12; 17; 22;
    5;  9; 14; 20;  5;  9; 14; 20;  5;  9; 14; 20;  5;  9; 14; 20;
    4; 11; 16; 23;  4; 11; 16; 23;  4; 11; 16; 23;  4; 11; 16; 23;
    6; 10; 15; 21;  6; 10; 15; 21;  6; 10; 15; 21;  6; 10; 15; 21 ].

(** [K i = floor (2^32 * abs (sin (i + 1)))]. *)
Definition K : list Z :=
  [ 0xd76aa478; 0xe8c7b756; 0x242070db; 0xc1bdceee;
    0xf57c0faf; 0x4787c62a; 0xa8304613; 0xfd469501;
    0x698098d8; 0x8b44f7af; 0xffff5bb1; 0x895cd7be;
    0x6b901122; 0xfd987193; 0xa679438e; 0x49b40821;
    0xf61e2562; 0xc040b340; 0x265e5a51; 0xe9b6c7aa;
    0xd62f105d; 0x02441453; 0xd8a1e681; 0xe7d3fbc8;
    0x21e1cde6; 0xc33707d6; 0xf4d50d87; 0x455a14ed;
    0xa9e3e905; 0xfcefa3f8; 0x676f02d9; 0x8d2a4c8a;
    0xfffa3942; 0x8771f681; 0x6d9d6122; 0xfde5380c;
    0xa4beea44; 0x4bdecfa9; 0xf6bb4b60; 0xbebfbc70;
    0x289b7ec6; 0xeaa127fa; 0xd4ef3085; 0x04881d05;
    0xd9d4d039; 0xe6db99e5; 0x1fa27cf8; 0xc4ac5665;
    0xf4292244; 0x432aff97; 0xab9423a7; 0xfc93a039;
    0x655b59c3; 0x8f0ccc92; 0xffeff47d; 0x85845dd1;
    0x6fa87e4f; 0xfe2ce6e0; 0xa3014314; 0x4e0811a1;
    0xf7537e82; 0xbd3af235; 0x2ad7d2bb; 0xeb86d391 ].

(** The four chaining words A, B, C, D. *)
Record state := State { sA : Z; sB : Z; sC : Z; sD : Z }.

Definition init : state :=
  State 0x67452301 0xefcdab89 0x98badcfe 0x10325476.

(** Little-endian conversion between a word and its four bytes. *)
Definition word_of_bytes (b : list Z) : Z :=
  fold_right (fun x acc => x + 256 * acc) 0 b.

Definition bytes_of_word (x : Z) : list Z :=
  [ x mod 256; (x / 2 ^ 8) mod 256; (x / 2 ^ 16) mod 256; (x / 2 ^ 24) mod 256 ].

Fixpoint bytes_of_len (n : nat) (x : Z) : list Z :=
  match n with
  | O => []
  | Datatypes.S n' => x mod 256 :: bytes_of_len n' (x / 256)
  end.

(** Padding: a 1 bit, zeros up to 56 modulo 64, the bit length on 8 bytes. *)
Definition pad (msg : list Z) : list Z :=
  let n := Z.of_nat (List.length msg) in
  let zeros := Z.to_nat ((55 - n) mod 64) in
  msg ++ [0x80] ++ repeat 0 zeros ++ bytes_of_len 8 ((8 * n) mod 2 ^ 64).

(** Cut a byte list into consecutive groups of [k]. *)
Fixpoint chunks_of (fuel : nat) (k : nat) (l : list Z) : list (list Z) :=
  match fuel with
  | O => []
  | Datatypes.S fuel' =>
      match l with
      | [] => []
      | _ => firstn k l :: chunks_of fuel' k (skipn k l)
      end
  end.

Definition words_of_block (blk : list Z) : list Z :=
  map word_of_bytes (chunks_of 16 4 blk).

Definition round_fg (i : Z) (b c d : Z) : Z * Z :=
  if i <? 16 then (Z.lor (Z.land b c) (Z.land (not32 b) d), i)
  else if i <? 32 then (Z.lor (Z.land d b) (Z.land (not32 d) c), (5 * i + 1) mod 16)
  else if i <? 48 then (Z.lxor (Z.lxor b c) d, (3 * i + 5) mod 16)
  else (Z.lxor c (Z.lor b (not32 d)), (7 * i) mod 16).

Definition step (M : list Z) (st : state) (i : Z) : state :=
  let '(State a b c d) := st in
  let '(f, g) := round_fg i b c d in
  let f' := add32 (add32 (add32 f a) (nth (Z.to_nat i) K 0)) (nth (Z.to_nat g) M 0) in
  State d (add32 b (rotl32 f' (nth (Z.to_nat i) S 0))) b c.

Definition rounds : list Z := map Z.of_nat (seq 0 64).

Definition compress (st : state) (blk : list Z) : state :=
  let M := words_of_block blk in
  let '(State a b c d) := fold_left (step M) rounds st in
  State (add32 (sA st) a) (add32 (sB st) b) (add32 (sC st) c) (add32 (sD st) d).

(** The 16 digest bytes. *)
Definition digest (msg : list Z) : list Z :=
  let p := pad msg in
  let st := fold_left compress (chunks_of (List.length p) 64 p) init in
  bytes_of_word (sA st) ++ bytes_of_word (sB st)
    ++ bytes_of_word (sC st) ++ bytes_of_word (sD st).

End MD5.

(* ================================================================== *)
(** ** Python numbers *)

(** A Python [float]: IEEE-754 binary64. *)
Definition float64 : Type := spec_float.

Definition prec : Z := 53.
Definition emax : Z := 1024.

Definition fsub : float64 -> float64 -> float64 := SFsub prec emax.
Definition fmul : float64 -> float64 -> float64 := SFmul prec emax.
Definition fdiv : float64 -> float64 -> float64 := SFdiv prec emax.
Definition fltb : float64 -> float64 -> bool := SFltb.
Definition fleb : float64 -> float64 -> bool := SFleb.

(** [float(z)] for an [int]: the nearest binary64, ties to even.  (CPython
    raises [OverflowError] from 2^1024 on; no [int] of the script, a byte, the
    constant 1000 or a [len], comes near.) *)
Definition float_of_int (z : Z) : float64 := binary_normalize prec emax z 0 false.

(** An [int] as an exact dyadic value, before any rounding. *)
Definition exact_of_int (z : Z) : float64 :=
  match z with
  | Z0 => S754_zero false
  | Zpos p => S754_finite false p 0
  | Zneg p => S754_finite true p 0
  end.

Definition is_zero (f : float64) : bool :=
  match f with S754_zero _ => true | _ => false end.

Arguments fsub : simpl never.
Arguments fmul : simpl never.
Arguments fdiv : simpl never.
Arguments float_of_int : simpl never.

Definition f0 : float64 := S754_zero false.
Definition f1 : float64 := Eval cbv in float_of_int 1.
Definition f255 : float64 := Eval cbv in float_of_int 255.
Definition f1000 : float64 := Eval cbv in float_of_int 1000.

(** An exception, instance of [Exception]: its class and what [str(e)]
    shows of it. *)
Inductive exn : Type := PyExc (cls : string) (msg : string).

Definition str_exn (e : exn) : string := let '(PyExc _ msg) := e in msg.

Definition ValueError (msg : string) : exn := PyExc "ValueError" msg.

(** [x / y] on two floats; true division raises [ZeroDivisionError] on a
    zero divisor. *)
Definition float_truediv (x y : float64) : exn + float64 :=
  if is_zero y then inl (PyExc "ZeroDivisionError" "float division by zero")
  else inr (fdiv x y).

(** [a / b] on two ints: the exact quotient, rounded once. *)
Definition int_truediv (a b : Z) : exn + float64 :=
  if b =? 0 then inl (PyExc "ZeroDivisionError" "division by zero")
  else inr (SFdiv prec emax (exact_of_int a) (exact_of_int b)).

(* ================================================================== *)
(** ** Python strings

    The strings of the script's own (paths, parser names, messages) are
    Rocq [string]s; the content of a file or of a chunk is a [unicode]
    value, which can hold any code point. *)

Infix "+++" := String.append (at level 60, right associativity).

Definition dquote : ascii := "034"%char.
Definition backslash : ascii := "092"%char.
Definition newline : ascii := "010"%char.

Definition str1 (c : ascii) : string := String c EmptyString.

(** [ord(c)]. *)
Definition code (c : ascii) : Z := Z.of_nat (nat_of_ascii c).

Definition hex_digit (n : Z) : ascii :=
  nth (Z.to_nat n) (list_ascii_of_string "0123456789abcdef") "0"%char.

(** Four lower-case hexadecimal digits. *)
Definition hex4 (n : Z) : string :=
  String (hex_digit ((n / 4096) mod 16)) (String (hex_digit ((n / 256) mod 16))
    (String (hex_digit ((n / 16) mod 16)) (String (hex_digit (n mod 16)) EmptyString))).

(** [str(z)] for an [int]. *)
Definition str_of_int (z : Z) : string := NilZero.string_of_int (Z.to_int z).

(** A [str] given by its code points, each from 0 to 0x10FFFF. *)
Definition unicode : Type := list Z.

Definition unicode_of_string (s : string) : unicode := map code (list_ascii_of_string s).

(** The code points U+D800 to U+DFFF, which no UTF-8 sequence encodes. *)
Definition is_surrogate (c : Z) : bool := (0xd800 <=? c) && (c <=? 0xdfff).

(** The UTF-8 sequence of one code point that is not a surrogate. *)
Definition utf8_char (c : Z) : list Z :=
  if c <? 0x80 then [c]
  else if c <? 0x800 then
    [Z.lor 0xc0 (Z.shiftr c 6); Z.lor 0x80 (Z.land c 0x3f)]
  else if c <? 0x10000 then
    [Z.lor 0xe0 (Z.shiftr c 12); Z.lor 0x80 (Z.land (Z.shiftr c 6) 0x3f);
     Z.lor 0x80 (Z.land c 0x3f)]
  else
    [Z.lor 0xf0 (Z.shiftr c 18); Z.lor 0x80 (Z.land (Z.shiftr c 12) 0x3f);
     Z.lor 0x80 (Z.land (Z.shiftr c 6) 0x3f); Z.lor 0x80 (Z.land c 0x3f)].

(** The length of the run of surrogates a text starts with. *)
Fixpoint surrogate_run (text : unicode) : nat :=
  match text with
  | [] => 0
  | c :: rest => if is_surrogate c then S (surrogate_run rest) else 0
  end.

(** The [UnicodeEncodeError] of the strict error handler for the
    surrogates from position [start] up to, not including, [stop], [c]
    being the first of them. *)
Definition UnicodeEncodeError (c : Z) (start stop : nat) : exn :=
  PyExc "UnicodeEncodeError"
    (if Nat.eqb stop (S start)
     then "'utf-8' codec can't encode character '" +++ String backslash (String "u" (hex4 c))
          +++ "' in position " +++ str_of_int (Z.of_nat start) +++ ": surrogates not allowed"
     else "'utf-8' codec can't encode characters in position "
          +++ str_of_int (Z.of_nat start) +++ "-" +++ str_of_int (Z.of_nat (pred stop))
          +++ ": surrogates not allowed").

(** [text.encode()] from position [pos] on: UTF-8, one to four bytes per
    code point; the first surrogate met raises. *)
Fixpoint utf8_from (pos : nat) (text : unicode) : exn + list Z :=
  match text with
  | [] => inr []
  | c :: rest =>
      if is_surrogate c then inl (UnicodeEncodeError c pos (pos + surrogate_run text))
      else match utf8_from (S pos) rest with
           | inl e => inl e
           | inr bytes => inr (utf8_char c ++ bytes)
           end
  end.

Definition utf8_encode (text : unicode) : exn + list Z := utf8_from 0 text.

(* ================================================================== *)
(** ** Python values and dicts *)

#[local] Unset Elimination Schemes.
Inductive pyval : Type :=
  | PNone
  | PBool (b : bool)
  | PInt (z : Z)
  | PFloat (f : float64)
  | PStr (s : string)
  | PList (l : list pyval)
  | PDict (d : list (string * pyval)).
#[local] Set Elimination Schemes.

Definition dict : Type := list (string * pyval).

(** [d[k]]; [None] stands for [KeyError]. *)
Fixpoint dict_get (d : dict) (k : string) : option pyval :=
  match d with
  | [] => None
  | (k', v) :: d' => if String.eqb k' k then Some v else dict_get d' k
  end.

(** [d[k] = v]: an existing key keeps its position. *)
Fixpoint dict_set (d : dict) (k : string) (v : pyval) : dict :=
  match d with
  | [] => [(k, v)]
  | (k', v') :: d' =>
      if String.eqb k' k then (k, v) :: d' else (k', v') :: dict_set d' k v
  end.

Definition dict_keys (d : dict) : list string := map fst d.

(** [d[k]]. *)
Definition getitem (d : dict) (k : string) : exn + pyval :=
  match dict_get d k with
  | Some v => inr v
  | None => inl (PyExc "KeyError" k)
  end.

(** [d[k].append(x)]: the entry must exist and be a list. *)
Definition append_to (d : dict) (k : string) (x : pyval) : exn + dict :=
  match dict_get d k with
  | Some (PList l) => inr (dict_set d k (PList (l ++ [x])))
  | Some _ => inl (PyExc "AttributeError" "object has no attribute 'append'")
  | None => inl (PyExc "KeyError" k)
  end.

(** The truth value of an object in a condition. *)
Definition truth (v : pyval) : bool :=
  match v with
  | PNone => false
  | PBool b => b
  | PInt z => negb (z =? 0)
  | PFloat f => negb (is_zero f)
  | PStr s => negb (String.eqb s "")
  | PList l => match l with [] => false | _ => true end
  | PDict d => match d with [] => false | _ => true end
  end.

(** [result["success"]] read off a record: false when absent or false. *)
Definition dict_success (d : dict) : bool :=
  match dict_get d "success" with
  | Some v => truth v
  | None => false
  end.

(* ================================================================== *)
(** ** The outside world *)

(** The parser classes of [chunkhound.parsers]; [Chunk.content] is the only
    attribute of a chunk the script reads. *)
Inductive Parser : Type := MarkdownParser | RapidYamlParser | VueParser | CodeParser.

Record Chunk : Type := { content : unicode }.

(** What the script cannot decide by itself.  Every call that leaves the
    script advances a counter, and the world answers by the value of that
    counter: two calls with the same arguments may get different answers.
    - [clock]: the value [time.time()] returns;
    - [path_exists]: [Path.exists()], which answers [False] when the path
      is not there and re-raises any other [OSError] of the look-up (a
      directory that may not be searched, say);
    - [read_text]: [open(p, 'r', encoding='utf-8')] followed by [f.read()];
    - [construct]: the [from ... import] of a parser class and its call;
    - [parse]: [parser.parse(content, path)];
    - [open_write]: [open(p, 'w', encoding='utf-8')], [Some e] when it raises. *)
Record World : Type := {
  script_dir : string;
  project_root : string;
  sys_version : string;
  clock : nat -> float64;
  path_exists : nat -> string -> exn + bool;
  read_text : nat -> string -> exn + unicode;
  construct : nat -> Parser -> exn + unit;
  parse : nat -> Parser -> unicode -> string -> exn + list Chunk;
  open_write : nat -> string -> option exn
}.

(** What the script changes: the call counter, the lines printed and the
    files written, latest first. *)
Record St : Type := {
  tick : nat;
  stdout : list string;
  written : list (string * string)
}.

Definition M (A : Type) : Type := St -> A * St.

Definition ret {A} (a : A) : M A := fun st => (a, st).

Definition bind {A B} (c : M A) (k : A -> M B) : M B :=
  fun st => let '(a, st') := c st in k a st'.

(** Computations that may raise. *)
Definition E (A : Type) : Type := M (exn + A).

Definition eret {A} (a : A) : E A := ret (inr a).

Definition raise {A} (e : exn) : E A := ret (inl e).

Definition ebind {A B} (c : E A) (k : A -> E B) : E B :=
  bind c (fun r => match r with inl e => ret (inl e) | inr a => k a end).

Notation "'let*' x ':=' c 'in' k" := (bind c (fun x => k))
  (at level 10, x pattern, c at level 100, k at level 200).

Notation "'let?' x ':=' c 'in' k" := (ebind c (fun x => k))
  (at level 10, x pattern, c at level 100, k at level 200).

Definition next (st : St) : St :=
  {| tick := S (tick st); stdout := stdout st; written := written st |}.

Definition print (line : string) : M unit :=
  fun st => (tt, {| tick := tick st; stdout := line :: stdout st; written := written st |}).

Definition write_file (path text : string) : M unit :=
  fun st => (tt, {| tick := tick st; stdout := stdout st;
                    written := (path, text) :: written st |}).

Section Script.

Variable W : World.

Definition time_time : M float64 := fun st => (clock W (tick st), next st).

Definition exists_ (p : string) : E bool := fun st => (path_exists W (tick st) p, next st).

Definition open_read (p : string) : E unicode := fun st => (read_text W (tick st) p, next st).

Definition new_parser (c : Parser) : E Parser :=
  fun st => (match construct W (tick st) c with inl e => inl e | inr _ => inr c end, next st).

Definition parser_parse (p : Parser) (text : unicode) (path : string) : E (list Chunk) :=
  fun st => (parse W (tick st) p text path, next st).

Definition open_for_write (p : string) : E unit :=
  fun st => (match open_write W (tick st) p with Some e => inl e | None => inr tt end, next st).

End Script.

(** [os.path.basename]: what follows the last slash. *)
Fixpoint has_slash (p : string) : bool :=
  match p with
  | EmptyString => false
  | String c r => if Ascii.eqb c "/" then true else has_slash r
  end.

Fixpoint basename (p : string) : string :=
  match p with
  | EmptyString => EmptyString
  | String c r => if has_slash r then basename r else if Ascii.eqb c "/" then r else p
  end.

(** [len] of a [str] of the script's own and of a list; a [unicode] is the
    list of its code points. *)
Definition len_str (s : string) : Z := Z.of_nat (String.length s).

Definition len {A} (l : list A) : Z := Z.of_nat (List.length l).

(** [sum(len(chunk.content) for chunk in chunks)]. *)
Definition sum_sizes (chunks : list Chunk) : Z :=
  fold_left (fun acc c => acc + len (content c)) chunks 0.

(** Truth value of a list in a condition. *)
Definition truthy {A} (l : list A) : bool :=
  match l with [] => false | _ => true end.

(** Line 50: [sum(...) / len(chunks) if chunks else 0]. *)
Definition avg_chunk_size (chunks : list Chunk) : exn + pyval :=
  if truthy chunks
  then match int_truediv (sum_sizes chunks) (len chunks) with
       | inl e => inl e
       | inr q => inr (PFloat q)
       end
  else inr (PInt 0).

(** Line 87: [(embed_time * 1000) / len(texts) if texts else 0]. *)
Definition avg_embed_time (embed_time_ms : float64) (texts : list unicode) : exn + pyval :=
  if truthy texts
  then match float_truediv embed_time_ms (float_of_int (len texts)) with
       | inl e => inl e
       | inr q => inr (PFloat q)
       end
  else inr (PInt 0).

Arguments avg_chunk_size : simpl never.
Arguments avg_embed_time : simpl never.

Section Benchmarks.

Variable W : World.

(** Lines 16-61. *)
Definition benchmark_file_parsing (file_path parser_name : string) : M dict :=
  let* start_time := time_time W in
  let* r :=
    (let? parser :=
       if String.eqb parser_name "markdown" then new_parser W MarkdownParser
       else if String.eqb parser_name "yaml" then new_parser W RapidYamlParser
       else if String.eqb parser_name "vue" then new_parser W VueParser
       else if String.eqb parser_name "code" then new_parser W CodeParser
       else raise (ValueError ("Unknown parser: " +++ parser_name)) in
     let? text := open_read W file_path in
     let? chunks := parser_parse W parser text file_path in
     let* now := time_time W in
     let parse_time := fsub now start_time in
     let? avg := ret (avg_chunk_size chunks) in
     eret [ ("file", PStr (basename file_path));
            ("parser", PStr parser_name);
            ("parse_time_ms", PFloat (fmul parse_time f1000));
            ("chunk_count", PInt (len chunks));
            ("total_chunk_size", PInt (sum_sizes chunks));
            ("avg_chunk_size", avg);
            ("success", PBool true) ]) in
  match r with
  | inr d => ret d
  | inl e =>
      let* now := time_time W in
      ret [ ("file", PStr (basename file_path));
            ("parser", PStr parser_name);
            ("parse_time_ms", PFloat (fmul (fsub now start_time) f1000));
            ("error", PStr (str_exn e));
            ("success", PBool false) ]
  end.

End Benchmarks.

Arguments benchmark_file_parsing : simpl never.

(* ================================================================== *)
(** ** The fake embedding provider *)

(** [hash_obj.hexdigest()]: two lower-case hexadecimal digits per byte. *)
Definition hexdigest (d : list Z) : string :=
  string_of_list_ascii (flat_map (fun b => [hex_digit (b / 16); hex_digit (b mod 16)]) d).

Definition hex_value (c : ascii) : option Z :=
  let n := code c in
  if (48 <=? n) && (n <=? 57) then Some (n - 48)
  else if (97 <=? n) && (n <=? 102) then Some (n - 87)
  else if (65 <=? n) && (n <=? 70) then Some (n - 55)
  else None.

Fixpoint int16_acc (acc : Z) (s : string) : option Z :=
  match s with
  | EmptyString => Some acc
  | String c r =>
      match hex_value c with
      | Some v => int16_acc (16 * acc + v) r
      | None => None
      end
  end.

(** [int(s, 16)] on a string of hexadecimal digits; anything else is taken
    to raise [ValueError] (CPython also accepts a sign, blanks, underscores
    and a [0x] prefix, which no slice of a hex digest has). *)
Definition int_base16 (s : string) : exn + Z :=
  match s with
  | EmptyString => inl (ValueError "invalid literal for int() with base 16: ''")
  | _ =>
      match int16_acc 0 s with
      | Some z => inr z
      | None => inl (ValueError ("invalid literal for int() with base 16: '" +++ s +++ "'"))
      end
  end.

(** [range(start, stop, step)] for a positive step. *)
Fixpoint range_from (fuel i stop step : nat) : list nat :=
  match fuel with
  | O => []
  | S fuel' => if Nat.ltb i stop then i :: range_from fuel' (i + step) stop step else []
  end.

Definition range (start stop step : nat) : list nat := range_from stop start stop step.

(** A list comprehension whose element expression may raise. *)
Fixpoint comprehension {A B} (f : A -> exn + B) (l : list A) : exn + list B :=
  match l with
  | [] => inr []
  | a :: l' =>
      match f a with
      | inl e => inl e
      | inr b => match comprehension f l' with
                 | inl e => inl e
                 | inr bs => inr (b :: bs)
                 end
      end
  end.

(** Lines 74-75: the vector of one text. *)
Definition fake_embedding (text : unicode) : exn + list float64 :=
  match utf8_encode text with
  | inl e => inl e
  | inr bytes =>
      let hash_obj := MD5.digest bytes in
      comprehension
        (fun i => match int_base16 (substring i 2 (hexdigest hash_obj)) with
                  | inl e => inl e
                  | inr n => float_truediv (float_of_int n) f255
                  end)
        (range 0 32 2)
  end.

(** Lines 70-76: the loop over [texts], [embeddings] being the list built so far. *)
Fixpoint embed_loop (texts : list unicode) (embeddings : list (list float64))
  : exn + list (list float64) :=
  match texts with
  | [] => inr embeddings
  | text :: rest =>
      match fake_embedding text with
      | inl e => inl e
      | inr embedding => embed_loop rest (embeddings ++ [embedding])
      end
  end.

Section Embedding.

Variable W : World.

(** Lines 63-98.  The source returns the record only; the model returns
    with it the final value of the local [embeddings], [None] when the body
    raised, so that the vectors can be spoken of. *)
Definition benchmark_embedding_run (texts : list unicode) (provider_name : string)
  : M (dict * option (list (list float64))) :=
  let* start_time := time_time W in
  let* r :=
    (let? embeddings :=
       ret (if String.eqb provider_name "fake" then embed_loop texts []
            else inl (ValueError ("Unknown embedding provider: " +++ provider_name))) in
     let* now := time_time W in
     let embed_time := fsub now start_time in
     let? avg := ret (avg_embed_time (fmul embed_time f1000) texts) in
     eret ([ ("embedding_provider", PStr provider_name);
             ("text_count", PInt (len texts));
             ("embed_time_ms", PFloat (fmul embed_time f1000));
             ("avg_embed_time_per_text_ms", avg);
             ("success", PBool true) ], embeddings)) in
  match r with
  | inr (d, embeddings) => ret (d, Some embeddings)
  | inl e =>
      let* now := time_time W in
      ret ([ ("embedding_provider", PStr provider_name);
             ("text_count", PInt (len texts));
             ("embed_time_ms", PFloat (fmul (fsub now start_time) f1000));
             ("error", PStr (str_exn e));
             ("success", PBool false) ], None)
  end.

Definition benchmark_embedding (texts : list unicode) (provider_name : string) : M dict :=
  let* r := benchmark_embedding_run texts provider_name in ret (fst r).

End Embedding.

Arguments benchmark_embedding_run : simpl never.
Arguments benchmark_embedding : simpl never.

(* ================================================================== *)
(** ** Numbers as text *)

(** The decimal digits of a natural number. *)
Definition digits_of (n : Z) : string := NilZero.string_of_uint (N.to_uint (Z.to_N n)).

Definition is_digit (c : ascii) : bool := (48 <=? code c) && (code c <=? 57).

(** The value of a string of decimal digits, leading zeros allowed. *)
Definition value_of_digits (s : string) : option Z :=
  match NilEmpty.uint_of_string s with
  | Some d => Some (Z.of_N (N.of_uint d))
  | None => None
  end.

(** The binary64 nearest to [(-1)^neg * m * 10^e10], ties to even: what
    [float()] makes of a decimal literal. *)
Definition decimal_value (neg : bool) (m e10 : Z) : float64 :=
  if m =? 0 then S754_zero neg
  else
    let x := if 0 <=? e10
             then binary_normalize prec emax (m * 10 ^ e10) 0 false
             else SFdiv prec emax (exact_of_int m) (exact_of_int (10 ^ (- e10))) in
    if neg then SFopp x else x.

(** The longest prefix of digits, and what follows it. *)
Fixpoint span_digits (s : string) : string * string :=
  match s with
  | EmptyString => (EmptyString, EmptyString)
  | String c r =>
      if is_digit c
      then let '(d, r') := span_digits r in (String c d, r')
      else (EmptyString, s)
  end.

(** Bit-for-bit equality of two floats. *)
Definition float_same (f g : float64) : bool :=
  match f, g with
  | S754_zero s, S754_zero t => Bool.eqb s t
  | S754_infinity s, S754_infinity t => Bool.eqb s t
  | S754_nan, S754_nan => true
  | S754_finite s m e, S754_finite t n k => Bool.eqb s t && Pos.eqb m n && (e =? k)
  | _, _ => false
  end.

(** A JSON number at the head of [s], as the decoder's scanner reads it:
    an optional minus sign; a lone zero, or a non-zero digit and the digits
    that follow; an optional point with one digit or more; an optional [e]
    or [E] with an optional sign and one digit or more.  The number is an
    [int] when it has neither fraction nor exponent, a [float] otherwise. *)
Definition scan_sign (s : string) : bool * string :=
  match s with
  | String c r => if Ascii.eqb c "-" then (true, r) else (false, s)
  | EmptyString => (false, s)
  end.

Definition scan_fraction (s : string) : option string * string :=
  match s with
  | String c r =>
      if Ascii.eqb c "."
      then match span_digits r with
           | (EmptyString, _) => (None, s)
           | (fd, r') => (Some fd, r')
           end
      else (None, s)
  | EmptyString => (None, s)
  end.

Definition scan_exponent (s : string) : option (bool * string) * string :=
  match s with
  | String c r =>
      if Ascii.eqb c "e" || Ascii.eqb c "E"
      then
        let '(neg, r1) :=
          match r with
          | String c1 r' =>
              if Ascii.eqb c1 "-" then (true, r')
              else if Ascii.eqb c1 "+" then (false, r')
              else (false, r)
          | EmptyString => (false, r)
          end in
        match span_digits r1 with
        | (EmptyString, _) => (None, s)
        | (ed, r2) => (Some (neg, ed), r2)
        end
      else (None, s)
  | EmptyString => (None, s)
  end.

Definition scan_number (s : string) : option (pyval * string) :=
  let '(neg, s1) := scan_sign s in
  match s1 with
  | String c r =>
      if is_digit c then
        let '(ip, s2) :=
          if Ascii.eqb c "0" then (String c EmptyString, r) else span_digits s1 in
        let '(frac, s3) := scan_fraction s2 in
        let '(ex, s4) := scan_exponent s3 in
        match frac, ex with
        | None, None =>
            match value_of_digits ip with
            | Some v => Some (PInt (if neg then - v else v), s4)
            | None => None
            end
        | _, _ =>
            let fd := match frac with Some fd => fd | None => EmptyString end in
            let e10 := match ex with
                       | Some (eneg, ed) =>
                           match value_of_digits ed with
                           | Some v => if eneg then - v else v
                           | None => 0
                           end
                       | None => 0
                       end in
            match value_of_digits (ip +++ fd) with
            | Some m => Some (PFloat (decimal_value neg m (e10 - len_str fd)), s4)
            | None => None
            end
        end
      else None
  | EmptyString => None
  end.

(** *** [float.__repr__]: the shortest decimal that reads back as the float *)

(** [floor (log10 (num / den))] for positive [num] and [den]. *)
Definition floor_log10 (num den : Z) : Z :=
  let e := len_str (digits_of num) - len_str (digits_of den) in
  let reached := if 0 <=? e then den * 10 ^ e <=? num else den <=? num * 10 ^ (- e) in
  if reached then e else e - 1.

(** A finite float as a fraction. *)
Definition fraction_of (m : positive) (e : Z) : Z * Z :=
  if 0 <=? e then (Zpos m * 2 ^ e, 1) else (Zpos m, 2 ^ (- e)).

(** The two decimals of [n] significant digits around [m * 2^e], the
    nearer first (on a tie the even one), as pairs [(d, k)] meaning
    [d * 10^k]; one only when the float is such a decimal itself. *)
Definition candidates (m : positive) (e : Z) (n : Z) : list (Z * Z) :=
  let '(num, den) := fraction_of m e in
  let k := floor_log10 num den - (n - 1) in
  let '(num', den') := if 0 <=? k then (num, den * 10 ^ k) else (num * 10 ^ (- k), den) in
  let lo := num' / den' in
  let r := num' mod den' in
  if r =? 0 then [(lo, k)]
  else if (2 * r <? den') || ((2 * r =? den') && Z.even lo)
       then [(lo, k); (lo + 1, k)]
       else [(lo + 1, k); (lo, k)].

Fixpoint strip_zeros (fuel : nat) (d k : Z) : Z * Z :=
  match fuel with
  | O => (d, k)
  | S fuel' => if (d mod 10 =? 0) && negb (d =? 0) then strip_zeros fuel' (d / 10) (k + 1) else (d, k)
  end.

Fixpoint zeros (n : nat) : string :=
  match n with
  | O => EmptyString
  | S n' => String "0" (zeros n')
  end.

(** The layout of [repr]: digits [ds] with the decimal point [decpt]
    places to the right of their start; exponent notation when
    [decpt <= -4] or [decpt > 16], and a final [.0] on a whole number. *)
Definition format_repr (neg : bool) (ds : string) (decpt : Z) : string :=
  let n := len_str ds in
  let body :=
    if (decpt <=? -4) || (16 <? decpt) then
      let e := decpt - 1 in
      let ed := digits_of (Z.abs e) in
      substring 0 1 ds
        +++ (if 1 <? n then "." +++ substring 1 (String.length ds - 1) ds else "")
        +++ "e" +++ (if e <? 0 then "-" else "+")
        +++ (if len_str ed <? 2 then "0" +++ ed else ed)
    else if decpt <=? 0 then "0." +++ zeros (Z.to_nat (- decpt)) +++ ds
    else if decpt <? n then
      substring 0 (Z.to_nat decpt) ds +++ "."
        +++ substring (Z.to_nat decpt) (String.length ds - Z.to_nat decpt) ds
    else ds +++ zeros (Z.to_nat (decpt - n)) +++ ".0" in
  if neg then "-" +++ body else body.

Definition format_candidate (neg : bool) (c : Z * Z) : string :=
  let '(d, k) := strip_zeros 17 (fst c) (snd c) in
  let ds := digits_of d in
  format_repr neg ds (k + len_str ds).

(** [s] is a number that reads back as [f], and nothing else. *)
Definition reads_back (f : float64) (s : string) : bool :=
  match scan_number s with
  | Some (PFloat g, EmptyString) => float_same f g
  | _ => false
  end.

Definition precisions : list Z := map Z.of_nat (seq 1 17).

(** [repr(f)] for a finite [f]: the first layout, by growing number of
    digits, that reads back as [f].  CPython's search always ends, by 17
    digits; [None] stands for a search that would not. *)
Definition float_repr (f : float64) : option string :=
  match f with
  | S754_zero s => Some (if s then "-0.0" else "0.0")
  | S754_finite s m e =>
      find (reads_back f) (map (format_candidate s) (flat_map (candidates m e) precisions))
  | S754_infinity s => Some (if s then "-inf" else "inf")
  | S754_nan => Some "nan"
  end.

(* ================================================================== *)
(** ** [json.dump(obj, f, indent=2)]

    The encoder with its defaults: [ensure_ascii=True], [allow_nan=True],
    item separator [","], key separator [": "]. *)

(** One character of a string: the short escapes, [\u00XX] for the other
    characters outside the range from the space to the tilde, itself otherwise. *)
Definition escape_char (c : ascii) : string :=
  let n := code c in
  if n =? 34 then String backslash (str1 dquote)
  else if n =? 92 then String backslash (str1 backslash)
  else if n =? 10 then String backslash "n"
  else if n =? 13 then String backslash "r"
  else if n =? 9 then String backslash "t"
  else if n =? 8 then String backslash "b"
  else if n =? 12 then String backslash "f"
  else if (n <? 32) || (126 <? n) then String backslash (String "u" (hex4 n))
  else str1 c.

Fixpoint escape (s : string) : string :=
  match s with
  | EmptyString => EmptyString
  | String c r => escape_char c +++ escape r
  end.

Definition encode_basestring_ascii (s : string) : string :=
  String dquote (escape s +++ str1 dquote).

(** [floatstr]: [float.__repr__], with the three JSON names of the
    non-finite values. *)
Definition floatstr (f : float64) : option string :=
  match f with
  | S754_nan => Some "NaN"
  | S754_infinity false => Some "Infinity"
  | S754_infinity true => Some "-Infinity"
  | _ => float_repr f
  end.

Fixpoint spaces (n : nat) : string :=
  match n with
  | O => EmptyString
  | S n' => String " " (spaces n')
  end.

Definition newline_indent (level : nat) : string := String newline (spaces (2 * level)).

Definition item_separator (level : nat) : string := "," +++ newline_indent level.

Definition ocons {A} (a : option A) (l : option (list A)) : option (list A) :=
  match a, l with
  | Some x, Some xs => Some (x :: xs)
  | _, _ => None
  end.

(** All the elements through [f], or [None] as soon as one fails. *)
Definition map_opt {A B} (f : A -> option B) : list A -> option (list B) :=
  fix go (l : list A) : option (list B) :=
    match l with
    | [] => Some []
    | x :: l' => ocons (f x) (go l')
    end.

(** A non-empty container: its items, one per line, between the brackets. *)
Definition bracketed (opening closing : string) (level : nat) (items : list string) : string :=
  opening +++ newline_indent (S level)
    +++ String.concat (item_separator (S level)) items
    +++ newline_indent level +++ closing.

Definition keyed (k : string) (t : string) : string :=
  encode_basestring_ascii k +++ ": " +++ t.

(** The text of a value at nesting [level]; [None] when a float has no
    [repr] (see [float_repr]). *)
Fixpoint json_encode (level : nat) (v : pyval) : option string :=
  match v with
  | PNone => Some "null"
  | PBool true => Some "true"
  | PBool false => Some "false"
  | PInt z => Some (str_of_int z)
  | PFloat f => floatstr f
  | PStr s => Some (encode_basestring_ascii s)
  | PList [] => Some "[]"
  | PList l =>
      option_map (bracketed "[" "]" level) (map_opt (json_encode (S level)) l)
  | PDict [] => Some "{}"
  | PDict d =>
      option_map (bracketed "{" "}" level)
        (map_opt (fun kv : string * pyval =>
                    let '(k, x) := kv in option_map (keyed k) (json_encode (S level) x))
                 d)
  end.

Definition json_dumps (v : pyval) : option string := json_encode 0 v.

(* ================================================================== *)
(** ** [json.loads]

    The decoder with its defaults ([strict=True]).  A document that holds
    a character beyond code point 255 has no value in this model. *)

Definition is_ws (c : ascii) : bool :=
  Ascii.eqb c " " || Ascii.eqb c "009" || Ascii.eqb c "010" || Ascii.eqb c "013".

Fixpoint skip_ws (s : string) : string :=
  match s with
  | EmptyString => EmptyString
  | String c r => if is_ws c then skip_ws r else s
  end.

(** The character a one-letter escape stands for. *)
Definition unescape (e : ascii) : option ascii :=
  if Ascii.eqb e dquote then Some dquote
  else if Ascii.eqb e backslash then Some backslash
  else if Ascii.eqb e "/" then Some "/"%char
  else if Ascii.eqb e "b" then Some "008"%char
  else if Ascii.eqb e "f" then Some "012"%char
  else if Ascii.eqb e "n" then Some "010"%char
  else if Ascii.eqb e "r" then Some "013"%char
  else if Ascii.eqb e "t" then Some "009"%char
  else None.

Definition hex4_value (a b c d : ascii) : option Z :=
  match hex_value a, hex_value b, hex_value c, hex_value d with
  | Some x, Some y, Some z, Some w => Some (4096 * x + 256 * y + 16 * z + w)
  | _, _, _, _ => None
  end.

Definition prepend (c : ascii) (r : option (string * string)) : option (string * string) :=
  match r with
  | Some (s, rest) => Some (String c s, rest)
  | None => None
  end.

(** [scanstring], from the character after the opening quote: the string
    and what follows its closing quote. *)
Fixpoint scan_string (s : string) : option (string * string) :=
  match s with
  | EmptyString => None
  | String c r =>
      if Ascii.eqb c dquote then Some (EmptyString, r)
      else if Ascii.eqb c backslash then
        match r with
        | String e r1 =>
            if Ascii.eqb e "u" then
              match r1 with
              | String h1 (String h2 (String h3 (String h4 r2))) =>
                  match hex4_value h1 h2 h3 h4 with
                  | Some n =>
                      if n <? 256 then prepend (ascii_of_nat (Z.to_nat n)) (scan_string r2)
                      else None
                  | None => None
                  end
              | _ => None
              end
            else
              match unescape e with
              | Some ch => prepend ch (scan_string r1)
              | None => None
              end
        | EmptyString => None
        end
      else if code c <? 32 then None
      else prepend c (scan_string r)
  end.

(** [s] begins with [p]: what follows. *)
Fixpoint strip_prefix (p s : string) : option string :=
  match p with
  | EmptyString => Some s
  | String c p' =>
      match s with
      | String c' s' => if Ascii.eqb c c' then strip_prefix p' s' else None
      | EmptyString => None
      end
  end.

(** [dict(pairs)]: a repeated key keeps its first place and its last value. *)
Definition dict_of_pairs (pairs : list (string * pyval)) : dict :=
  fold_left (fun d kv => dict_set d (fst kv) (snd kv)) pairs [].

(** The scalar tokens that are not strings, in the order [scan_once] tries
    them. *)
Definition scan_scalar (s : string) : option (pyval * string) :=
  match strip_prefix "null" s with
  | Some r => Some (PNone, r)
  | None =>
  match strip_prefix "true" s with
  | Some r => Some (PBool true, r)
  | None =>
  match strip_prefix "false" s with
  | Some r => Some (PBool false, r)
  | None =>
  match scan_number s with
  | Some r => Some r
  | None =>
  match strip_prefix "NaN" s with
  | Some r => Some (PFloat S754_nan, r)
  | None =>
  match strip_prefix "Infinity" s with
  | Some r => Some (PFloat (S754_infinity false), r)
  | None =>
  match strip_prefix "-Infinity" s with
  | Some r => Some (PFloat (S754_infinity true), r)
  | None => None
  end end end end end end end.

(** [scan_once] and its two loops, [JSONArray] and [JSONObject]; every
    call spends one unit of [fuel]. *)
Fixpoint scan_value (fuel : nat) (s : string) : option (pyval * string) :=
  match fuel with
  | O => None
  | S fuel' =>
      match s with
      | EmptyString => None
      | String c r =>
          if Ascii.eqb c dquote then
            match scan_string r with
            | Some (str, rest) => Some (PStr str, rest)
            | None => None
            end
          else if Ascii.eqb c "{" then
            match skip_ws r with
            | String c1 r1 =>
                if Ascii.eqb c1 "}" then Some (PDict [], r1)
                else match scan_members fuel' (String c1 r1) with
                     | Some (pairs, rest) => Some (PDict (dict_of_pairs pairs), rest)
                     | None => None
                     end
            | EmptyString => None
            end
          else if Ascii.eqb c "[" then
            match skip_ws r with
            | String c1 r1 =>
                if Ascii.eqb c1 "]" then Some (PList [], r1)
                else match scan_items fuel' (String c1 r1) with
                     | Some (vs, rest) => Some (PList vs, rest)
                     | None => None
                     end
            | EmptyString => None
            end
          else scan_scalar s
      end
  end

with scan_items (fuel : nat) (s : string) : option (list pyval * string) :=
  match fuel with
  | O => None
  | S fuel' =>
      match scan_value fuel' s with
      | Some (v, s1) =>
          match skip_ws s1 with
          | String c r =>
              if Ascii.eqb c "]" then Some ([v], r)
              else if Ascii.eqb c "," then
                match scan_items fuel' (skip_ws r) with
                | Some (vs, rest) => Some (v :: vs, rest)
                | None => None
                end
              else None
          | EmptyString => None
          end
      | None => None
      end
  end

with scan_members (fuel : nat) (s : string) : option (list (string * pyval) * string) :=
  match fuel with
  | O => None
  | S fuel' =>
      match s with
      | String q r =>
          if Ascii.eqb q dquote then
            match scan_string r with
            | Some (k, s1) =>
                match skip_ws s1 with
                | String c r1 =>
                    if Ascii.eqb c ":" then
                      match scan_value fuel' (skip_ws r1) with
                      | Some (v, s2) =>
                          match skip_ws s2 with
                          | String c2 r2 =>
                              if Ascii.eqb c2 "}" then Some ([(k, v)], r2)
                              else if Ascii.eqb c2 "," then
                                match scan_members fuel' (skip_ws r2) with
                                | Some (kvs, rest) => Some ((k, v) :: kvs, rest)
                                | None => None
                                end
                              else None
                          | EmptyString => None
                          end
                      | None => None
                      end
                    else None
                | EmptyString => None
                end
            | None => None
            end
          else None
      | EmptyString => None
      end
  end.

(** [json.loads(s)]: one value, blanks allowed around it, nothing else. *)
Definition json_loads (s : string) : option pyval :=
  match scan_value (String.length s) (skip_ws s) with
  | Some (v, rest) =>
      match skip_ws rest with
      | EmptyString => Some v
      | _ => None
      end
  | None => None
  end.

(* ================================================================== *)
(** ** The driver *)

(** Lines 117-122. *)
Definition test_files : list (string * string) :=
  [ ("sample.md", "markdown");
    ("sample.yaml", "yaml");
    ("sample.vue", "vue");
    ("sample.cs", "code") ].

(** [p / name] on paths, [p] not being the root directory. *)
Definition path_join (p name : string) : string := p +++ "/" +++ name.

(** The locals of [main] that live across the iterations of its loop. *)
Record Locals : Type := {
  results : dict;
  all_texts : list unicode;
  parser : option Parser
}.

Definition with_results (d : dict) (l : Locals) : Locals :=
  {| results := d; all_texts := all_texts l; parser := parser l |}.

Definition with_parser (p : option Parser) (l : Locals) : Locals :=
  {| results := results l; all_texts := all_texts l; parser := p |}.

Definition extend_texts (ts : list unicode) (l : Locals) : Locals :=
  {| results := results l; all_texts := all_texts l ++ ts; parser := parser l |}.

(** A [for] loop whose body may raise. *)
Fixpoint for_each {A S : Type} (body : S -> A -> E S) (items : list A) (s : S) : E S :=
  match items with
  | [] => eret s
  | a :: rest => let? s' := body s a in for_each body rest s'
  end.

Section Driver.

Variable W : World.

(** Lines 136-147: the chain has no [else]; when no branch is taken,
    [parser] keeps the binding it had. *)
Definition rebind_parser (parser_name : string) : E (option Parser) :=
  if String.eqb parser_name "markdown"
  then let? p := new_parser W MarkdownParser in eret (Some p)
  else if String.eqb parser_name "yaml"
  then let? p := new_parser W RapidYamlParser in eret (Some p)
  else if String.eqb parser_name "vue"
  then let? p := new_parser W VueParser in eret (Some p)
  else if String.eqb parser_name "code"
  then let? p := new_parser W CodeParser in eret (Some p)
  else eret None.

(** Line 155, the handler of the second [try]. *)
Definition report_collect_error (filename : string) (e : exn) (l : Locals) : M Locals :=
  let* _ := print ("Error collecting texts for " +++ filename +++ ": " +++ str_exn e) in
  ret l.

(** Lines 135-155: the second, untimed parse. *)
Definition collect_texts (filename file_path parser_name : string) (l : Locals) : M Locals :=
  let* c := rebind_parser parser_name in
  match c with
  | inl e => report_collect_error filename e l
  | inr rebound =>
      let l1 := match rebound with Some p => with_parser (Some p) l | None => l end in
      let* t := open_read W file_path in
      match t with
      | inl e => report_collect_error filename e l1
      | inr text =>
          let* cs :=
            match parser l1 with
            | Some p => parser_parse W p text file_path
            | None =>
                raise (PyExc "UnboundLocalError"
                         "cannot access local variable 'parser' where it is not associated with a value")
            end in
          match cs with
          | inl e => report_collect_error filename e l1
          | inr chunks => ret (extend_texts (map content chunks) l1)
          end
      end
  end.

(** Lines 127-157: one iteration of the loop over [test_files]. *)
Definition main_loop_body (test_files_dir : string) (l : Locals) (item : string * string)
  : E Locals :=
  let '(filename, parser_name) := item in
  let file_path := path_join test_files_dir filename in
  let? present := exists_ W file_path in
  if present then
    let* _ := print ("Benchmarking " +++ filename +++ " with " +++ parser_name +++ " parser...") in
    let* result := benchmark_file_parsing W file_path parser_name in
    let? d := ret (append_to (results l) "parsing_results" (PDict result)) in
    let l := with_results d l in
    let? ok := ret (getitem result "success") in
    if truth ok then
      let* l := collect_texts filename file_path parser_name l in eret l
    else eret l
  else
    let* _ := print ("Test file not found: " +++ file_path) in
    eret l.

(** Lines 159-163. *)
Definition embedding_step (l : Locals) : E dict :=
  if truthy (all_texts l) then
    let* _ := print ("Benchmarking embedding for " +++ str_of_int (len (all_texts l))
                       +++ " texts...") in
    let* embed_result := benchmark_embedding W (all_texts l) "fake" in
    ret (append_to (results l) "embedding_results" (PDict embed_result))
  else eret (results l).

(** Lines 109-163: from the creation of [results] to its last update. *)
Definition measure (test_files_dir : string) : E dict :=
  let* now := time_time W in
  let results := [ ("timestamp", PFloat now);
                   ("python_version", PStr (sys_version W));
                   ("parsing_results", PList []);
                   ("embedding_results", PList []) ] in
  let? l := for_each (main_loop_body test_files_dir) test_files
              {| results := results; all_texts := []; parser := None |} in
  embedding_step l.

(** Lines 165-170.  [json.dump] raises on no report the script can build;
    where the model's encoder has no text for a float (see [float_repr]),
    the model raises and leaves the file unwritten. *)
Definition save (results : dict) : E unit :=
  let output_file := path_join (script_dir W) "benchmark_results.json" in
  let? _ := open_for_write W output_file in
  match json_dumps (PDict results) with
  | None => raise (ValueError "float without a repr")
  | Some text =>
      let* _ := write_file output_file text in
      let* _ := print ("Benchmark results saved to: " +++ output_file) in
      eret tt
  end.

(** Lines 100-170.  The source returns [None]; the model returns the
    final value of the local [results], or [None] when the run stops at the
    missing fixture directory.  The summary printed by lines 172-184 reads
    [results] and changes nothing; it is modelled apart, by
    [print_summary]. *)
Definition main : E (option dict) :=
  let test_files_dir :=
    path_join (path_join (path_join (project_root W) "ChunkHound.Tests") "Benchmarks")
              "TestFiles" in
  let? present := exists_ W test_files_dir in
  if negb present then
    let* _ := print ("Test files directory not found: " +++ test_files_dir) in
    eret None
  else
    let? results := measure test_files_dir in
    let? _ := save results in
    eret (Some results).

End Driver.

Arguments collect_texts : simpl never.
Arguments main_loop_body : simpl never.
Arguments json_dumps : simpl never.

(* ================================================================== *)
(** ** The summary *)

(** [format(x, ".2f")] on a float: the decimal with two places nearest to
    it, ties to even. *)
Definition format_2f (f : float64) : string :=
  match f with
  | S754_nan => "nan"
  | S754_infinity s => if s then "-inf" else "inf"
  | S754_zero s => if s then "-0.00" else "0.00"
  | S754_finite s m e =>
      let '(num, den) := fraction_of m e in
      let q := (100 * num) / den in
      let r := (100 * num) mod den in
      let n := if (2 * r <? den) || ((2 * r =? den) && Z.even q) then q else q + 1 in
      let cents := digits_of (n mod 100) in
      (if s then "-" else "") +++ digits_of (n / 100) +++ "."
        +++ (if n mod 100 <? 10 then "0" +++ cents else cents)
  end.

(** [f"{v:.2f}"]: a float, or an [int] through [float()]; the other
    types refuse the format. *)
Definition format_spec_2f (v : pyval) : exn + string :=
  match v with
  | PFloat f => inr (format_2f f)
  | PInt z =>
      match float_of_int z with
      | S754_infinity _ => inl (PyExc "OverflowError" "int too large to convert to float")
      | f => inr (format_2f f)
      end
  | PBool b => inr (if b then "1.00" else "0.00")
  | PStr _ => inl (ValueError "Unknown format code 'f' for object of type 'str'")
  | PNone => inl (PyExc "TypeError" "unsupported format string passed to NoneType.__format__")
  | PList _ => inl (PyExc "TypeError" "unsupported format string passed to list.__format__")
  | PDict _ => inl (PyExc "TypeError" "unsupported format string passed to dict.__format__")
  end.

(** [str.isprintable] of one character below code point 256. *)
Definition printable (c : ascii) : bool :=
  let n := code c in
  ((32 <=? n) && (n <=? 126)) || ((161 <=? n) && negb (n =? 173)).

Fixpoint contains (c : ascii) (s : string) : bool :=
  match s with
  | EmptyString => false
  | String c' r => Ascii.eqb c c' || contains c r
  end.

Definition squote : ascii := "039"%char.

Definition repr_char (quote c : ascii) : string :=
  let n := code c in
  if Ascii.eqb c quote || Ascii.eqb c backslash then String backslash (str1 c)
  else if n =? 9 then String backslash "t"
  else if n =? 10 then String backslash "n"
  else if n =? 13 then String backslash "r"
  else if printable c then str1 c
  else String backslash (String "x" (String (hex_digit (n / 16)) (str1 (hex_digit (n mod 16))))).

(** [repr(s)] of a string: single quotes, unless it holds one and no
    double quote. *)
Definition repr_str (s : string) : string :=
  let quote := if contains squote s && negb (contains dquote s) then dquote else squote in
  String quote
    (String.concat "" (map (repr_char quote) (list_ascii_of_string s)) +++ str1 quote).

(** [repr(v)]; [None] when a float has no [repr] (see [float_repr]). *)
Fixpoint repr_of (v : pyval) : option string :=
  match v with
  | PNone => Some "None"
  | PBool b => Some (if b then "True" else "False")
  | PInt z => Some (str_of_int z)
  | PFloat f => float_repr f
  | PStr s => Some (repr_str s)
  | PList l =>
      option_map (fun ts => "[" +++ String.concat ", " ts +++ "]") (map_opt repr_of l)
  | PDict d =>
      option_map (fun ts => "{" +++ String.concat ", " ts +++ "}")
        (map_opt (fun kv : string * pyval =>
                    let '(k, x) := kv in
                    option_map (fun t => repr_str k +++ ": " +++ t) (repr_of x))
                 d)
  end.

(** [str(v)], what [f"{v}"] shows. *)
Definition str_of (v : pyval) : option string :=
  match v with
  | PStr s => Some s
  | _ => repr_of v
  end.

(** [f"{v}"] inside a [try]-free body: a float without a [repr] in the
    model raises, as in [save]. *)
Definition format_plain (v : pyval) : exn + string :=
  match str_of v with
  | Some t => inr t
  | None => inl (ValueError "float without a repr")
  end.

(** [v[k]] on any object with a string key. *)
Definition subscript (v : pyval) (k : string) : exn + pyval :=
  match v with
  | PDict d => getitem d k
  | PStr _ => inl (PyExc "TypeError" "string indices must be integers, not 'str'")
  | PList _ => inl (PyExc "TypeError" "list indices must be integers or slices, not str")
  | _ => inl (PyExc "TypeError" "object is not subscriptable")
  end.

(** [v.get(k, default)]. *)
Definition get_default (v : pyval) (k : string) (default : pyval) : exn + pyval :=
  match v with
  | PDict d => inr (match dict_get d k with Some x => x | None => default end)
  | _ => inl (PyExc "AttributeError" "object has no attribute 'get'")
  end.

(** What a [for] loop draws from an object. *)
Definition iterate (v : pyval) : exn + list pyval :=
  match v with
  | PList l => inr l
  | PDict d => inr (map (fun kv => PStr (fst kv)) d)
  | PStr s => inr (map (fun c => PStr (str1 c)) (list_ascii_of_string s))
  | _ => inl (PyExc "TypeError" "object is not iterable")
  end.

Definition then_ {A B} (a : exn + A) (k : A -> exn + B) : exn + B :=
  match a with
  | inl e => inl e
  | inr x => k x
  end.

(** Lines 175-178: the line of one parsing record. *)
Definition parsing_summary_line (result : pyval) : exn + string :=
  then_ (subscript result "success") (fun ok =>
  if truth ok then
    then_ (subscript result "file") (fun file =>
    then_ (format_plain file) (fun file_s =>
    then_ (subscript result "parse_time_ms") (fun ms =>
    then_ (format_spec_2f ms) (fun ms_s =>
    then_ (subscript result "chunk_count") (fun n =>
    then_ (format_plain n) (fun n_s =>
    inr (file_s +++ ": " +++ ms_s +++ "ms, " +++ n_s +++ " chunks")))))))
  else
    then_ (subscript result "file") (fun file =>
    then_ (format_plain file) (fun file_s =>
    then_ (get_default result "error" (PStr "Unknown error")) (fun err =>
    then_ (format_plain err) (fun err_s =>
    inr (file_s +++ ": FAILED - " +++ err_s)))))).

(** Lines 181-184: the line of one embedding record. *)
Definition embedding_summary_line (result : pyval) : exn + string :=
  then_ (subscript result "success") (fun ok =>
  if truth ok then
    then_ (subscript result "embed_time_ms") (fun ms =>
    then_ (format_spec_2f ms) (fun ms_s =>
    then_ (subscript result "text_count") (fun n =>
    then_ (format_plain n) (fun n_s =>
    inr ("Embedding: " +++ ms_s +++ "ms for " +++ n_s +++ " texts")))))
  else
    then_ (get_default result "error" (PStr "Unknown error")) (fun err =>
    then_ (format_plain err) (fun err_s =>
    inr ("Embedding: FAILED - " +++ err_s)))).

(** A loop that prints one line per item, up to the first that raises. *)
Definition print_each (line : pyval -> exn + string) (items : list pyval) : E unit :=
  for_each (fun (_ : unit) item =>
              match line item with
              | inl e => raise e
              | inr t => let* _ := print t in eret tt
              end)
           items tt.

Arguments print_each : simpl never.

Definition summary_header : string := String newline "=== PYTHON BENCHMARK SUMMARY ===".

(** Lines 172-184. *)
Definition print_summary (results : dict) : E unit :=
  let* _ := print summary_header in
  let? rs := ret (then_ (getitem results "parsing_results") iterate) in
  let? _ := print_each parsing_summary_line rs in
  let? es := ret (then_ (getitem results "embedding_results") iterate) in
  print_each embedding_summary_line es.

(** Lines 100-184: [main] to its end. *)
Definition main_and_summary (W : World) : E unit :=
  let? r := main W in
  match r with
  | Some results => print_summary results
  | None => eret tt
  end.

(* ================================================================== *)
(** ** A sample run

    A world in which the clock advances by a quarter of a second per call,
    every path exists, every file holds two lines, and each parser returns
    one chunk per line, except the YAML parser, which finds no chunk. *)

Definition st0 : St := {| tick := 0; stdout := []; written := [] |}.

Definition sample_text : unicode :=
  unicode_of_string ("# Title" +++ String "010"%char "body text").

Definition sample_world : World := {|
  script_dir := "/repo/python-deps";
  project_root := "/repo";
  sys_version := "3.12.1 (main)";
  clock := fun n => fdiv (float_of_int (6800000000 + Z.of_nat n)) (float_of_int 4);
  path_exists := fun _ _ => inr true;
  read_text := fun _ _ => inr sample_text;
  construct := fun _ _ => inr tt;
  parse := fun _ p _ _ =>
    match p with
    | RapidYamlParser => inr []
    | _ => inr [ {| content := unicode_of_string "# Title" |};
                 {| content := unicode_of_string "body text" |} ]
    end;
  open_write := fun _ _ => None
|}.

(** A world in which the fixture directory exists and holds no file. *)
Definition bare_world : World := {|
  script_dir := "/repo/python-deps";
  project_root := "/repo";
  sys_version := "3.12.1 (main)";
  clock := clock sample_world;
  path_exists := fun _ p => inr (String.eqb p "/repo/ChunkHound.Tests/Benchmarks/TestFiles");
  read_text := fun _ p => inl (PyExc "FileNotFoundError" p);
  construct := fun _ _ => inr tt;
  parse := fun _ _ _ _ => inr [];
  open_write := fun _ _ => None
|}.

(** A world whose parsers work for the first eight calls to the world only. *)
Definition flaky_world : World := {|
  script_dir := "/repo/python-deps";
  project_root := "/repo";
  sys_version := "3.12.1 (main)";
  clock := clock sample_world;
  path_exists := fun _ _ => inr true;
  read_text := fun _ _ => inr sample_text;
  construct := fun _ _ => inr tt;
  parse := fun n _ _ _ =>
    if Nat.ltb n 8 then inr [ {| content := unicode_of_string "# Title" |} ]
    else inl (PyExc "RuntimeError" "parser state lost");
  open_write := fun _ _ => None
|}.

(** A world in which the look-up of [sample.vue] is refused. *)
Definition guarded_world : World := {|
  script_dir := "/repo/python-deps";
  project_root := "/repo";
  sys_version := "3.12.1 (main)";
  clock := clock sample_world;
  path_exists := fun _ p =>
    if String.eqb p "/repo/ChunkHound.Tests/Benchmarks/TestFiles/sample.vue"
    then inl (PyExc "PermissionError" ("[Errno 13] Permission denied: '" +++ p +++ "'"))
    else inr true;
  read_text := fun _ _ => inr sample_text;
  construct := fun _ _ => inr tt;
  parse := parse sample_world;
  open_write := fun _ _ => None
|}.

(** A world in which the parsers are not installed. *)
Definition broken_world : World := {|
  script_dir := "/repo/python-deps";
  project_root := "/repo";
  sys_version := "3.12.1 (main)";
  clock := clock sample_world;
  path_exists := fun _ _ => inr true;
  read_text := fun _ _ => inr sample_text;
  construct := fun _ _ => inl (PyExc "ModuleNotFoundError" "No module named 'chunkhound'");
  parse := parse sample_world;
  open_write := fun _ _ => None
|}.

(** A world whose Markdown parser returns a chunk with a lone surrogate. *)
Definition surrogate_world : World := {|
  script_dir := "/repo/python-deps";
  project_root := "/repo";
  sys_version := "3.12.1 (main)";
  clock := clock sample_world;
  path_exists := fun _ _ => inr true;
  read_text := fun _ _ => inr sample_text;
  construct := fun _ _ => inr tt;
  parse := fun _ p _ _ =>
    match p with
    | MarkdownParser => inr [ {| content := unicode_of_string "# Title" |};
                              {| content := [98; 0xdc80; 100] |} ]
    | _ => inr [ {| content := unicode_of_string "body text" |} ]
    end;
  open_write := fun _ _ => None
|}.

(* ================================================================== *)
(** ** Vocabulary of the statements *)

(** The range of a byte. *)
Definition is_byte (b : Z) : Prop := 0 <= b < 256.

(** A text that [str.encode()] accepts: one without a surrogate. *)
Definition encodable (text : unicode) : bool := forallb (fun c => negb (is_surrogate c)) text.

(** The UTF-8 bytes of such a text. *)
Definition utf8_bytes (text : unicode) : list Z := flat_map utf8_char text.

(** The vector of a text: one component per digest byte. *)
Definition vector_of (text : unicode) : list float64 :=
  map (fun b => fdiv (float_of_int b) f255) (MD5.digest (utf8_bytes text)).

(** The text ["hello"]. *)
Definition hello : unicode := unicode_of_string "hello".

(** [hashlib.md5(text.encode()).hexdigest()]. *)
Definition md5_hexdigest (text : unicode) : exn + string :=
  match utf8_encode text with
  | inl e => inl e
  | inr bytes => inr (hexdigest (MD5.digest bytes))
  end.

(** The exception the loop of lines 71-76 ends with, if any: that of the
    first text that cannot be encoded. *)
Fixpoint first_unencodable (texts : list unicode) : option exn :=
  match texts with
  | [] => None
  | text :: rest =>
      match utf8_encode text with
      | inl e => Some e
      | inr _ => first_unencodable rest
      end
  end.

(** The record of lines 83-89, the average spelt out. *)
Definition embed_success (provider_name : string) (texts : list unicode) (ms : float64)
  : dict :=
  [ ("embedding_provider", PStr provider_name);
    ("text_count", PInt (len texts));
    ("embed_time_ms", PFloat ms);
    ("avg_embed_time_per_text_ms",
      match texts with
      | [] => PInt 0
      | _ => PFloat (fdiv ms (float_of_int (len texts)))
      end);
    ("success", PBool true) ].

(** The record of lines 92-98. *)
Definition embed_failure (provider_name : string) (texts : list unicode) (ms : float64)
  (msg : string) : dict :=
  [ ("embedding_provider", PStr provider_name);
    ("text_count", PInt (len texts));
    ("embed_time_ms", PFloat ms);
    ("error", PStr msg);
    ("success", PBool false) ].

(** Unfolds the two measurements and the monad under them. *)
Ltac run :=
  unfold benchmark_embedding, benchmark_embedding_run, benchmark_file_parsing,
    bind, ebind, ret, eret, raise, time_time, new_parser, open_read, parser_parse;
  cbn.

(** The MD5 digest of ["hello"], 5d41402abc4b2a76b9719d911017c592. *)
Definition hello_bytes : list Z :=
  [ 0x5d; 0x41; 0x40; 0x2a; 0xbc; 0x4b; 0x2a; 0x76;
    0xb9; 0x71; 0x9d; 0x91; 0x10; 0x17; 0xc5; 0x92 ].

(** [0 <= x < 1] on floats. *)
Definition in_unit_interval (x : float64) : bool := fleb f0 x && fltb x f1.

(** The record of lines 55-61. *)
Definition parse_failure (file_path parser_name : string) (ms : float64) (msg : string)
  : dict :=
  [ ("file", PStr (basename file_path));
    ("parser", PStr parser_name);
    ("parse_time_ms", PFloat ms);
    ("error", PStr msg);
    ("success", PBool false) ].

(** The record of lines 44-52, the average spelt out. *)
Definition parse_success (file_path parser_name : string) (ms : float64)
  (chunks : list Chunk) : dict :=
  [ ("file", PStr (basename file_path));
    ("parser", PStr parser_name);
    ("parse_time_ms", PFloat ms);
    ("chunk_count", PInt (len chunks));
    ("total_chunk_size", PInt (sum_sizes chunks));
    ("avg_chunk_size",
      match chunks with
      | [] => PInt 0
      | _ => PFloat (SFdiv prec emax (exact_of_int (sum_sizes chunks))
                            (exact_of_int (len chunks)))
      end);
    ("success", PBool true) ].

(** Case analysis on every answer of the world the goal waits for. *)
Ltac split_world W :=
  repeat (cbn;
    match goal with
    | |- context [construct W ?n ?p] => destruct (construct W n p) as [?e|[]] eqn:?
    | |- context [read_text W ?n ?p] => destruct (read_text W n p) as [?e|?text] eqn:?
    | |- context [parse W ?n ?p ?t ?f] => destruct (parse W n p t f) as [?e|?chunks] eqn:?
    end).

(** Line 103, [test_files_dir]. *)
Definition fixture_dir (W : World) : string :=
  path_join (path_join (path_join (project_root W) "ChunkHound.Tests") "Benchmarks")
            "TestFiles".

(** Line 166. *)
Definition output_file (W : World) : string :=
  path_join (script_dir W) "benchmark_results.json".

(** The dict [results] with its four entries. *)
Definition report (timestamp : float64) (version : string) (rs es : list pyval) : dict :=
  [ ("timestamp", PFloat timestamp);
    ("python_version", PStr version);
    ("parsing_results", PList rs);
    ("embedding_results", PList es) ].

(** The line printed by line 155. *)
Definition collect_error_line (filename : string) (e : exn) : string :=
  "Error collecting texts for " +++ filename +++ ": " +++ str_exn e.

(** What the second parse of a file leaves behind, [t] being the value of
    the call counter when it starts: the chunk texts when the three calls
    succeed, a printed line when one of them raises. *)
Inductive second_parse (W : World) (file_path : string) (p : Parser) (t : nat)
  : list unicode -> option exn -> Prop :=
  | second_parse_ok text chunks :
      construct W t p = inr tt ->
      read_text W (S t) file_path = inr text ->
      parse W (S (S t)) p text file_path = inr chunks ->
      second_parse W file_path p t (map content chunks) None
  | second_parse_no_parser e :
      construct W t p = inl e ->
      second_parse W file_path p t [] (Some e)
  | second_parse_no_text e :
      construct W t p = inr tt ->
      read_text W (S t) file_path = inl e ->
      second_parse W file_path p t [] (Some e)
  | second_parse_raises text e :
      construct W t p = inr tt ->
      read_text W (S t) file_path = inr text ->
      parse W (S (S t)) p text file_path = inl e ->
      second_parse W file_path p t [] (Some e).

(** The parser class a supported name selects. *)
Definition parser_named (parser_name : string) : option Parser :=
  if String.eqb parser_name "markdown" then Some MarkdownParser
  else if String.eqb parser_name "yaml" then Some RapidYamlParser
  else if String.eqb parser_name "vue" then Some VueParser
  else if String.eqb parser_name "code" then Some CodeParser
  else None.

(** The state a measurement leaves: the call counter advanced, nothing
    printed, nothing written. *)
Definition advanced (st : St) (n : nat) : St :=
  {| tick := n + tick st; stdout := stdout st; written := written st |}.

(** The state in which the measurement of a file starts: the file was
    looked for and the line announcing the benchmark printed. *)
Definition announced (f pn : string) (st : St) : St :=
  {| tick := S (tick st);
     stdout := ("Benchmarking " +++ f +++ " with " +++ pn +++ " parser...") :: stdout st;
     written := written st |}.

(** The state after a file was looked for and not found. *)
Definition not_found (file_path : string) (st : St) : St :=
  {| tick := S (tick st);
     stdout := ("Test file not found: " +++ file_path) :: stdout st;
     written := written st |}.

(** The state after some more lines were printed, the last one first. *)
Definition printed (lines : list string) (st : St) : St :=
  {| tick := tick st; stdout := lines ++ stdout st; written := written st |}.

(** The number of calls the second parse of a file puts to the world from
    the counter value [t] on: it stops at the first call that raises. *)
Definition second_parse_calls (W : World) (file_path : string) (p : Parser) (t : nat) : nat :=
  match construct W t p with
  | inl _ => 1
  | inr _ => match read_text W (S t) file_path with
             | inl _ => 2
             | inr _ => 3
             end
  end.

(** The state the second parse leaves: its calls counted, the line of its
    error printed if it raised. *)
Definition after_second_parse (W : World) (filename file_path : string) (p : Parser)
  (err : option exn) (st : St) : St :=
  {| tick := second_parse_calls W file_path p (tick st) + tick st;
     stdout := match err with
               | Some e => collect_error_line filename e :: stdout st
               | None => stdout st
               end;
     written := written st |}.

(** What follows a measurement [r], with the texts the file contributes and
    the state in which the next pair is taken up: nothing after a failure
    record, the second parse after a success record. *)
Definition collected (W : World) (filename file_path parser_name : string)
  (r : dict * St) (new : list unicode) (st' : St) : Prop :=
  (dict_success (fst r) = false /\ new = [] /\ st' = snd r)
  \/ (dict_success (fst r) = true
      /\ exists p err, parser_named parser_name = Some p
                       /\ second_parse W file_path p (tick (snd r)) new err
                       /\ st' = after_second_parse W filename file_path p err (snd r)).

(** A run of the loop over a list of declared pairs from the state [st]:
    the records it appends, the texts it collects, the exception that ends
    it if any, and the state it ends in.  Each pair is looked for once.  A
    pair whose file is missing gets one printed line and nothing else; for
    any other pair one line is printed, [benchmark_file_parsing] is run
    once from the state so reached and its record appended.  A look-up
    that raises ends the run. *)
Inductive plan_run (W : World) (dir : string)
  : list (string * string) -> St -> list pyval -> list unicode -> option exn -> St -> Prop :=
  | plan_done st : plan_run W dir [] st [] [] None st
  | plan_raised f pn items st e :
      path_exists W (tick st) (path_join dir f) = inl e ->
      plan_run W dir ((f, pn) :: items) st [] [] (Some e) (next st)
  | plan_missing f pn items st rs ts out st' :
      path_exists W (tick st) (path_join dir f) = inr false ->
      plan_run W dir items (not_found (path_join dir f) st) rs ts out st' ->
      plan_run W dir ((f, pn) :: items) st rs ts out st'
  | plan_measured f pn items st new st1 rs ts out st' :
      path_exists W (tick st) (path_join dir f) = inr true ->
      collected W f (path_join dir f) pn
                (benchmark_file_parsing W (path_join dir f) pn (announced f pn st)) new st1 ->
      plan_run W dir items st1 rs ts out st' ->
      plan_run W dir ((f, pn) :: items) st
               (PDict (fst (benchmark_file_parsing W (path_join dir f) pn (announced f pn st)))
                  :: rs)
               (new ++ ts) out st'.

(** The state in which the embedding benchmark starts: its line printed. *)
Definition embedding_announced (texts : list unicode) (st : St) : St :=
  printed ["Benchmarking embedding for " +++ str_of_int (len texts) +++ " texts..."] st.

(** The embedding record the driver appends after a loop that ended in
    [st], if any: that of one run of [benchmark_embedding] when some text
    was collected. *)
Definition embedding_results_of (W : World) (texts : list unicode) (st : St) : list pyval :=
  match texts with
  | [] => []
  | _ => [PDict (fst (benchmark_embedding W texts "fake" (embedding_announced texts st)))]
  end.

(** The state the measuring phase ends in after a loop that ended in [st]:
    [st] itself when no text was collected. *)
Definition after_embedding (W : World) (texts : list unicode) (st : St) : St :=
  match texts with
  | [] => st
  | _ => snd (benchmark_embedding W texts "fake" (embedding_announced texts st))
  end.

(** A character that may continue a number. *)
Definition number_char (c : ascii) : bool :=
  is_digit c || Ascii.eqb c "." || Ascii.eqb c "e" || Ascii.eqb c "E"
  || Ascii.eqb c "+" || Ascii.eqb c "-".

(** What follows a number does not continue it. *)
Definition terminated (rest : string) : Prop :=
  match rest with
  | EmptyString => True
  | String c _ => number_char c = false
  end.

(** Splits [number_char c = false] into what it says of [c]. *)
Ltac head_facts H :=
  unfold number_char in H;
  repeat match type of H with
         | (_ || _)%bool = false => apply orb_false_elim in H; destruct H as [H ?]
         end.

(** Induction on values, through the lists and dicts nested in them. *)
Section PyvalInduction.

Variable P : pyval -> Prop.
Hypothesis HNone : P PNone.
Hypothesis HBool : forall b, P (PBool b).
Hypothesis HInt : forall z, P (PInt z).
Hypothesis HFloat : forall f, P (PFloat f).
Hypothesis HStr : forall s, P (PStr s).
Hypothesis HList : forall l, Forall P l -> P (PList l).
Hypothesis HDict : forall d, Forall (fun kv => P (snd kv)) d -> P (PDict d).

Fixpoint pyval_induction (v : pyval) : P v :=
  match v with
  | PNone => HNone
  | PBool b => HBool b
  | PInt z => HInt z
  | PFloat f => HFloat f
  | PStr s => HStr s
  | PList l =>
      HList l ((fix go (l : list pyval) : Forall P l :=
                  match l with
                  | [] => Forall_nil P
                  | x :: l' => Forall_cons x (pyval_induction x) (go l')
                  end) l)
  | PDict d =>
      HDict d ((fix go (d : list (string * pyval)) : Forall (fun kv => P (snd kv)) d :=
                  match d with
                  | [] => Forall_nil _
                  | kv :: d' => Forall_cons kv (pyval_induction (snd kv)) (go d')
                  end) d)
  end.

End PyvalInduction.

(** A value all of whose dicts have distinct keys, as the dicts of Python do. *)
#[local] Unset Elimination Schemes.
Inductive wf : pyval -> Prop :=
  | wf_none : wf PNone
  | wf_bool b : wf (PBool b)
  | wf_int z : wf (PInt z)
  | wf_float f : wf (PFloat f)
  | wf_str s : wf (PStr s)
  | wf_list l : Forall wf l -> wf (PList l)
  | wf_dict d : NoDup (map fst d) -> Forall (fun kv => wf (snd kv)) d -> wf (PDict d).
#[local] Set Elimination Schemes.

(** A text that starts like a value: not with a blank, not with a closing
    bracket. *)
Definition starts_value (t : string) : bool :=
  match t with
  | EmptyString => false
  | String c _ => negb (is_ws c) && negb (Ascii.eqb c "]") && negb (Ascii.eqb c "}")
  end.

(** What is to be shown of a value: at any nesting level, with enough
    fuel for the length of its text and whatever follows, provided that
    does not continue a number. *)
Definition reads_back_value (v : pyval) : Prop :=
  wf v ->
  forall level t rest fuel,
    json_encode level v = Some t -> terminated rest -> (String.length t <= fuel)%nat ->
    scan_value fuel (t +++ rest) = Some (v, rest).

(** The text of one member of an object: key, colon, value. *)
Definition member_text (level : nat) (kv : string * pyval) : option string :=
  let '(k, x) := kv in option_map (keyed k) (json_encode (S level) x).

(* ================================================================== *)
(** ** Vocabulary of the further properties *)

(** The elapsed milliseconds between the clock reading a measurement
    starts with and the reading [k] calls later. *)
Definition elapsed_ms (W : World) (st : St) (k : nat) : float64 :=
  fmul (fsub (clock W (k + tick st)) (clock W (tick st))) f1000.

(** [0 <= x <= 1] on floats. *)
Definition in_closed_unit_interval (x : float64) : bool := fleb f0 x && fleb x f1.

(** A field of a record held in a list of results. *)
Definition record_field (r : pyval) (k : string) : option pyval :=
  match r with
  | PDict d => dict_get d k
  | _ => None
  end.

Definition record_success (r : pyval) : bool :=
  match r with
  | PDict d => dict_success d
  | _ => false
  end.

(** The chunks a record counts: its [chunk_count], none without one. *)
Definition chunk_count_of (r : pyval) : Z :=
  match record_field r "chunk_count" with
  | Some (PInt n) => n
  | _ => 0
  end.

Definition total_chunk_count (rs : list pyval) : Z :=
  fold_right (fun r acc => chunk_count_of r + acc) 0 rs.

(** A world whose parsers can always be constructed and whose files and
    parsers answer the same whenever they are asked. *)
Definition stable (W : World) : Prop :=
  (forall n p, construct W n p = inr tt)
  /\ (forall n m path, read_text W n path = read_text W m path)
  /\ (forall n m p text path, parse W n p text path = parse W m p text path).

(** A world whose parsers return chunks that [str.encode()] accepts, as
    the chunks cut out of a file decoded from UTF-8 are. *)
Definition encodable_chunks (W : World) : Prop :=
  forall n p text path chunks,
    parse W n p text path = inr chunks -> forallb encodable (map content chunks) = true.

(** The locals of [main] when its loop starts. *)
Definition initial_locals (W : World) (timestamp : float64) : Locals :=
  {| results := report timestamp (sys_version W) [] []; all_texts := []; parser := None |}.

(** The pair of fields that names a parsing record. *)
Definition record_name (r : pyval) : option pyval * option pyval :=
  (record_field r "file", record_field r "parser").


(** A world without the fixture directory. *)
Definition empty_world : World := {|
  script_dir := "/repo/python-deps";
  project_root := "/repo";
  sys_version := "3.12.1 (main)";
  clock := clock sample_world;
  path_exists := fun _ _ => inr false;
  read_text := fun _ p => inl (PyExc "FileNotFoundError" p);
  construct := fun _ _ => inr tt;
  parse := fun _ _ _ _ => inr [];
  open_write := fun _ _ => None
|}.

(** The summary line of a parsing record, read off its fields. *)
Definition parsing_line_of (r : pyval) (line : string) : Prop :=
  exists file ms,
    record_field r "file" = Some (PStr file)
    /\ record_field r "parse_time_ms" = Some (PFloat ms)
    /\ ((record_success r = true
         /\ exists n, record_field r "chunk_count" = Some (PInt n)
                      /\ line = file +++ ": " +++ format_2f ms +++ "ms, "
                                  +++ str_of_int n +++ " chunks")
        \/ (record_success r = false
            /\ exists msg, record_field r "error" = Some (PStr msg)
                           /\ line = file +++ ": FAILED - " +++ msg)).

(** The summary line of an embedding record, read off its fields. *)
Definition embedding_line_of (r : pyval) (line : string) : Prop :=
  exists ms n,
    record_field r "embed_time_ms" = Some (PFloat ms)
    /\ record_field r "text_count" = Some (PInt n)
    /\ ((record_success r = true
         /\ line = "Embedding: " +++ format_2f ms +++ "ms for " +++ str_of_int n +++ " texts")
        \/ (record_success r = false
            /\ exists msg, record_field r "error" = Some (PStr msg)
                           /\ line = "Embedding: FAILED - " +++ msg)).

(* ================================================================== *)
(** * Properties *)

(** *** Checks against CPython *)

Example md5_rfc1321 :
  map (fun s => md5_hexdigest (unicode_of_string s))
      [ ""; "a"; "abc"; "message digest";
        "12345678901234567890123456789012345678901234567890123456789012345678901234567890" ]
  = map inr
      [ "d41d8cd98f00b204e9800998ecf8427e";
        "0cc175b9c0f1b6a831c399e269772661";
        "900150983cd24fb0d6963f7d28e17f72";
        "f96b697d7cb7938d525a2f31aaf161d0";
        "57edf4a22be3c955ac49da2e2107b67a" ].
Proof. vm_compute. reflexivity. Qed.

Example md5_block_boundaries :
  map (fun n => hexdigest (MD5.digest (repeat 97 n))) [ 55; 56; 64 ]%nat
  = [ "ef1772b6dff9a122358552954ad0df65";
      "3b0c8ac703f828b04c6c197006d17218";
      "014842d480b571495a4a0363793f7367" ].
Proof. vm_compute. reflexivity. Qed.

(** [str.encode()] at the ends of the four ranges of UTF-8, and the digests
    of U+00E9 alone and of U+20AC followed by U+1F600. *)
Example md5_utf8 :
  map utf8_encode [ [0x7f]; [0x80]; [0x7ff]; [0x800]; [0x20ac]; [0xd7ff]; [0xe000]; [0xffff];
                    [0x10000]; [0x1f600]; [0x10ffff] ]
  = map inr [ [0x7f]; [0xc2; 0x80]; [0xdf; 0xbf]; [0xe0; 0xa0; 0x80]; [0xe2; 0x82; 0xac];
              [0xed; 0x9f; 0xbf]; [0xee; 0x80; 0x80]; [0xef; 0xbf; 0xbf];
              [0xf0; 0x90; 0x80; 0x80]; [0xf0; 0x9f; 0x98; 0x80]; [0xf4; 0x8f; 0xbf; 0xbf] ]
  /\ md5_hexdigest [0xe9] = inr "66ddcd97cfdeabb2f6fb8a999b4bc76f"
  /\ md5_hexdigest [0x20ac; 0x1f600] = inr "cc6b766e099becf050038ac010aa34cb".
Proof. repeat split; vm_compute; reflexivity. Qed.

(** [str.encode()] on a surrogate: the message names the character when it
    stands alone, the positions when others follow it. *)
Example utf8_surrogates :
  map (fun text => match utf8_encode text with inl e => Some e | inr _ => None end)
      [ [0xd800]; [97; 98; 0xdfff; 122]; [97; 0xdc00; 0xdc00; 0xdc00; 98; 0xd800] ]
  = map (fun msg => Some (PyExc "UnicodeEncodeError" msg))
      [ "'utf-8' codec can't encode character '" +++ str1 backslash
          +++ "ud800' in position 0: surrogates not allowed";
        "'utf-8' codec can't encode character '" +++ str1 backslash
          +++ "udfff' in position 2: surrogates not allowed";
        "'utf-8' codec can't encode characters in position 1-3: surrogates not allowed" ].
Proof. vm_compute. reflexivity. Qed.

(** Division as CPython rounds it: [10 / 4], [1 / 3], [(2**60 + 1) / 3]
    and [93 / 255.0]. *)
Example true_division :
  int_truediv 10 4 = inr (S754_finite false 5629499534213120 (-51))
  /\ int_truediv 1 3 = inr (S754_finite false 6004799503160661 (-54))
  /\ int_truediv (2 ^ 60 + 1) 3 = inr (S754_finite false 6004799503160661 6)
  /\ float_truediv (float_of_int 93) f255 = inr (S754_finite false 6569957103458135 (-54))
  /\ (exists e, int_truediv 1 0 = inl e)
  /\ (exists e, float_truediv f1 f0 = inl e).
Proof. repeat split; try (vm_compute; reflexivity); eexists; reflexivity. Qed.

(** [repr] of a few floats, each given as the decimal it is nearest to. *)
Example float_repr_values :
  map (fun d => float_repr (decimal_value false (fst d) (snd d)))
      [ (17000000005, -1); (1, -1); (250, 0); (1, 16); (1, 15); (1, -5); (1, -4);
        (123456789012345678, 0); (5, -324); (17976931348623157, 292);
        (6666666666666666, -16); (1, 23); (9007199254740993, 0);
        (30000000000000004, -17); (123, -7); (9223372036854775808, 0) ]
  = map Some
      [ "1700000000.5"; "0.1"; "250.0"; "1e+16"; "1000000000000000.0"; "1e-05"; "0.0001";
        "1.2345678901234568e+17"; "5e-324"; "1.7976931348623157e+308";
        "0.6666666666666666"; "1e+23"; "9007199254740992.0";
        "0.30000000000000004"; "1.23e-05"; "9.223372036854776e+18" ].
Proof. vm_compute. reflexivity. Qed.

(** The first lines of the document the sample run writes. *)
Example sample_document :
  exists text tail,
    written (snd (main sample_world st0)) = [(output_file sample_world, text)]
    /\ text = "{" +++ str1 newline
              +++ "  " +++ str1 dquote +++ "timestamp" +++ str1 dquote
              +++ ": 1700000000.25," +++ str1 newline
              +++ "  " +++ str1 dquote +++ "python_version" +++ str1 dquote
              +++ ": " +++ str1 dquote +++ "3.12.1 (main)" +++ str1 dquote
              +++ "," +++ str1 newline +++ tail.
Proof. eexists. eexists. split; vm_compute; reflexivity. Qed.


(** *** Rounding an integer never reaches zero *)

Lemma digits2_pos_size (p : positive) : digits2_pos p = Pos.size p.
Proof. induction p; simpl; congruence. Qed.

Lemma shr_1_m (mrs : shr_record) : 0 <= shr_m mrs -> shr_m (shr_1 mrs) = Z.div2 (shr_m mrs).
Proof.
  destruct mrs as [m r s]; simpl; intros Hm.
  destruct m as [|[q|q|]|q]; simpl; try reflexivity; lia.
Qed.

Lemma iter_shr_1_m (n : positive) :
  forall mrs, 0 <= shr_m mrs ->
    shr_m (iter_pos shr_1 n mrs) = Z.shiftr (shr_m mrs) (Zpos n).
Proof.
  assert (Hnn : forall x k, 0 <= x -> 0 <= k -> 0 <= Z.shiftr x k)
    by (intros; apply Z.shiftr_nonneg; assumption).
  assert (H1 : forall mrs, 0 <= shr_m mrs ->
                 shr_m (shr_1 mrs) = Z.shiftr (shr_m mrs) 1).
  { intros mrs Hm. rewrite shr_1_m by assumption. rewrite Z.div2_spec. reflexivity. }
  induction n as [n IH|n IH|]; intros mrs Hm; simpl.
  - pose proof (H1 mrs Hm) as E1.
    assert (N1 : 0 <= shr_m (shr_1 mrs)) by (rewrite E1; apply Hnn; lia).
    pose proof (IH _ N1) as E2.
    assert (N2 : 0 <= shr_m (iter_pos shr_1 n (shr_1 mrs)))
      by (rewrite E2; apply Hnn; lia).
    rewrite (IH _ N2), E2, E1, !Z.shiftr_shiftr by lia. f_equal. lia.
  - pose proof (IH _ Hm) as E1.
    assert (N1 : 0 <= shr_m (iter_pos shr_1 n mrs)) by (rewrite E1; apply Hnn; lia).
    rewrite (IH _ N1), E1, Z.shiftr_shiftr by lia. f_equal. lia.
  - apply H1; assumption.
Qed.

Lemma shiftr_ge_1 (m : positive) (n : Z) :
  0 <= n -> n < Zpos (digits2_pos m) -> 1 <= Z.shiftr (Zpos m) n.
Proof.
  intros Hn Hd. rewrite digits2_pos_size in Hd.
  rewrite Z.shiftr_div_pow2 by assumption.
  pose proof (Pos.size_le m) as Hs.
  assert (Hp : 2 ^ Zpos (Pos.size m) <= 2 * Zpos m).
  { change (2 * Zpos m) with (Zpos (m~0)). rewrite <- Pos2Z.inj_pow. exact Hs. }
  assert (Hq : 2 ^ n <= Zpos m).
  { assert (2 ^ (n + 1) <= 2 ^ Zpos (Pos.size m)) by (apply Z.pow_le_mono_r; lia).
    rewrite Z.pow_add_r in * by lia. change (2 ^ 1) with 2 in *. lia. }
  apply Z.div_le_lower_bound; lia.
Qed.

(** A right shift decided by [fexp] keeps a positive mantissa positive, as
    long as the exponent is not below [emin]. *)
Lemma shr_fexp_pos (m : positive) (e : Z) (l : location) :
  SpecFloat.emin prec emax <= e ->
  let '(mrs, e') := shr_fexp prec emax (Zpos m) e l in
  1 <= shr_m mrs /\ SpecFloat.emin prec emax <= e'.
Proof.
  intros He. unfold shr_fexp, shr.
  set (n := fexp prec emax (Zdigits2 (Zpos m) + e) - e).
  assert (Hn : n < Zpos (digits2_pos m)).
  { subst n. unfold fexp, SpecFloat.emin, prec, emax in *. simpl Zdigits2. lia. }
  assert (Hm : shr_m (shr_record_of_loc (Zpos m) l) = Zpos m)
    by (destruct l as [|[]]; reflexivity).
  destruct n as [|k|k] eqn:En.
  - rewrite Hm. lia.
  - rewrite iter_shr_1_m by (rewrite Hm; lia). rewrite Hm.
    split; [apply shiftr_ge_1; lia | lia].
  - rewrite Hm. lia.
Qed.

Lemma round_nearest_even_ge (m : Z) (l : location) : m <= round_nearest_even m l.
Proof. destruct l as [|[]]; simpl; try lia. destruct (Z.even m); lia. Qed.

Lemma binary_round_aux_nonzero (s : bool) (m : positive) (e : Z) (l : location) :
  SpecFloat.emin prec emax <= e ->
  is_zero (binary_round_aux prec emax s (Zpos m) e l) = false.
Proof.
  intros He. unfold binary_round_aux.
  pose proof (shr_fexp_pos m e l He) as H1.
  destruct (shr_fexp prec emax (Zpos m) e l) as [mrs' e'].
  destruct H1 as [Hm1 He1].
  pose proof (round_nearest_even_ge (shr_m mrs') (loc_of_shr_record mrs')) as Hr.
  destruct (round_nearest_even (shr_m mrs') (loc_of_shr_record mrs')) as [|m2|m2]; try lia.
  pose proof (shr_fexp_pos m2 e' loc_Exact He1) as H2.
  destruct (shr_fexp prec emax (Zpos m2) e' loc_Exact) as [mrs'' e''].
  destruct H2 as [Hm2 _].
  destruct (shr_m mrs'') as [|m3|m3]; try lia.
  destruct (e'' <=? emax - prec); reflexivity.
Qed.

Lemma float_of_int_nonzero (z : Z) : z <> 0 -> is_zero (float_of_int z) = false.
Proof.
  intros Hz. unfold float_of_int, binary_normalize.
  assert (H : forall s p, is_zero (binary_round prec emax s p 0) = false).
  { intros s p. unfold binary_round, shl_align.
    set (d := fexp prec emax (Zpos (digits2_pos p) + 0)).
    assert (Hd : SpecFloat.emin prec emax <= d)
      by (subst d; unfold fexp; lia).
    destruct (d - 0) as [|k|k] eqn:Ek;
      apply binary_round_aux_nonzero; unfold SpecFloat.emin, prec, emax in *; lia. }
  destruct z as [|p|p]; [congruence | apply H | apply H].
Qed.

(** *** The fake provider raises on a surrogate and on nothing else *)

Lemma digest_bytes (msg : list Z) :
  List.length (MD5.digest msg) = 16%nat /\ Forall is_byte (MD5.digest msg).
Proof.
  unfold MD5.digest, MD5.bytes_of_word. split; [reflexivity|].
  repeat (apply Forall_app; split);
    repeat (apply Forall_cons; [apply Z.mod_pos_bound; lia|]); apply Forall_nil.
Qed.

Lemma hex_value_digit (n : Z) : 0 <= n < 16 -> hex_value (hex_digit n) = Some n.
Proof.
  intros Hn.
  assert (H : In n (map Z.of_nat (seq 0 16))).
  { rewrite in_map_iff. exists (Z.to_nat n). split; [lia|]. apply in_seq. lia. }
  simpl in H. repeat (destruct H as [<-|H]; [reflexivity|]). contradiction.
Qed.

Lemma int_base16_pair (b : Z) :
  is_byte b ->
  int_base16 (String (hex_digit (b / 16)) (String (hex_digit (b mod 16)) "")) = inr b.
Proof.
  intros Hb. unfold is_byte in Hb. unfold int_base16, int16_acc.
  rewrite !hex_value_digit.
  - f_equal. pose proof (Z.div_mod b 16). lia.
  - apply Z.mod_pos_bound; lia.
  - split; [apply Z.div_pos; lia | apply Z.div_lt_upper_bound; lia].
Qed.

Lemma substring_hexdigest (d : list Z) :
  forall k b, nth_error d k = Some b ->
    substring (2 * k) 2 (hexdigest d)
    = String (hex_digit (b / 16)) (String (hex_digit (b mod 16)) "").
Proof.
  induction d as [|x d IH]; intros [|k] b Hk; simpl in Hk; try discriminate.
  - injection Hk as <-. unfold hexdigest. simpl.
    destruct (string_of_list_ascii _); reflexivity.
  - replace (2 * S k)%nat with (S (S (2 * k))) by lia.
    unfold hexdigest in *. simpl. apply IH. assumption.
Qed.

Lemma comprehension_map {A B} (f : A -> exn + B) (g : A -> B) (l : list A) :
  (forall a, In a l -> f a = inr (g a)) -> comprehension f l = inr (map g l).
Proof.
  induction l as [|a l IH]; intros H; simpl; [reflexivity|].
  rewrite (H a) by (left; reflexivity).
  rewrite IH by (intros; apply H; right; assumption). reflexivity.
Qed.

(** Encoding raises on a surrogate and on nothing else. *)
Lemma utf8_from_cases (text : unicode) :
  forall pos,
    if encodable text
    then utf8_from pos text = inr (utf8_bytes text)
    else exists c start stop, utf8_from pos text = inl (UnicodeEncodeError c start stop).
Proof.
  induction text as [|c text IH]; intros pos; [reflexivity|].
  cbn [encodable forallb utf8_from]. fold (encodable text).
  destruct (is_surrogate c); cbn [negb andb].
  - do 3 eexists. reflexivity.
  - specialize (IH (S pos)). destruct (encodable text).
    + rewrite IH. reflexivity.
    + destruct IH as [c' [start [stop ->]]]. do 3 eexists. reflexivity.
Qed.

Lemma utf8_encode_encodable (text : unicode) :
  encodable text = true -> utf8_encode text = inr (utf8_bytes text).
Proof.
  intros H. pose proof (utf8_from_cases text 0) as Hc. rewrite H in Hc. exact Hc.
Qed.

Lemma utf8_encode_surrogate (text : unicode) :
  encodable text = false ->
  exists c start stop, utf8_encode text = inl (UnicodeEncodeError c start stop).
Proof.
  intros H. pose proof (utf8_from_cases text 0) as Hc. rewrite H in Hc. exact Hc.
Qed.

(** Past the encoding nothing raises: the sixteen slices are pairs of
    hexadecimal digits and the divisor is 255.0. *)
Lemma fake_embedding_spec (text : unicode) :
  fake_embedding text
  = match utf8_encode text with
    | inl e => inl e
    | inr bytes => inr (map (fun b => fdiv (float_of_int b) f255) (MD5.digest bytes))
    end.
Proof.
  unfold fake_embedding. destruct (utf8_encode text) as [e|bytes]; [reflexivity|].
  destruct (digest_bytes bytes) as [Hlen Hb].
  set (d := MD5.digest bytes) in *.
  rewrite comprehension_map with
    (g := fun i => fdiv (float_of_int (nth (i / 2) d 0)) f255).
  - reflexivity.
  - intros i Hi.
    change (range 0 32 2) with (map (fun k => 2 * k)%nat (seq 0 16)) in Hi.
    apply in_map_iff in Hi. destruct Hi as [k [<- Hk]]. apply in_seq in Hk.
    rewrite Nat.mul_comm, Nat.div_mul by lia. rewrite Nat.mul_comm.
    assert (Hn : nth_error d k = Some (nth k d 0)) by (apply nth_error_nth'; lia).
    rewrite (substring_hexdigest d k _ Hn).
    rewrite int_base16_pair.
    + reflexivity.
    + rewrite Forall_forall in Hb. apply Hb. apply nth_In. lia.
Qed.

Lemma fake_embedding_total (text : unicode) :
  encodable text = true -> fake_embedding text = inr (vector_of text).
Proof.
  intros H. rewrite fake_embedding_spec, (utf8_encode_encodable text H). reflexivity.
Qed.

Lemma first_unencodable_none (texts : list unicode) :
  first_unencodable texts = None <-> forallb encodable texts = true.
Proof.
  induction texts as [|t texts IH]; [split; reflexivity|].
  cbn [first_unencodable forallb]. destruct (encodable t) eqn:Ht.
  - rewrite (utf8_encode_encodable t Ht). exact IH.
  - destruct (utf8_encode_surrogate t Ht) as [c [start [stop ->]]].
    split; discriminate.
Qed.

Lemma first_unencodable_some (texts : list unicode) (e : exn) :
  first_unencodable texts = Some e ->
  forallb encodable texts = false
  /\ exists c start stop, e = UnicodeEncodeError c start stop.
Proof.
  intros H. split.
  - destruct (forallb encodable texts) eqn:Hall; [|reflexivity].
    apply first_unencodable_none in Hall. congruence.
  - induction texts as [|t texts IH]; [discriminate H|].
    cbn [first_unencodable] in H. destruct (encodable t) eqn:Ht.
    + rewrite (utf8_encode_encodable t Ht) in H. exact (IH H).
    + destruct (utf8_encode_surrogate t Ht) as [c [start [stop Hc]]].
      rewrite Hc in H. injection H as <-. eauto.
Qed.

Lemma embed_loop_spec (texts : list unicode) :
  forall acc,
    embed_loop texts acc
    = match first_unencodable texts with
      | Some e => inl e
      | None => inr (acc ++ map vector_of texts)
      end.
Proof.
  induction texts as [|t texts IH]; intros acc; cbn [embed_loop first_unencodable map].
  - rewrite app_nil_r. reflexivity.
  - rewrite fake_embedding_spec. destruct (encodable t) eqn:Ht.
    + rewrite (utf8_encode_encodable t Ht), IH.
      destruct (first_unencodable texts); [reflexivity|].
      rewrite <- app_assoc. reflexivity.
    + destruct (utf8_encode_surrogate t Ht) as [c [start [stop ->]]]. reflexivity.
Qed.

(** *** The two averages are always defined *)

Lemma avg_chunk_size_total (chunks : list Chunk) :
  avg_chunk_size chunks
  = inr (match chunks with
         | [] => PInt 0
         | _ => PFloat (SFdiv prec emax (exact_of_int (sum_sizes chunks))
                               (exact_of_int (len chunks)))
         end).
Proof.
  destruct chunks as [|c chunks]; [reflexivity|].
  unfold avg_chunk_size, int_truediv. cbn [truthy].
  replace (len (c :: chunks) =? 0) with false; [reflexivity|].
  symmetry. apply Z.eqb_neq. unfold len. simpl List.length. lia.
Qed.

Lemma avg_embed_time_total (ms : float64) (texts : list unicode) :
  avg_embed_time ms texts
  = inr (match texts with
         | [] => PInt 0
         | _ => PFloat (fdiv ms (float_of_int (len texts)))
         end).
Proof.
  destruct texts as [|t texts]; [reflexivity|].
  unfold avg_embed_time, float_truediv. cbn [truthy].
  rewrite float_of_int_nonzero; [reflexivity|].
  unfold len. simpl List.length. lia.
Qed.

(** *** Symbolic execution of the two measurements *)

(** With provider ["fake"] the call fails on the first text that cannot be
    encoded and succeeds when there is none; either way it reads the clock
    twice. *)
Lemma benchmark_embedding_run_fake (W : World) (texts : list unicode) (st : St) :
  benchmark_embedding_run W texts "fake" st
  = (let ms := fmul (fsub (clock W (S (tick st))) (clock W (tick st))) f1000 in
     match first_unencodable texts with
     | None => (embed_success "fake" texts ms, Some (map vector_of texts))
     | Some e => (embed_failure "fake" texts ms (str_exn e), None)
     end,
     next (next st)).
Proof.
  run. rewrite embed_loop_spec. destruct (first_unencodable texts) as [e|]; cbn.
  - reflexivity.
  - rewrite avg_embed_time_total. reflexivity.
Qed.

Lemma benchmark_embedding_run_other (W : World) (texts : list unicode)
  (provider_name : string) (st : St) :
  provider_name <> "fake" ->
  benchmark_embedding_run W texts provider_name st
  = ((embed_failure provider_name texts
        (fmul (fsub (clock W (S (tick st))) (clock W (tick st))) f1000)
        ("Unknown embedding provider: " +++ provider_name),
      None),
     next (next st)).
Proof.
  intros Hp. apply String.eqb_neq in Hp. run. rewrite Hp. reflexivity.
Qed.

Lemma benchmark_file_parsing_unknown (W : World) (file_path parser_name : string) (st : St) :
  ~ In parser_name ["markdown"; "yaml"; "vue"; "code"] ->
  benchmark_file_parsing W file_path parser_name st
  = ([ ("file", PStr (basename file_path));
       ("parser", PStr parser_name);
       ("parse_time_ms",
         PFloat (fmul (fsub (clock W (S (tick st))) (clock W (tick st))) f1000));
       ("error", PStr ("Unknown parser: " +++ parser_name));
       ("success", PBool false) ],
     next (next st)).
Proof.
  intros Hn. run.
  repeat match goal with
  | |- context [String.eqb parser_name ?k] =>
      replace (String.eqb parser_name k) with false
        by (symmetry; apply String.eqb_neq; intros ->; apply Hn; simpl; tauto)
  end.
  reflexivity.
Qed.

(** C1. An unsupported parser kind given to [benchmark_file_parsing], and a
    provider other than ["fake"] given to [benchmark_embedding], make the
    call return (it has no other exit) a failure record: [success] is
    false, [error] holds a non-empty text, and the elapsed time between the
    two clock readings is recorded. *)
Theorem C1_unsupported_identifier_returns_failure_record
  (W : World) (st : St) (file_path parser_name : string)
  (texts : list unicode) (provider_name : string) :
  ~ In parser_name ["markdown"; "yaml"; "vue"; "code"] ->
  provider_name <> "fake" ->
  let elapsed := fmul (fsub (clock W (S (tick st))) (clock W (tick st))) f1000 in
  let r1 := fst (benchmark_file_parsing W file_path parser_name st) in
  let r2 := fst (benchmark_embedding W texts provider_name st) in
  (dict_get r1 "success" = Some (PBool false)
   /\ dict_get r1 "error" = Some (PStr ("Unknown parser: " +++ parser_name))
   /\ dict_get r1 "parse_time_ms" = Some (PFloat elapsed))
  /\ (dict_get r2 "success" = Some (PBool false)
      /\ dict_get r2 "error" = Some (PStr ("Unknown embedding provider: " +++ provider_name))
      /\ dict_get r2 "embed_time_ms" = Some (PFloat elapsed))
  /\ "Unknown parser: " +++ parser_name <> ""
  /\ "Unknown embedding provider: " +++ provider_name <> "".
Proof.
  intros Hn Hp elapsed r1 r2. subst r1 r2.
  unfold benchmark_embedding, bind, ret.
  rewrite benchmark_file_parsing_unknown by assumption.
  rewrite benchmark_embedding_run_other by assumption.
  cbn [fst]. repeat split; try reflexivity; discriminate.
Qed.

Lemma C1_witness :
  let r1 := fst (benchmark_file_parsing sample_world "/repo/x.rb" "ruby" st0) in
  let r2 := fst (benchmark_embedding sample_world [hello] "openai" st0) in
  (dict_get r1 "success" = Some (PBool false)
   /\ dict_get r1 "error" = Some (PStr "Unknown parser: ruby")
   /\ dict_get r1 "parse_time_ms" = Some (PFloat (float_of_int 250)))
  /\ (dict_get r2 "success" = Some (PBool false)
      /\ dict_get r2 "error" = Some (PStr "Unknown embedding provider: openai")
      /\ dict_get r2 "embed_time_ms" = Some (PFloat (float_of_int 250)))
  /\ "Unknown parser: ruby" <> ""
  /\ "Unknown embedding provider: openai" <> "".
Proof.
  apply (C1_unsupported_identifier_returns_failure_record
           sample_world st0 "/repo/x.rb" "ruby" [hello] "openai").
  - simpl. intuition discriminate.
  - discriminate.
Defined.

(** *** The vector of ["hello"] *)

Lemma hello_digest :
  md5_hexdigest hello = inr "5d41402abc4b2a76b9719d911017c592"
  /\ first_unencodable [hello] = None
  /\ MD5.digest (utf8_bytes hello) = hello_bytes.
Proof. repeat split; vm_compute; reflexivity. Qed.

(** C2, as stated, fails: the vector of ["hello"] has 16 components, one
    per pair of hexadecimal digits over all 32 digits of the digest, the
    comprehension ranging over [range(0, 32, 2)]; it does not have 8. *)
Lemma C2_counterexample :
  exists v,
    snd (fst (benchmark_embedding_run sample_world [hello] "fake" st0)) = Some [v]
    /\ List.length v = 16%nat
    /\ List.length v <> 8%nat
    /\ range 0 32 2 <> range 0 16 2.
Proof.
  rewrite benchmark_embedding_run_fake, (proj1 (proj2 hello_digest)). cbn [fst snd map].
  exists (vector_of hello). repeat split; vm_compute; discriminate.
Qed.

(** C2, amended.  Embedding the single text ["hello"] with provider
    ["fake"] splits the MD5 hex digest 5d41402abc4b2a76b9719d911017c592 into
    2-character groups over all of its 32 characters and yields exactly 16
    floats, the bytes of the digest divided by 255.0, each in [0,1); the
    same 16 values come out in every world and from every prior state. *)
Theorem C2_hello_vector_has_16_components (W : World) (st : St) :
  snd (fst (benchmark_embedding_run W [hello] "fake" st))
  = Some [ map (fun b => fdiv (float_of_int b) f255) hello_bytes ]
  /\ List.length (map (fun b => fdiv (float_of_int b) f255) hello_bytes) = 16%nat
  /\ forallb in_unit_interval (map (fun b => fdiv (float_of_int b) f255) hello_bytes) = true
  /\ utf8_encode hello = inr [104; 101; 108; 108; 111]
  /\ map (fun i => substring i 2 (hexdigest (MD5.digest [104; 101; 108; 108; 111])))
         (range 0 32 2)
     = [ "5d"; "41"; "40"; "2a"; "bc"; "4b"; "2a"; "76";
         "b9"; "71"; "9d"; "91"; "10"; "17"; "c5"; "92" ].
Proof.
  rewrite benchmark_embedding_run_fake, (proj1 (proj2 hello_digest)). cbn [fst snd map].
  unfold vector_of. rewrite (proj2 (proj2 hello_digest)).
  repeat split; vm_compute; reflexivity.
Qed.

(** C8.  The fake derivation is deterministic: whatever the two worlds
    (clocks included) and the two prior states, two invocations of
    [benchmark_embedding] with provider ["fake"] on the same ordered list of
    texts end the same way.  When every text can be encoded, both complete
    and compute the same list of vectors, one per text and in the order of
    the texts, the vector of a text being the one [fake_embedding] derives
    from that text alone.  When a text cannot be encoded, both fail, with
    the same error. *)
Theorem C8_fake_embedding_is_deterministic
  (W1 W2 : World) (st1 st2 : St) (texts : list unicode) :
  let r1 := fst (benchmark_embedding_run W1 texts "fake" st1) in
  let r2 := fst (benchmark_embedding_run W2 texts "fake" st2) in
  snd r1 = snd r2
  /\ dict_get (fst r1) "success" = dict_get (fst r2) "success"
  /\ dict_get (fst r1) "error" = dict_get (fst r2) "error"
  /\ if forallb encodable texts
     then exists vectors,
            snd r1 = Some vectors
            /\ snd r2 = Some vectors
            /\ Forall2 (fun text v => fake_embedding text = inr v) texts vectors
     else snd r1 = None /\ dict_get (fst r1) "success" = Some (PBool false).
Proof.
  intros r1 r2. subst r1 r2. rewrite !benchmark_embedding_run_fake. cbn [fst].
  destruct (first_unencodable texts) as [e|] eqn:He.
  - destruct (first_unencodable_some texts e He) as [-> _]. repeat split.
  - pose proof (proj1 (first_unencodable_none texts) He) as Hall. rewrite Hall.
    repeat split. exists (map vector_of texts). repeat split.
    clear He. induction texts as [|t texts IH]; cbn [map]; constructor.
    + apply fake_embedding_total. cbn [forallb] in Hall.
      apply andb_prop in Hall. tauto.
    + apply IH. cbn [forallb] in Hall. apply andb_prop in Hall. tauto.
Qed.

(** Two runs on a Greek word and an emoji, from different worlds and
    states, and two on a text that ends with a lone surrogate. *)
Lemma C8_witness :
  (exists vectors,
     snd (fst (benchmark_embedding_run sample_world [[0x3bb; 0x3cc; 0x3b3; 0x3bf; 0x3c2]; [0x1f600]]
                 "fake" st0)) = Some vectors
     /\ snd (fst (benchmark_embedding_run flaky_world [[0x3bb; 0x3cc; 0x3b3; 0x3bf; 0x3c2]; [0x1f600]]
                    "fake" (next st0))) = Some vectors
     /\ List.length vectors = 2%nat)
  /\ snd (fst (benchmark_embedding_run sample_world [hello; [97; 0xd800]] "fake" st0)) = None
  /\ dict_get (fst (fst (benchmark_embedding_run sample_world [hello; [97; 0xd800]] "fake" st0)))
              "error"
     = dict_get (fst (fst (benchmark_embedding_run flaky_world [hello; [97; 0xd800]] "fake"
                             (next st0))))
                "error".
Proof.
  pose proof (C8_fake_embedding_is_deterministic sample_world flaky_world st0 (next st0)
                [[0x3bb; 0x3cc; 0x3b3; 0x3bf; 0x3c2]; [0x1f600]]) as [_ [_ [_ H1]]].
  pose proof (C8_fake_embedding_is_deterministic sample_world flaky_world st0 (next st0)
                [hello; [97; 0xd800]]) as [_ [_ [H2 H3]]].
  split; [|split].
  - change (forallb encodable [[0x3bb; 0x3cc; 0x3b3; 0x3bf; 0x3c2]; [0x1f600]]) with true in H1.
    destruct H1 as [vectors [Ha [Hb Hf]]]. exists vectors.
    split; [exact Ha|]. split; [exact Hb|].
    symmetry. exact (Forall2_length Hf).
  - change (forallb encodable [hello; [97; 0xd800]]) with false in H3. exact (proj1 H3).
  - exact H2.
Defined.

(** C7.  With provider ["fake"] the call on the empty list succeeds: the
    record has [text_count = 0], [avg_embed_time_per_text_ms = 0] and
    [success = true].  On any list the call succeeds exactly when every
    text can be encoded, and its record then has as
    [avg_embed_time_per_text_ms] the recorded [embed_time_ms] divided by
    [text_count] when [text_count > 0], and [0] otherwise; the division is
    defined.  The record of a failed call has no average. *)
Theorem C7_embedding_average (W : World) (st : St) (texts : list unicode) :
  let r := fst (benchmark_embedding W texts "fake" st) in
  let r0 := fst (benchmark_embedding W [] "fake" st) in
  (dict_get r0 "text_count" = Some (PInt 0)
   /\ dict_get r0 "avg_embed_time_per_text_ms" = Some (PInt 0)
   /\ dict_get r0 "success" = Some (PBool true)
   /\ dict_get r0 "error" = None)
  /\ dict_get r "success" = Some (PBool (forallb encodable texts))
  /\ dict_get r "text_count" = Some (PInt (len texts))
  /\ exists elapsed,
       dict_get r "embed_time_ms" = Some (PFloat elapsed)
       /\ dict_get r "avg_embed_time_per_text_ms"
          = (if forallb encodable texts
             then Some (if 0 <? len texts
                        then PFloat (fdiv elapsed (float_of_int (len texts)))
                        else PInt 0)
             else None)
       /\ (0 < len texts ->
           float_truediv elapsed (float_of_int (len texts))
           = inr (fdiv elapsed (float_of_int (len texts)))).
Proof.
  intros r r0. subst r r0. unfold benchmark_embedding, bind, ret.
  rewrite !benchmark_embedding_run_fake. cbn [fst first_unencodable].
  split; [repeat split|].
  assert (Hd : forall elapsed, 0 < len texts ->
            float_truediv elapsed (float_of_int (len texts))
            = inr (fdiv elapsed (float_of_int (len texts)))).
  { intros elapsed Hl. unfold float_truediv. rewrite float_of_int_nonzero by lia. reflexivity. }
  destruct (first_unencodable texts) as [e|] eqn:He.
  - destruct (first_unencodable_some texts e He) as [-> _].
    split; [reflexivity|]. split; [reflexivity|].
    eexists. split; [reflexivity|]. split; [reflexivity|]. apply Hd.
  - rewrite (proj1 (first_unencodable_none texts) He).
    split; [reflexivity|]. split; [reflexivity|].
    eexists. split; [reflexivity|]. split; [destruct texts; reflexivity|]. apply Hd.
Qed.

(** Three texts that encode, then two of which the second does not. *)
Lemma C7_witness :
  let r := fst (benchmark_embedding sample_world [hello; [0x20ac]; [0x1f600]] "fake" st0) in
  let r' := fst (benchmark_embedding sample_world [hello; [97; 0xd800]] "fake" st0) in
  (dict_get r "success" = Some (PBool true)
   /\ dict_get r "text_count" = Some (PInt 3)
   /\ dict_get r "embed_time_ms" = Some (PFloat (float_of_int 250))
   /\ dict_get r "avg_embed_time_per_text_ms"
      = Some (PFloat (fdiv (float_of_int 250) (float_of_int 3))))
  /\ (dict_get r' "success" = Some (PBool false)
      /\ dict_get r' "text_count" = Some (PInt 2)
      /\ dict_get r' "avg_embed_time_per_text_ms" = None).
Proof.
  pose proof (C7_embedding_average sample_world st0 [hello; [0x20ac]; [0x1f600]])
    as [_ [H1 [H2 [elapsed [H3 [H4 _]]]]]].
  pose proof (C7_embedding_average sample_world st0 [hello; [97; 0xd800]])
    as [_ [H1' [H2' [elapsed' [_ [H4' _]]]]]].
  split.
  - split; [exact H1|]. split; [exact H2|].
    assert (He : elapsed = float_of_int 250).
    { assert (H : Some (PFloat elapsed) = Some (PFloat (float_of_int 250)))
        by (rewrite <- H3; vm_compute; reflexivity).
      injection H as ->. reflexivity. }
    subst elapsed. split; [exact H3|exact H4].
  - split; [exact H1'|]. split; [exact H2'|exact H4'].
Defined.

(** *** The two shapes of a parsing record *)

(** Every call ends with a clock reading, the last question put to the
    world, and returns one of the two records. *)
Lemma benchmark_file_parsing_cases (W : World) (file_path parser_name : string) (st : St) :
  let r := benchmark_file_parsing W file_path parser_name st in
  exists n,
    tick (snd r) = S n /\ (tick st < n)%nat /\
    let ms := fmul (fsub (clock W n) (clock W (tick st))) f1000 in
    (exists msg, fst r = parse_failure file_path parser_name ms msg)
    \/ (exists p text chunks,
          parse W (pred n) p text file_path = inr chunks
          /\ fst r = parse_success file_path parser_name ms chunks).
Proof.
  run.
  destruct (String.eqb parser_name "markdown");
    [|destruct (String.eqb parser_name "yaml");
      [|destruct (String.eqb parser_name "vue");
        [|destruct (String.eqb parser_name "code")]]];
    split_world W; rewrite ?avg_chunk_size_total; cbn;
    eexists; (split; [reflexivity|]); (split; [lia|]);
    first [ left; eexists; reflexivity
          | right; do 3 eexists; split; [eassumption | reflexivity] ].
Qed.

(** C5, as stated, fails: the failure record of [benchmark_embedding]
    carries a count, [text_count], next to the elapsed time. *)
Lemma C5_counterexample :
  let r := fst (benchmark_embedding sample_world [hello; unicode_of_string "world"] "openai" st0) in
  dict_success r = false
  /\ dict_get r "text_count" = Some (PInt 2)
  /\ dict_keys r = ["embedding_provider"; "text_count"; "embed_time_ms"; "error"; "success"].
Proof. repeat split. Qed.

(** C5, amended.  A failure record still holds the elapsed time, from the
    clock reading at the start of the call to the one the handler takes,
    and no estimated measurement.  That of [benchmark_file_parsing] has the
    fields file, parser, parse_time_ms, error and success only (no
    chunk_count, total_chunk_size or avg_chunk_size); that of
    [benchmark_embedding] has embedding_provider, text_count, embed_time_ms,
    error and success only (no avg_embed_time_per_text_ms), [text_count]
    being the length of the list of texts it was given. *)
Theorem C5_failure_records_keep_elapsed_time
  (W : World) (st : St) (file_path parser_name : string)
  (texts : list unicode) (provider_name : string) :
  let r1 := benchmark_file_parsing W file_path parser_name st in
  let r2 := benchmark_embedding W texts provider_name st in
  let elapsed (st' : St) := fmul (fsub (clock W (pred (tick st'))) (clock W (tick st))) f1000 in
  (dict_success (fst r1) = false ->
   (tick st < pred (tick (snd r1)))%nat /\
   exists msg,
     fst r1 = [ ("file", PStr (basename file_path));
                ("parser", PStr parser_name);
                ("parse_time_ms", PFloat (elapsed (snd r1)));
                ("error", PStr msg);
                ("success", PBool false) ])
  /\ (dict_success (fst r2) = false ->
      (tick st < pred (tick (snd r2)))%nat /\
      exists msg,
        fst r2 = [ ("embedding_provider", PStr provider_name);
                   ("text_count", PInt (len texts));
                   ("embed_time_ms", PFloat (elapsed (snd r2)));
                   ("error", PStr msg);
                   ("success", PBool false) ]).
Proof.
  intros r1 r2 elapsed. split.
  - intros Hf. subst r1 elapsed.
    destruct (benchmark_file_parsing_cases W file_path parser_name st)
      as [n [Hn [Hlt [[msg Hr]|[p [text [chunks [_ Hr]]]]]]]].
    + rewrite Hn. cbn [pred]. split; [exact Hlt|]. exists msg. exact Hr.
    + rewrite Hr in Hf. discriminate.
  - intros Hf. subst r2 elapsed. revert Hf. unfold benchmark_embedding, bind, ret.
    destruct (String.eqb_spec provider_name "fake") as [->|Hp].
    + rewrite benchmark_embedding_run_fake.
      destruct (first_unencodable texts) as [e|]; [|discriminate]. intros _.
      cbn. split; [lia|]. eexists. reflexivity.
    + rewrite benchmark_embedding_run_other by assumption. intros _.
      cbn. split; [lia|]. eexists. reflexivity.
Qed.

Lemma C5_witness :
  let r1 := benchmark_file_parsing sample_world "/repo/x.rb" "ruby" st0 in
  let r2 := benchmark_embedding sample_world [hello; unicode_of_string "world"] "openai" st0 in
  (dict_success (fst r1) = false /\ dict_success (fst r2) = false)
  /\ (exists msg,
        fst r1 = [ ("file", PStr "x.rb");
                   ("parser", PStr "ruby");
                   ("parse_time_ms", PFloat (float_of_int 250));
                   ("error", PStr msg);
                   ("success", PBool false) ])
  /\ (exists msg,
        fst r2 = [ ("embedding_provider", PStr "openai");
                   ("text_count", PInt 2);
                   ("embed_time_ms", PFloat (float_of_int 250));
                   ("error", PStr msg);
                   ("success", PBool false) ]).
Proof.
  pose proof (C5_failure_records_keep_elapsed_time
                sample_world st0 "/repo/x.rb" "ruby" [hello; unicode_of_string "world"] "openai")
    as [H1 H2].
  split; [split; reflexivity|]. split.
  - exact (proj2 (H1 eq_refl)).
  - exact (proj2 (H2 eq_refl)).
Defined.

(** C6.  In every successful record of [benchmark_file_parsing] the three
    chunk fields describe the list of chunks the parser returned: when
    [chunk_count > 0], [avg_chunk_size] is the quotient of
    [total_chunk_size] by [chunk_count], a division that is defined; when
    [chunk_count = 0], [avg_chunk_size] is [0] and nothing is divided.  The
    expression of the average raises on no list of chunks. *)
Theorem C6_average_chunk_size
  (W : World) (st : St) (file_path parser_name : string) :
  let r := fst (benchmark_file_parsing W file_path parser_name st) in
  dict_success r = true ->
  (exists n total avg,
     dict_get r "chunk_count" = Some (PInt n)
     /\ dict_get r "total_chunk_size" = Some (PInt total)
     /\ dict_get r "avg_chunk_size" = Some avg
     /\ 0 <= n
     /\ (0 < n -> exists q, int_truediv total n = inr q /\ avg = PFloat q)
     /\ (n = 0 -> avg = PInt 0)
     /\ exists p text k chunks,
          parse W k p text file_path = inr chunks
          /\ n = len chunks /\ total = sum_sizes chunks)
  /\ forall chunks, exists avg, avg_chunk_size chunks = inr avg.
Proof.
  intros r Hs. subst r. split.
  - destruct (benchmark_file_parsing_cases W file_path parser_name st)
      as [n [Hn [Hlt [[msg Hr]|[p [text [chunks [Hp Hr]]]]]]]];
      rewrite Hr in *; [discriminate|].
    exists (len chunks), (sum_sizes chunks). eexists.
    repeat (split; [reflexivity|]). split; [unfold len; lia|].
    split; [|split].
    + intros Hpos. destruct chunks as [|c chunks]; [discriminate|].
      eexists. split; [|reflexivity].
      unfold int_truediv. replace (len (c :: chunks) =? 0) with false; [reflexivity|].
      symmetry. apply Z.eqb_neq. lia.
    + intros Hz. destruct chunks as [|c chunks]; [reflexivity|discriminate].
    + exists p, text, (pred n), chunks. repeat split. exact Hp.
  - intros chunks. rewrite avg_chunk_size_total. eexists. reflexivity.
Qed.

Lemma C6_witness :
  let r := fst (benchmark_file_parsing sample_world "/repo/sample.yaml" "yaml" st0) in
  let r' := fst (benchmark_file_parsing sample_world "/repo/sample.md" "markdown" st0) in
  (dict_success r = true
   /\ dict_get r "chunk_count" = Some (PInt 0)
   /\ dict_get r "avg_chunk_size" = Some (PInt 0))
  /\ (dict_success r' = true
      /\ dict_get r' "chunk_count" = Some (PInt 2)
      /\ dict_get r' "total_chunk_size" = Some (PInt 16)
      /\ dict_get r' "avg_chunk_size" = Some (PFloat (float_of_int 8)))
  /\ (exists n total avg,
        dict_get r "chunk_count" = Some (PInt n)
        /\ dict_get r "total_chunk_size" = Some (PInt total)
        /\ dict_get r "avg_chunk_size" = Some avg
        /\ 0 <= n
        /\ (0 < n -> exists q, int_truediv total n = inr q /\ avg = PFloat q)
        /\ (n = 0 -> avg = PInt 0)
        /\ exists p text k chunks,
             parse sample_world k p text "/repo/sample.yaml" = inr chunks
             /\ n = len chunks /\ total = sum_sizes chunks).
Proof.
  split; [repeat split|]. split; [repeat split|].
  exact (proj1 (C6_average_chunk_size sample_world st0 "/repo/sample.yaml" "yaml" eq_refl)).
Defined.

(** *** The loop of the driver *)

Lemma success_names_parser (W : World) (file_path parser_name : string) (st : St) :
  dict_success (fst (benchmark_file_parsing W file_path parser_name st)) = true ->
  exists p, parser_named parser_name = Some p.
Proof.
  unfold parser_named.
  destruct (String.eqb parser_name "markdown") eqn:E1; [eexists; reflexivity|].
  destruct (String.eqb parser_name "yaml") eqn:E2; [eexists; reflexivity|].
  destruct (String.eqb parser_name "vue") eqn:E3; [eexists; reflexivity|].
  destruct (String.eqb parser_name "code") eqn:E4; [eexists; reflexivity|].
  run. rewrite E1, E2, E3, E4. cbn. discriminate.
Qed.

Lemma rebind_parser_named (W : World) (parser_name : string) (p : Parser) (st : St) :
  parser_named parser_name = Some p ->
  rebind_parser W parser_name st
  = (match construct W (tick st) p with
     | inl e => inl e
     | inr _ => inr (Some p)
     end, next st).
Proof.
  unfold parser_named, rebind_parser. intros Hp.
  destruct (String.eqb parser_name "markdown");
    [|destruct (String.eqb parser_name "yaml");
      [|destruct (String.eqb parser_name "vue");
        [|destruct (String.eqb parser_name "code"); [|discriminate]]]];
    injection Hp as <-; unfold ebind, bind, new_parser, eret, ret;
    destruct (construct W (tick st) _) as [e|[]]; reflexivity.
Qed.

(** The second parse, call by call, with the state it leaves. *)
Lemma collect_texts_spec (W : World) (filename file_path parser_name : string)
  (p : Parser) (l : Locals) (st : St) :
  parser_named parser_name = Some p ->
  exists l' new err,
    collect_texts W filename file_path parser_name l st
    = (l', after_second_parse W filename file_path p err st)
    /\ second_parse W file_path p (tick st) new err
    /\ results l' = results l
    /\ all_texts l' = all_texts l ++ new.
Proof.
  intros Hp. unfold collect_texts, bind at 1. rewrite (rebind_parser_named W _ p st Hp).
  unfold after_second_parse, second_parse_calls, report_collect_error, collect_error_line.
  destruct (construct W (tick st) p) as [e|[]] eqn:Hc.
  - exists l, [], (Some e). split; [reflexivity|].
    split; [apply second_parse_no_parser; exact Hc|].
    split; [reflexivity|rewrite app_nil_r; reflexivity].
  - unfold bind at 1, open_read. cbn [tick next].
    destruct (read_text W (S (tick st)) file_path) as [e|text] eqn:Hr.
    + exists (with_parser (Some p) l), [], (Some e). split; [reflexivity|].
      split; [apply second_parse_no_text; assumption|].
      split; [reflexivity|rewrite app_nil_r; reflexivity].
    + unfold bind at 1, parser_parse. cbn [parser with_parser tick next].
      destruct (parse W (S (S (tick st))) p text file_path) as [e|chunks] eqn:Hx.
      * exists (with_parser (Some p) l), [], (Some e). split; [reflexivity|].
        split; [eapply second_parse_raises; eassumption|].
        split; [reflexivity|rewrite app_nil_r; reflexivity].
      * exists (extend_texts (map content chunks) (with_parser (Some p) l)),
          (map content chunks), None.
        split; [reflexivity|].
        split; [eapply second_parse_ok; eassumption|]. split; reflexivity.
Qed.

Lemma success_field (W : World) (file_path parser_name : string) (st : St) :
  let r := fst (benchmark_file_parsing W file_path parser_name st) in
  getitem r "success" = inr (PBool (dict_success r)).
Proof.
  intros r. subst r.
  destruct (benchmark_file_parsing_cases W file_path parser_name st)
    as [n [_ [_ [[msg Hr]|[p [text [chunks [_ Hr]]]]]]]]; rewrite Hr; reflexivity.
Qed.

(** A measurement prints nothing and writes nothing. *)
Lemma benchmark_file_parsing_silent (W : World) (file_path parser_name : string) (st : St) :
  let r := benchmark_file_parsing W file_path parser_name st in
  stdout (snd r) = stdout st /\ written (snd r) = written st.
Proof.
  run. destruct (String.eqb parser_name "markdown");
    [|destruct (String.eqb parser_name "yaml");
      [|destruct (String.eqb parser_name "vue");
        [|destruct (String.eqb parser_name "code")]]];
    split_world W; rewrite ?avg_chunk_size_total; split; reflexivity.
Qed.

(** A step that may raise, run from a state. *)
Lemma ebind_run {A B : Type} (c : E A) (k : A -> E B) (st : St) :
  (let? a := c in k a) st
  = match fst (c st) with
    | inl e => (inl e, snd (c st))
    | inr a => k a (snd (c st))
    end.
Proof. unfold ebind, bind, ret. destruct (c st) as [[e|a] st']; reflexivity. Qed.

Lemma bind_run {A B : Type} (c : M A) (k : A -> M B) (st : St) :
  (let* a := c in k a) st = k (fst (c st)) (snd (c st)).
Proof. unfold bind. destruct (c st); reflexivity. Qed.

(** A look-up followed by what depends on its answer. *)
Lemma ebind_exists (W : World) (p : string) {B : Type} (k : bool -> E B) (st : St) :
  (let? present := exists_ W p in k present) st
  = match path_exists W (tick st) p with
    | inl e => (inl e, next st)
    | inr present => k present (next st)
    end.
Proof.
  unfold ebind, bind, exists_, ret. destruct (path_exists W (tick st) p); reflexivity.
Qed.

(** One iteration of the loop, by the answer to its look-up. *)
Lemma main_loop_body_spec (W : World) (dir : string) (l : Locals) (f pn : string)
  (st : St) ts v rs :
  results l = report ts v rs [] ->
  match path_exists W (tick st) (path_join dir f) with
  | inl e => main_loop_body W dir l (f, pn) st = (inl e, next st)
  | inr false => main_loop_body W dir l (f, pn) st = (inr l, not_found (path_join dir f) st)
  | inr true =>
      let r := benchmark_file_parsing W (path_join dir f) pn (announced f pn st) in
      exists l' new st',
        main_loop_body W dir l (f, pn) st = (inr l', st')
        /\ results l' = report ts v (rs ++ [PDict (fst r)]) []
        /\ all_texts l' = all_texts l ++ new
        /\ collected W f (path_join dir f) pn r new st'
  end.
Proof.
  intros Hres. unfold main_loop_body. cbv beta iota zeta. rewrite ebind_exists.
  destruct (path_exists W (tick st) (path_join dir f)) as [e|[|]] eqn:Hex.
  - reflexivity.
  - unfold bind at 1, print at 1. unfold bind at 1.
    change {| tick := tick (next st); stdout := _; written := written (next st) |}
      with (announced f pn st).
    pose proof (success_field W (path_join dir f) pn (announced f pn st)) as Hsf.
    destruct (benchmark_file_parsing W (path_join dir f) pn (announced f pn st))
      as [result st2] eqn:Hb.
    cbn [fst snd] in Hsf |- *.
    unfold ebind, bind, ret, eret. rewrite Hres. cbn [append_to report dict_get String.eqb
      Ascii.eqb Bool.eqb dict_set]. cbn.
    rewrite Hsf. cbn [truth].
    destruct (dict_success result) eqn:Hs.
    + destruct (success_names_parser W (path_join dir f) pn (announced f pn st)) as [p Hp];
        [rewrite Hb; exact Hs|].
      edestruct (collect_texts_spec W f (path_join dir f) pn p) as
        [l' [new [err [Hc [Hsp [Hr Ht]]]]]]; [exact Hp|].
      rewrite Hc. exists l', new. eexists. split; [reflexivity|].
      split; [rewrite Hr; reflexivity|]. split; [exact Ht|].
      right. split; [exact Hs|]. exists p, err. split; [exact Hp|].
      split; [exact Hsp|reflexivity].
    + eexists. exists []. eexists. split; [reflexivity|].
      split; [reflexivity|]. split; [rewrite app_nil_r; reflexivity|].
      left. split; [exact Hs|]. split; reflexivity.
  - unfold bind, print, eret, ret. reflexivity.
Qed.

Lemma plan_run_length (W : World) (dir : string) items st rs ts out st' :
  plan_run W dir items st rs ts out st' -> (List.length rs <= List.length items)%nat.
Proof. induction 1; simpl; lia. Qed.

(** The loop writes no file. *)
Lemma plan_run_written (W : World) (dir : string) items st rs ts out st' :
  plan_run W dir items st rs ts out st' -> written st' = written st.
Proof.
  induction 1 as [|f pn items st e _|f pn items st rs ts out st' _ _ IH
                  |f pn items st new st1 rs ts out st' _ Hc _ IH].
  - reflexivity.
  - reflexivity.
  - exact IH.
  - rewrite IH.
    destruct (benchmark_file_parsing_silent W (path_join dir f) pn (announced f pn st))
      as [_ Hw].
    destruct Hc as [[_ [_ ->]]|[_ [p [err [_ [_ ->]]]]]]; exact Hw.
Qed.

(** The loop of lines 126-157 follows the plan. *)
Lemma for_each_spec (W : World) (dir : string) (items : list (string * string)) :
  forall (l : Locals) (st : St) ts v rs0,
    results l = report ts v rs0 [] ->
    exists rs new out st',
      plan_run W dir items st rs new out st'
      /\ match out with
         | Some e => for_each (main_loop_body W dir) items l st = (inl e, st')
         | None =>
             exists l',
               for_each (main_loop_body W dir) items l st = (inr l', st')
               /\ results l' = report ts v (rs0 ++ rs) []
               /\ all_texts l' = all_texts l ++ new
         end.
Proof.
  induction items as [|[f pn] items IH]; intros l st ts v rs0 Hres.
  - exists [], [], None, st. split; [constructor|]. exists l.
    rewrite !app_nil_r. repeat split. exact Hres.
  - pose proof (main_loop_body_spec W dir l f pn st ts v rs0 Hres) as Hb.
    cbn [for_each]. rewrite ebind_run.
    destruct (path_exists W (tick st) (path_join dir f)) as [e|[|]] eqn:Hex.
    + rewrite Hb. exists [], [], (Some e), (next st).
      split; [apply plan_raised; exact Hex|reflexivity].
    + destruct Hb as [l1 [new [st1 [Hb [Hr [Ht Hc]]]]]]. rewrite Hb.
      destruct (IH l1 st1 ts v _ Hr) as [rs [nts [out [st' [Hp Hf]]]]].
      eexists. exists (new ++ nts), out, st'.
      split; [eapply plan_measured; eassumption|].
      destruct out as [e|]; [exact Hf|].
      destruct Hf as [l' [Hf [Hr' Ht']]]. exists l'. split; [exact Hf|].
      split; [rewrite Hr', <- app_assoc; reflexivity|].
      rewrite Ht', Ht, <- app_assoc. reflexivity.
    + rewrite Hb.
      destruct (IH l (not_found (path_join dir f) st) ts v rs0 Hres)
        as [rs [nts [out [st' [Hp Hf]]]]].
      exists rs, nts, out, st'. split; [eapply plan_missing; eassumption|exact Hf].
Qed.

(** The measuring phase: the clock reading of the timestamp, the loop, and
    one run of the embedding benchmark when the loop has collected a text. *)
Lemma measure_spec (W : World) (dir : string) (st : St) :
  exists rs texts out st_loop,
    plan_run W dir test_files (next st) rs texts out st_loop
    /\ match out with
       | Some e => measure W dir st = (inl e, st_loop)
       | None =>
           measure W dir st
           = (inr (report (clock W (tick st)) (sys_version W) rs
                          (embedding_results_of W texts st_loop)),
              after_embedding W texts st_loop)
       end.
Proof.
  edestruct (for_each_spec W dir test_files
               {| results := report (clock W (tick st)) (sys_version W) [] [];
                  all_texts := []; parser := None |} (next st))
    as [rs [ts [out [st1 [Hp Hf]]]]]; [reflexivity|].
  exists rs, ts, out, st1. split; [exact Hp|].
  unfold report in Hf.
  destruct out as [e|]; unfold measure; rewrite bind_run; unfold time_time at 1 2;
    cbn [fst snd]; rewrite ebind_run.
  - rewrite Hf. reflexivity.
  - destruct Hf as [l [Hf [Hr Ht]]]. rewrite Hf. cbn [fst snd].
    cbn [all_texts app] in Ht. unfold embedding_step. rewrite Hr, Ht.
    destruct ts as [|t ts]; [reflexivity|].
    cbn [truthy]. unfold bind, print, embedding_results_of, after_embedding.
    change {| tick := tick st1; stdout := _; written := written st1 |}
      with (embedding_announced (t :: ts) st1).
    destruct (benchmark_embedding W (t :: ts) "fake" (embedding_announced (t :: ts) st1))
      as [er st3].
    reflexivity.
Qed.

(** The embedding benchmark reads the clock twice and does nothing else to
    the state. *)
Lemma benchmark_embedding_state (W : World) (texts : list unicode) (st : St) :
  snd (benchmark_embedding W texts "fake" st) = advanced st 2.
Proof.
  unfold benchmark_embedding, bind, ret.
  rewrite benchmark_embedding_run_fake. reflexivity.
Qed.

Lemma after_embedding_written (W : World) (texts : list unicode) (st : St) :
  written (after_embedding W texts st) = written st.
Proof.
  unfold after_embedding. destruct texts; [reflexivity|].
  rewrite benchmark_embedding_state. reflexivity.
Qed.

(** A run in which the fixture directory exists: the measuring phase, then
    the saving of what it returns. *)
Lemma main_spec (W : World) (st : St) :
  path_exists W (tick st) (fixture_dir W) = inr true ->
  exists rs texts out st_loop,
    plan_run W (fixture_dir W) test_files (next (next st)) rs texts out st_loop
    /\ written st_loop = written st
    /\ match out with
       | Some e =>
           measure W (fixture_dir W) (next st) = (inl e, st_loop)
           /\ main W st = (inl e, st_loop)
       | None =>
           let results := report (clock W (S (tick st))) (sys_version W) rs
                                 (embedding_results_of W texts st_loop) in
           measure W (fixture_dir W) (next st) = (inr results, after_embedding W texts st_loop)
           /\ main W st
              = (let? _ := save W results in eret (Some results))
                  (after_embedding W texts st_loop)
       end.
Proof.
  intros Hex.
  destruct (measure_spec W (fixture_dir W) (next st)) as [rs [texts [out [st1 [Hp Hm]]]]].
  exists rs, texts, out, st1. split; [exact Hp|].
  split; [exact (plan_run_written _ _ _ _ _ _ _ _ Hp)|].
  unfold main. fold (fixture_dir W). rewrite ebind_exists, Hex.
  cbn [negb]. rewrite ebind_run.
  destruct out as [e|]; rewrite Hm; split; reflexivity.
Qed.

(** What [save] does with a report. *)
Lemma save_spec (W : World) (results : dict) (st : St) :
  (exists e, fst (save W results st) = inl e /\ written (snd (save W results st)) = written st)
  \/ (exists text,
        open_write W (tick st) (output_file W) = None
        /\ json_dumps (PDict results) = Some text
        /\ save W results st
           = (inr tt,
              {| tick := S (tick st);
                 stdout := ("Benchmark results saved to: " +++ output_file W) :: stdout st;
                 written := (output_file W, text) :: written st |})).
Proof.
  unfold save, ebind, bind, open_for_write, raise, ret, eret, write_file, print.
  fold (output_file W).
  destruct (open_write W (tick st) (output_file W)) as [e|] eqn:Ho.
  - left. exists e. split; reflexivity.
  - destruct (json_dumps (PDict results)) as [text|] eqn:Hj.
    + right. exists text. repeat split.
    + left. eexists. split; reflexivity.
Qed.

Lemma plan_run_records (W : World) (dir : string) items st rs ts out st' :
  plan_run W dir items st rs ts out st' ->
  Forall (fun r => exists f pn s,
            In (f, pn) items
            /\ r = PDict (fst (benchmark_file_parsing W (path_join dir f) pn s))) rs.
Proof.
  induction 1 as [|f pn items st e _|f pn items st rs ts out st' _ _ IH
                  |f pn items st new st1 rs ts out st' _ _ _ IH].
  - constructor.
  - constructor.
  - eapply Forall_impl; [|exact IH]. intros r [f' [pn' [s [Hin Hr]]]].
    exists f', pn', s. split; [right; assumption|assumption].
  - constructor.
    + exists f, pn, (announced f pn st). split; [left; reflexivity|reflexivity].
    + eapply Forall_impl; [|exact IH]. intros r [f' [pn' [s [Hin Hr]]]].
      exists f', pn', s. split; [right; assumption|assumption].
Qed.

(** The plan leaves no choice: the world and the state a loop starts in
    fix its records, its texts, its outcome and the state it ends in. *)
Lemma second_parse_functional (W : World) (file_path : string) (p : Parser) (t : nat)
  new err new' err' :
  second_parse W file_path p t new err -> second_parse W file_path p t new' err' ->
  new = new' /\ err = err'.
Proof.
  intros H1 H2.
  inversion H1 as [text chunks Hc Hr Hp|e Hc|e Hc Hr|text e Hc Hr Hp];
    inversion H2 as [text' chunks' Hc' Hr' Hp'|e' Hc'|e' Hc' Hr'|text' e' Hc' Hr' Hp'];
    subst; try congruence;
    try (rewrite Hr in Hr'; injection Hr' as <-); split; congruence.
Qed.

Lemma plan_run_functional (W : World) (dir : string) items st rs ts out st' :
  plan_run W dir items st rs ts out st' ->
  forall rs2 ts2 out2 st2,
    plan_run W dir items st rs2 ts2 out2 st2 ->
    rs2 = rs /\ ts2 = ts /\ out2 = out /\ st2 = st'.
Proof.
  induction 1 as [|f pn items st e Hex|f pn items st rs ts out st' Hex _ IH
                  |f pn items st new st1 rs ts out st' Hex Hc _ IH];
    intros rs2 ts2 out2 st2 H2; inversion H2; subst; try congruence.
  - repeat split.
  - repeat split; congruence.
  - eauto.
  - match goal with
    | Hc2 : collected _ _ _ _ _ ?new2 ?st12, Hp2 : plan_run _ _ _ ?st12 _ _ _ _ |- _ =>
        assert (Heq : new2 = new /\ st12 = st1);
          [|destruct Heq as [-> ->]; destruct (IH _ _ _ _ Hp2) as [-> [-> [-> ->]]];
            repeat split]
    end.
    match goal with
    | Hc2 : collected _ _ _ _ _ _ _ |- _ =>
        destruct Hc as [[Hs [-> ->]]|[Hs [p [err [Hp [Hsp ->]]]]]];
          destruct Hc2 as [[Hs2 [-> ->]]|[Hs2 [p2 [err2 [Hp2 [Hsp2 ->]]]]]];
          try congruence; [split; reflexivity|]
    end.
    assert (p2 = p) by congruence. subst p2.
    destruct (second_parse_functional _ _ _ _ _ _ _ _ Hsp Hsp2) as [-> ->].
    split; reflexivity.
Qed.

(** C3, as stated, fails: the fixture directory exists, none of the four
    files does, and the run ends with no record at all, neither of a
    parse nor of an embedding. *)
Lemma C3_counterexample :
  path_exists bare_world (tick st0) (fixture_dir bare_world) = inr true
  /\ exists results st',
       main bare_world st0 = (inr (Some results), st')
       /\ dict_get results "parsing_results" = Some (PList [])
       /\ dict_get results "embedding_results" = Some (PList []).
Proof.
  split; [reflexivity|]. eexists. eexists. split; [vm_compute; reflexivity|].
  split; reflexivity.
Qed.

(** C3, amended.  In a run where the fixture directory exists the driver,
    having read the clock for the timestamp, takes the declared pairs in
    the declared order from the state [next (next st)] and follows
    [plan_run]: each pair is looked for once; when the file is missing one
    line says so and the pair is skipped; otherwise one line announces it,
    [benchmark_file_parsing] is run once and its record appended to
    parsing_results (at most four records), and the texts of a second
    parse are collected after a success.  A look-up that raises is not
    caught: the run ends there, raising, with no report.  Otherwise, when
    no text was collected, the measuring phase ends in the very state the
    loop ended in, nothing more having been asked or printed, and
    embedding_results is empty; when some text was collected, one line is
    printed, [benchmark_embedding] is run once over all the texts, reading
    the clock twice, and its record is the only one of embedding_results.
    The report so built is then handed to [save].  The plan leaves no
    choice: no other records, texts, outcome or final state fit it. *)
Theorem C3_driver_follows_the_plan (W : World) (st : St) :
  path_exists W (tick st) (fixture_dir W) = inr true ->
  exists rs texts out st_loop,
    plan_run W (fixture_dir W) test_files (next (next st)) rs texts out st_loop
    /\ (forall rs' texts' out' st_loop',
          plan_run W (fixture_dir W) test_files (next (next st)) rs' texts' out' st_loop' ->
          rs' = rs /\ texts' = texts /\ out' = out /\ st_loop' = st_loop)
    /\ (List.length rs <= 4)%nat
    /\ match out with
       | Some e => main W st = (inl e, st_loop) /\ written st_loop = written st
       | None =>
           exists es st1,
             measure W (fixture_dir W) (next st)
             = (inr (report (clock W (S (tick st))) (sys_version W) rs es), st1)
             /\ main W st
                = (let? _ := save W (report (clock W (S (tick st))) (sys_version W) rs es) in
                   eret (Some (report (clock W (S (tick st))) (sys_version W) rs es))) st1
             /\ match texts with
                | [] => es = [] /\ st1 = st_loop
                | _ =>
                    es = [PDict (fst (benchmark_embedding W texts "fake"
                                        (embedding_announced texts st_loop)))]
                    /\ st1 = snd (benchmark_embedding W texts "fake"
                                    (embedding_announced texts st_loop))
                    /\ st1 = advanced (embedding_announced texts st_loop) 2
                end
       end.
Proof.
  intros Hex.
  destruct (main_spec W st Hex) as [rs [texts [out [st_loop [Hp [Hw Hm]]]]]].
  exists rs, texts, out, st_loop. split; [exact Hp|].
  split; [exact (plan_run_functional _ _ _ _ _ _ _ _ Hp)|].
  split; [exact (plan_run_length _ _ _ _ _ _ _ _ Hp)|].
  destruct out as [e|].
  - split; [exact (proj2 Hm)|exact Hw].
  - destruct Hm as [Hm Hmain].
    exists (embedding_results_of W texts st_loop), (after_embedding W texts st_loop).
    split; [exact Hm|]. split; [exact Hmain|].
    unfold embedding_results_of, after_embedding.
    destruct texts as [|t texts]; [split; reflexivity|].
    split; [reflexivity|]. split; [reflexivity|apply benchmark_embedding_state].
Qed.

Lemma C3_witness :
  path_exists sample_world (tick st0) (fixture_dir sample_world) = inr true
  /\ exists rs texts out st_loop,
       plan_run sample_world (fixture_dir sample_world) test_files (next (next st0))
                rs texts out st_loop
       /\ (forall rs' texts' out' st_loop',
             plan_run sample_world (fixture_dir sample_world) test_files (next (next st0))
                      rs' texts' out' st_loop' ->
             rs' = rs /\ texts' = texts /\ out' = out /\ st_loop' = st_loop)
       /\ (List.length rs <= 4)%nat
       /\ match out with
          | Some e => main sample_world st0 = (inl e, st_loop) /\ written st_loop = written st0
          | None =>
              exists es st1,
                measure sample_world (fixture_dir sample_world) (next st0)
                = (inr (report (clock sample_world (S (tick st0))) (sys_version sample_world)
                               rs es), st1)
                /\ main sample_world st0
                   = (let? _ := save sample_world
                                  (report (clock sample_world (S (tick st0)))
                                          (sys_version sample_world) rs es) in
                      eret (Some (report (clock sample_world (S (tick st0)))
                                         (sys_version sample_world) rs es))) st1
                /\ match texts with
                   | [] => es = [] /\ st1 = st_loop
                   | _ =>
                       es = [PDict (fst (benchmark_embedding sample_world texts "fake"
                                           (embedding_announced texts st_loop)))]
                       /\ st1 = snd (benchmark_embedding sample_world texts "fake"
                                       (embedding_announced texts st_loop))
                       /\ st1 = advanced (embedding_announced texts st_loop) 2
                   end
          end.
Proof.
  split; [reflexivity|].
  apply (C3_driver_follows_the_plan sample_world st0). reflexivity.
Defined.

(** The measuring phase of the sample run, call by call: one clock reading
    for the timestamp; per file one look-up, five calls of the measurement
    and three of the second parse; two clock readings of the one embedding
    benchmark; and the lines printed, the last one first. *)
Example sample_measure :
  exists results,
    measure sample_world (fixture_dir sample_world) (next st0)
    = (inr results,
       {| tick := 1 + 1 + 4 * (1 + 5 + 3) + 2;
          stdout := [ "Benchmarking embedding for 6 texts...";
                      "Benchmarking sample.cs with code parser...";
                      "Benchmarking sample.vue with vue parser...";
                      "Benchmarking sample.yaml with yaml parser...";
                      "Benchmarking sample.md with markdown parser..." ];
          written := [] |}).
Proof. eexists. vm_compute. reflexivity. Qed.

(** A run in which the third look-up is refused: two files are measured,
    the exception reaches the caller of [main], and no report is written. *)
Example guarded_run :
  main guarded_world st0
  = (inl (PyExc "PermissionError"
            "[Errno 13] Permission denied: '/repo/ChunkHound.Tests/Benchmarks/TestFiles/sample.vue'"),
     {| tick := 1 + 1 + 2 * (1 + 5 + 3) + 1;
        stdout := [ "Benchmarking sample.yaml with yaml parser...";
                    "Benchmarking sample.md with markdown parser..." ];
        written := [] |}).
Proof. vm_compute. reflexivity. Qed.

(** C4, as stated, fails: the report has no field named
    environment_version; its second field is python_version. *)
Lemma C4_counterexample :
  exists results st' text,
    main sample_world st0 = (inr (Some results), st')
    /\ written st' = [(output_file sample_world, text)]
    /\ json_dumps (PDict results) = Some text
    /\ dict_keys results
       = ["timestamp"; "python_version"; "parsing_results"; "embedding_results"]
    /\ dict_get results "environment_version" = None.
Proof.
  do 3 eexists. split; [vm_compute; reflexivity|].
  split; [reflexivity|]. split; [vm_compute; reflexivity|]. split; reflexivity.
Qed.

(** What a run that returns has built and written. *)
Lemma main_returns_report (W : World) (st st' : St) (results : dict) :
  main W st = (inr (Some results), st') ->
  exists timestamp rs es text,
    results = [ ("timestamp", PFloat timestamp);
                ("python_version", PStr (sys_version W));
                ("parsing_results", PList rs);
                ("embedding_results", PList es) ]
    /\ Forall (fun r => exists file_path parser_name s,
                 r = PDict (fst (benchmark_file_parsing W file_path parser_name s))) rs
    /\ Forall (fun r => exists texts s,
                 r = PDict (fst (benchmark_embedding W texts "fake" s))) es
    /\ json_dumps (PDict results) = Some text
    /\ written st' = (output_file W, text) :: written st.
Proof.
  intros Hmain.
  destruct (path_exists W (tick st) (fixture_dir W)) as [e|[|]] eqn:Hex.
  - unfold main in Hmain. fold (fixture_dir W) in Hmain.
    rewrite ebind_exists, Hex in Hmain. discriminate.
  - destruct (main_spec W st Hex) as [rs [texts [out [st_loop [Hp [Hw Hm]]]]]].
    destruct out as [e|]; [rewrite (proj2 Hm) in Hmain; discriminate|].
    destruct Hm as [_ Hmain']. rewrite Hmain', ebind_run in Hmain.
    set (results' := report _ _ rs _) in *. set (st1 := after_embedding W texts st_loop) in *.
    destruct (save_spec W results' st1) as [[e [He _]]|[text [_ [Hj Hs]]]].
    + rewrite He in Hmain. discriminate.
    + rewrite Hs in Hmain. cbn [fst snd] in Hmain. unfold eret, ret in Hmain.
      injection Hmain as <- <-. cbn [written]. subst st1.
      rewrite after_embedding_written, Hw.
      exists (clock W (S (tick st))), rs, (embedding_results_of W texts st_loop), text.
      split; [reflexivity|]. split; [|split; [|split; [exact Hj|reflexivity]]].
      * eapply Forall_impl; [|exact (plan_run_records _ _ _ _ _ _ _ _ Hp)].
        intros r [f [pn [s [_ Hr']]]]. eauto.
      * unfold embedding_results_of. destruct texts; constructor; eauto.
  - unfold main in Hmain. fold (fixture_dir W) in Hmain.
    rewrite ebind_exists, Hex in Hmain. cbn in Hmain. discriminate.
Qed.

(** C4, amended.  The JSON report a run writes is the text of an object
    with exactly four top-level fields, in this order: a float timestamp,
    a text field named python_version holding [sys.version], an array
    parsing_results of records of [benchmark_file_parsing], and an array
    embedding_results of records of [benchmark_embedding]. *)
Theorem C4_report_has_four_fields (W : World) (st st' : St) (results : dict) :
  main W st = (inr (Some results), st') ->
  exists timestamp rs es text,
    results = [ ("timestamp", PFloat timestamp);
                ("python_version", PStr (sys_version W));
                ("parsing_results", PList rs);
                ("embedding_results", PList es) ]
    /\ Forall (fun r => exists file_path parser_name s,
                 r = PDict (fst (benchmark_file_parsing W file_path parser_name s))) rs
    /\ Forall (fun r => exists texts s,
                 r = PDict (fst (benchmark_embedding W texts "fake" s))) es
    /\ json_dumps (PDict results) = Some text
    /\ written st' = (output_file W, text) :: written st.
Proof. exact (main_returns_report W st st' results). Qed.

Lemma C4_witness :
  exists results st',
    main sample_world st0 = (inr (Some results), st')
    /\ exists timestamp rs es text,
         results = [ ("timestamp", PFloat timestamp);
                     ("python_version", PStr (sys_version sample_world));
                     ("parsing_results", PList rs);
                     ("embedding_results", PList es) ]
         /\ Forall (fun r => exists file_path parser_name s,
                      r = PDict (fst (benchmark_file_parsing sample_world
                                        file_path parser_name s))) rs
         /\ Forall (fun r => exists texts s,
                      r = PDict (fst (benchmark_embedding sample_world texts "fake" s))) es
         /\ json_dumps (PDict results) = Some text
         /\ written st' = (output_file sample_world, text) :: written st0.
Proof.
  assert (H : main sample_world st0
              = (fst (main sample_world st0), snd (main sample_world st0)))
    by (destruct (main sample_world st0); reflexivity).
  remember (fst (main sample_world st0)) as r eqn:Hr.
  vm_compute in Hr. subst r.
  eexists. eexists. split; [exact H|].
  exact (C4_report_has_four_fields sample_world st0 _ _ H).
Defined.

(** C10.  When the measurement [r] of an existing file is a success, the
    driver, after the measurement has returned, constructs the parser
    again, reads the file again and parses it a second time: the three
    calls of [second_parse], put to the world from the counter value the
    measurement ended with.  The record of [r] is appended as measured.
    When the three calls succeed the chunk texts are added to the texts to
    embed and nothing is printed; when one of them raises [e], one line
    with [str(e)] is printed, no text is added, nothing is written, and
    the appended record stays that of [r]. *)
Theorem C10_second_untimed_parse
  (W : World) (dir : string) (l : Locals) (f pn : string) (st : St) ts v rs :
  results l = report ts v rs [] ->
  path_exists W (tick st) (path_join dir f) = inr true ->
  let r := benchmark_file_parsing W (path_join dir f) pn (announced f pn st) in
  dict_success (fst r) = true ->
  exists p new err l' st',
    parser_named pn = Some p
    /\ main_loop_body W dir l (f, pn) st = (inr l', st')
    /\ second_parse W (path_join dir f) p (tick (snd r)) new err
    /\ results l' = report ts v (rs ++ [PDict (fst r)]) []
    /\ all_texts l' = all_texts l ++ new
    /\ written st' = written (snd r)
    /\ match err with
       | None => stdout st' = stdout (snd r)
       | Some e => new = [] /\ stdout st' = collect_error_line f e :: stdout (snd r)
       end.
Proof.
  intros Hres Hex r Hs. subst r.
  destruct (success_names_parser W _ _ _ Hs) as [p Hp].
  pose proof (success_field W (path_join dir f) pn (announced f pn st)) as Hsf.
  cbv zeta in Hsf. rewrite Hs in Hsf.
  unfold main_loop_body. cbv beta iota zeta. rewrite ebind_exists, Hex.
  unfold bind at 1, print at 1. unfold bind at 1.
  change {| tick := tick (next st); stdout := _; written := written (next st) |}
    with (announced f pn st).
  destruct (benchmark_file_parsing W (path_join dir f) pn (announced f pn st))
    as [result st2] eqn:Hb.
  cbn [fst snd] in *. unfold ebind, bind, ret, eret. rewrite Hres.
  cbn [append_to report dict_get String.eqb Ascii.eqb Bool.eqb dict_set].
  cbn. rewrite Hsf. cbn [truth].
  destruct (collect_texts_spec W f (path_join dir f) pn p
              (with_results (report ts v (rs ++ [PDict result]) []) l) st2 Hp)
    as [l' [new [err [Hc [Hsp [Hr Ht]]]]]].
  unfold report in Hc. rewrite Hc.
  exists p, new, err, l'. eexists. repeat (split; [first [assumption|reflexivity]|]).
  destruct err as [e|]; [|reflexivity]. split; [|reflexivity].
  inversion Hsp; reflexivity.
Qed.

Lemma C10_witness :
  let l0 := {| results := report f0 "3.12.1 (main)" [] []; all_texts := []; parser := None |} in
  let r := benchmark_file_parsing flaky_world "/fixtures/sample.md" "markdown"
             (announced "sample.md" "markdown" st0) in
  dict_success (fst r) = true
  /\ exists p new err l' st',
       parser_named "markdown" = Some p
       /\ main_loop_body flaky_world "/fixtures" l0 ("sample.md", "markdown") st0 = (inr l', st')
       /\ second_parse flaky_world "/fixtures/sample.md" p (tick (snd r)) new err
       /\ results l' = report f0 "3.12.1 (main)" ([] ++ [PDict (fst r)]) []
       /\ all_texts l' = all_texts l0 ++ new
       /\ written st' = written (snd r)
       /\ match err with
          | None => stdout st' = stdout (snd r)
          | Some e => new = []
                      /\ stdout st' = collect_error_line "sample.md" e :: stdout (snd r)
          end.
Proof.
  split; [reflexivity|].
  apply (C10_second_untimed_parse flaky_world "/fixtures"
           {| results := report f0 "3.12.1 (main)" [] []; all_texts := []; parser := None |}
           "sample.md" "markdown" st0 f0 "3.12.1 (main)" []); reflexivity.
Defined.

(** In the flaky world the second parse of the first file raises: the run
    goes on, the record of the first measurement is a success, and the
    line of the error is on the standard output. *)
Example flaky_run :
  exists results st',
    main flaky_world st0 = (inr (Some results), st')
    /\ In (collect_error_line "sample.md" (PyExc "RuntimeError" "parser state lost"))
          (stdout st')
    /\ dict_get results "embedding_results" = Some (PList [])
    /\ exists r rs, dict_get results "parsing_results" = Some (PList (PDict r :: rs))
                    /\ dict_success r = true.
Proof.
  eexists. eexists. split; [vm_compute; reflexivity|].
  split; [cbn; tauto|]. split; [reflexivity|]. eexists. eexists. split; reflexivity.
Qed.

(* ================================================================== *)
(** ** Reading back what the encoder writes *)

(** *** Strings *)

Lemma append_assoc (a b c : string) : (a +++ b) +++ c = a +++ (b +++ c).
Proof. induction a as [|x a IH]; simpl; congruence. Qed.

Lemma append_nil_r (a : string) : a +++ "" = a.
Proof. induction a as [|x a IH]; simpl; congruence. Qed.

Lemma length_append (a b : string) :
  String.length (a +++ b) = (String.length a + String.length b)%nat.
Proof. induction a as [|x a IH]; simpl; congruence. Qed.

Lemma scan_string_escape_char (c : ascii) (tail : string) :
  scan_string (escape_char c +++ tail) = prepend c (scan_string tail).
Proof.
  destruct c as [[] [] [] [] [] [] [] []]; reflexivity.
Qed.

Lemma scan_string_escape (s rest : string) :
  scan_string (escape s +++ String dquote rest) = Some (s, rest).
Proof.
  induction s as [|c s IH].
  - reflexivity.
  - cbn [escape]. rewrite append_assoc, scan_string_escape_char, IH. reflexivity.
Qed.

Lemma scan_string_encoded (s rest : string) :
  exists body,
    encode_basestring_ascii s +++ rest = String dquote body
    /\ scan_string body = Some (s, rest).
Proof.
  exists (escape s +++ String dquote rest). split.
  - unfold encode_basestring_ascii, str1. cbn [append]. rewrite append_assoc. reflexivity.
  - apply scan_string_escape.
Qed.

(** *** Numbers *)

Lemma span_digits_ext (s rest : string) :
  terminated rest ->
  forall d r, span_digits s = (d, r) -> span_digits (s +++ rest) = (d, r +++ rest).
Proof.
  intros Ht. induction s as [|c s IH]; intros d r Hs; cbn in *.
  - injection Hs as <- <-. destruct rest as [|c rest]; [reflexivity|].
    cbn in *. head_facts Ht. rewrite Ht. reflexivity.
  - destruct (is_digit c).
    + destruct (span_digits s) as [d' r']. injection Hs as <- <-.
      rewrite (IH d' r' eq_refl). reflexivity.
    + injection Hs as <- <-. reflexivity.
Qed.

Lemma scan_sign_ext (s rest : string) :
  terminated rest ->
  forall b r, scan_sign s = (b, r) -> scan_sign (s +++ rest) = (b, r +++ rest).
Proof.
  intros Ht b r Hs. destruct s as [|c s]; cbn in *.
  - injection Hs as <- <-. destruct rest as [|c rest]; [reflexivity|].
    cbn in *. head_facts Ht. cbn. replace (Ascii.eqb c "-") with false. reflexivity.
  - destruct (Ascii.eqb c "-"); injection Hs as <- <-; reflexivity.
Qed.

Lemma scan_fraction_ext (s rest : string) :
  terminated rest ->
  forall o r, scan_fraction s = (o, r) -> scan_fraction (s +++ rest) = (o, r +++ rest).
Proof.
  intros Ht o r Hs. destruct s as [|c s]; cbn in *.
  - injection Hs as <- <-. destruct rest as [|c rest]; [reflexivity|].
    cbn in *. head_facts Ht. cbn. replace (Ascii.eqb c ".") with false. reflexivity.
  - destruct (Ascii.eqb c ".").
    + destruct (span_digits s) as [fd r'] eqn:Hd.
      rewrite (span_digits_ext s rest Ht fd r' Hd).
      destruct fd; injection Hs as <- <-; reflexivity.
    + injection Hs as <- <-. reflexivity.
Qed.

Lemma scan_exponent_ext (s rest : string) :
  terminated rest ->
  forall o r, scan_exponent s = (o, r) -> scan_exponent (s +++ rest) = (o, r +++ rest).
Proof.
  intros Ht o r Hs. destruct s as [|c s]; cbn in *.
  - injection Hs as <- <-. destruct rest as [|c rest]; [reflexivity|].
    cbn in *. head_facts Ht. cbn.
    replace (Ascii.eqb c "e") with false. replace (Ascii.eqb c "E") with false. reflexivity.
  - destruct (Ascii.eqb c "e" || Ascii.eqb c "E"); [|injection Hs as <- <-; reflexivity].
    assert (Hspan : forall r1 ed r2, span_digits r1 = (ed, r2) ->
                      span_digits (r1 +++ rest) = (ed, r2 +++ rest))
      by (intros; apply span_digits_ext; assumption).
    destruct s as [|c1 s]; cbn in *.
    + injection Hs as <- <-. destruct rest as [|c2 rest]; [reflexivity|].
      cbn in *. head_facts Ht. cbn.
      replace (Ascii.eqb c2 "-") with false. replace (Ascii.eqb c2 "+") with false.
      cbn. rewrite Ht. reflexivity.
    + destruct (Ascii.eqb c1 "-"); [|destruct (Ascii.eqb c1 "+")].
      * destruct (span_digits s) as [ed r2] eqn:Hd. rewrite (Hspan _ _ _ Hd).
        destruct ed; injection Hs as <- <-; reflexivity.
      * destruct (span_digits s) as [ed r2] eqn:Hd. rewrite (Hspan _ _ _ Hd).
        destruct ed; injection Hs as <- <-; reflexivity.
      * change (String c1 s +++ rest) with (String c1 (s +++ rest)) in *.
        destruct (span_digits (String c1 s)) as [ed r2] eqn:Hd.
        pose proof (Hspan _ _ _ Hd) as Hd'. cbn in Hd'. cbn. rewrite Hd'.
        destruct ed; injection Hs as <- <-; reflexivity.
Qed.

(** A number read from a text is read the same when the text is followed
    by something that does not continue a number. *)
Lemma scan_number_ext (t rest : string) (v : pyval) (r : string) :
  terminated rest ->
  scan_number t = Some (v, r) -> scan_number (t +++ rest) = Some (v, r +++ rest).
Proof.
  intros Ht Hs. unfold scan_number in *.
  destruct (scan_sign t) as [neg s1] eqn:Hsign.
  rewrite (scan_sign_ext t rest Ht _ _ Hsign).
  destruct s1 as [|c s1]; [discriminate|]. cbn [append].
  destruct (is_digit c); [|discriminate].
  assert (Hip : forall ip s2,
            (if Ascii.eqb c "0" then (String c "", s1) else span_digits (String c s1)) = (ip, s2) ->
            (if Ascii.eqb c "0" then (String c "", s1 +++ rest)
             else span_digits (String c (s1 +++ rest))) = (ip, s2 +++ rest)).
  { intros ip s2 H. destruct (Ascii.eqb c "0").
    - injection H as <- <-. reflexivity.
    - apply (span_digits_ext (String c s1) rest Ht). exact H. }
  destruct (if Ascii.eqb c "0" then (String c "", s1) else span_digits (String c s1))
    as [ip s2] eqn:Hi.
  rewrite (Hip _ _ eq_refl).
  destruct (scan_fraction s2) as [frac s3] eqn:Hf.
  rewrite (scan_fraction_ext s2 rest Ht _ _ Hf).
  destruct (scan_exponent s3) as [ex s4] eqn:He.
  rewrite (scan_exponent_ext s3 rest Ht _ _ He).
  destruct frac, ex;
    repeat match goal with
           | H : match ?x with _ => _ end = Some _ |- _ => destruct x; [|discriminate]
           end;
    injection Hs as <- <-; reflexivity.
Qed.

Lemma span_digits_uint (d : Decimal.uint) :
  span_digits (NilEmpty.string_of_uint d) = (NilEmpty.string_of_uint d, "").
Proof. induction d; cbn; rewrite ?IHd; reflexivity. Qed.

Lemma value_of_digits_uint (d : Decimal.uint) :
  value_of_digits (NilEmpty.string_of_uint d) = Some (Z.of_N (N.of_uint d)).
Proof. unfold value_of_digits. rewrite NilEmpty.usu. reflexivity. Qed.

Lemma unorm_leading_zero (d d' : Decimal.uint) :
  Decimal.unorm d = Decimal.D0 d' -> d' = Decimal.Nil.
Proof.
  induction d; cbn; intros H; try discriminate; try (injection H as <-; reflexivity).
  auto.
Qed.

(** The decimal digits of a positive number start with a digit that is
    not zero. *)
Lemma to_uint_head (p : positive) :
  exists c r, NilEmpty.string_of_uint (Pos.to_uint p) = String c r
              /\ is_digit c = true /\ Ascii.eqb c "0" = false.
Proof.
  assert (Hn : Decimal.unorm (Pos.to_uint p) = Pos.to_uint p).
  { rewrite <- DecimalPos.Unsigned.to_of, DecimalPos.Unsigned.of_to. reflexivity. }
  pose proof (DecimalPos.Unsigned.to_uint_nonzero p) as Hz.
  destruct (Pos.to_uint p) as [|d|d|d|d|d|d|d|d|d|d] eqn:E;
    try (cbn; do 2 eexists; split; [reflexivity|split; reflexivity]).
  - exfalso. exact (DecimalPos.Unsigned.to_uint_nonnil p E).
  - exfalso. apply Hz. apply unorm_leading_zero in Hn. subst d. reflexivity.
Qed.

Lemma scan_number_pos (neg : bool) (p : positive) :
  scan_number ((if neg then "-" else "") +++ NilEmpty.string_of_uint (Pos.to_uint p))
  = Some (PInt (if neg then Zneg p else Zpos p), "").
Proof.
  destruct (to_uint_head p) as [c [r [Hs [Hd Hz]]]].
  pose proof (span_digits_uint (Pos.to_uint p)) as Hspan.
  pose proof (value_of_digits_uint (Pos.to_uint p)) as Hval.
  rewrite DecimalPos.Unsigned.of_to in Hval.
  rewrite Hs in *. unfold scan_number.
  assert (Hsign : scan_sign ((if neg then "-" else "") +++ String c r) = (neg, String c r)).
  { destruct neg; cbn; [reflexivity|].
    destruct (Ascii.eqb_spec c "-") as [->|_]; [discriminate Hd|reflexivity]. }
  rewrite Hsign, Hd, Hz, Hspan. cbn [scan_fraction scan_exponent].
  rewrite Hval. destruct neg; reflexivity.
Qed.

Lemma scan_number_int (z : Z) : scan_number (str_of_int z) = Some (PInt z, "").
Proof.
  unfold str_of_int. destruct z as [|p|p]; [reflexivity| |].
  - pose proof (scan_number_pos false p) as H. cbn [append] in H.
    unfold NilZero.string_of_int, Z.to_int, NilZero.string_of_uint.
    destruct (Pos.to_uint p) eqn:E; try exact H.
    exfalso. exact (DecimalPos.Unsigned.to_uint_nonnil p E).
  - pose proof (scan_number_pos true p) as H. cbn [append] in H.
    unfold NilZero.string_of_int, Z.to_int, NilZero.string_of_uint.
    destruct (Pos.to_uint p) eqn:E; try exact H.
    exfalso. exact (DecimalPos.Unsigned.to_uint_nonnil p E).
Qed.

Lemma float_same_eq (f g : float64) : float_same f g = true -> f = g.
Proof.
  destruct f as [s|s| |s m e], g as [t|t| |t n k]; cbn; try discriminate; intros H.
  - apply Bool.eqb_prop in H. congruence.
  - apply Bool.eqb_prop in H. congruence.
  - reflexivity.
  - apply andb_prop in H. destruct H as [H He]. apply andb_prop in H. destruct H as [Hs Hm].
    apply Bool.eqb_prop in Hs. apply Pos.eqb_eq in Hm. apply Z.eqb_eq in He. congruence.
Qed.

(** The [repr] of a float, when it has one, reads back as that float. *)
Lemma float_repr_reads_back (f : float64) (t : string) :
  match f with S754_zero _ | S754_finite _ _ _ => True | _ => False end ->
  float_repr f = Some t -> scan_number t = Some (PFloat f, "").
Proof.
  intros Hfin Hr. destruct f as [s|s| |s m e]; try contradiction.
  - destruct s; injection Hr as <-; reflexivity.
  - cbn [float_repr] in Hr. apply find_some in Hr. destruct Hr as [_ Hr].
    unfold reads_back in Hr.
    destruct (scan_number t) as [[[| | |g| | |] [|]]|]; try discriminate.
    apply float_same_eq in Hr. congruence.
Qed.

(** A text that reads as a number starts with a digit or a minus sign. *)
Lemma scan_number_head (t : string) (r : pyval * string) :
  scan_number t = Some r ->
  exists c t', t = String c t' /\ (is_digit c = true \/ c = "-"%char).
Proof.
  unfold scan_number. destruct t as [|c t]; [discriminate|]. intros H.
  exists c, t. split; [reflexivity|]. cbn [scan_sign] in H.
  destruct (Ascii.eqb_spec c "-") as [->|_]; [right; reflexivity|].
  left. destruct (is_digit c); [reflexivity|discriminate].
Qed.

Lemma scan_scalar_number (t rest : string) (v : pyval) :
  terminated rest ->
  scan_number t = Some (v, "") ->
  scan_scalar (t +++ rest) = Some (v, rest).
Proof.
  intros Ht Hs. pose proof (scan_number_ext t rest v "" Ht Hs) as He.
  destruct (scan_number_head t _ Hs) as [c [t' [-> Hc]]].
  unfold scan_scalar. rewrite He. cbn [append strip_prefix].
  assert (Hn : Ascii.eqb "n" c = false /\ Ascii.eqb "t" c = false /\ Ascii.eqb "f" c = false).
  { destruct Hc as [Hc| ->]; [|repeat split].
    destruct c as [[] [] [] [] [] [] [] []]; try discriminate Hc; repeat split. }
  destruct Hn as [-> [-> ->]]. reflexivity.
Qed.

(** *** Values *)

Lemma starts_value_number (t : string) (r : pyval * string) :
  scan_number t = Some r -> starts_value t = true.
Proof.
  intros H. destruct (scan_number_head t r H) as [c [t' [-> [Hc| ->]]]]; [|reflexivity].
  destruct c as [[] [] [] [] [] [] [] []]; try discriminate Hc; reflexivity.
Qed.

Lemma floatstr_reads_back (f : float64) (t rest : string) :
  floatstr f = Some t -> terminated rest ->
  scan_scalar (t +++ rest) = Some (PFloat f, rest) /\ starts_value t = true.
Proof.
  intros Hf Ht. destruct f as [s|s| |s m e].
  - assert (H : scan_number t = Some (PFloat (S754_zero s), ""))
      by (apply float_repr_reads_back; [exact I|exact Hf]).
    split; [apply scan_scalar_number; assumption | eapply starts_value_number; eassumption].
  - destruct s; injection Hf as <-; split; reflexivity.
  - injection Hf as <-. split; reflexivity.
  - assert (H : scan_number t = Some (PFloat (S754_finite s m e), ""))
      by (apply float_repr_reads_back; [exact I|exact Hf]).
    split; [apply scan_scalar_number; assumption | eapply starts_value_number; eassumption].
Qed.

Lemma starts_value_encode (level : nat) (v : pyval) (t : string) :
  json_encode level v = Some t -> starts_value t = true.
Proof.
  destruct v as [|[]|z|f|s|[|x l]|[|kv d]]; cbn [json_encode]; intros H;
    try (injection H as <-; reflexivity).
  - injection H as <-. eapply starts_value_number. apply scan_number_int.
  - apply (floatstr_reads_back f t "" H I).
  - destruct (map_opt _ _); [|discriminate]. injection H as <-. reflexivity.
  - destruct (map_opt _ _); [|discriminate]. injection H as <-. reflexivity.
Qed.

Lemma skip_ws_spaces (n : nat) (s : string) : skip_ws (spaces n +++ s) = skip_ws s.
Proof. induction n; cbn; auto. Qed.

Lemma skip_ws_newline_indent (level : nat) (s : string) :
  skip_ws (newline_indent level +++ s) = skip_ws s.
Proof. unfold newline_indent. cbn. apply skip_ws_spaces. Qed.

Lemma skip_ws_value (t rest : string) :
  starts_value t = true -> skip_ws (t +++ rest) = t +++ rest.
Proof.
  destruct t as [|c t]; [discriminate|]. cbn. destruct (is_ws c); [discriminate|reflexivity].
Qed.

Lemma terminated_newline_indent (level : nat) (s : string) :
  terminated (newline_indent level +++ s).
Proof. reflexivity. Qed.

Lemma terminated_item_separator (level : nat) (s : string) :
  terminated (item_separator level +++ s).
Proof. reflexivity. Qed.

(** *** A dict with distinct keys is the dict of its pairs *)

Lemma dict_set_fresh (d : dict) (k : string) (v : pyval) :
  ~ In k (map fst d) -> dict_set d k v = d ++ [(k, v)].
Proof.
  induction d as [|[k' v'] d IH]; cbn; intros Hk; [reflexivity|].
  destruct (String.eqb_spec k' k) as [->|_]; [exfalso; apply Hk; left; reflexivity|].
  rewrite IH by tauto. reflexivity.
Qed.

Lemma dict_of_pairs_nodup (d : dict) : NoDup (map fst d) -> dict_of_pairs d = d.
Proof.
  unfold dict_of_pairs.
  assert (H : forall acc, NoDup (map fst (acc ++ d)) ->
                fold_left (fun a kv => dict_set a (fst kv) (snd kv)) d acc = acc ++ d).
  { induction d as [|[k v] d IH]; intros acc Hn; cbn.
    - rewrite app_nil_r. reflexivity.
    - rewrite dict_set_fresh.
      + rewrite IH; rewrite <- app_assoc; [reflexivity|exact Hn].
      + rewrite map_app in Hn. cbn in Hn. apply NoDup_remove_2 in Hn.
        intros Hin. apply Hn. apply in_or_app. left. exact Hin. }
  intros Hn. apply (H []). exact Hn.
Qed.

(** *** One step of each loop of the decoder *)

Lemma starts_value_head (body : string) :
  starts_value body = true ->
  exists c r, body = String c r /\ is_ws c = false
              /\ Ascii.eqb c "]" = false /\ Ascii.eqb c "}" = false.
Proof.
  destruct body as [|c r]; [discriminate|]. cbn. intros H.
  exists c, r. destruct (is_ws c), (Ascii.eqb c "]"), (Ascii.eqb c "}");
    try discriminate; repeat split.
Qed.

Lemma starts_value_app (t rest : string) :
  starts_value t = true -> starts_value (t +++ rest) = true.
Proof. destruct t; [discriminate|]. cbn. auto. Qed.

Lemma scan_value_open_list (f level : nat) (body : string) :
  starts_value body = true ->
  scan_value (S f) ("[" +++ newline_indent level +++ body)
  = match scan_items f body with
    | Some (vs, rest) => Some (PList vs, rest)
    | None => None
    end.
Proof.
  intros Hb. cbn [append scan_value]. cbn [Ascii.eqb Bool.eqb dquote].
  rewrite skip_ws_newline_indent.
  destruct (starts_value_head body Hb) as [c [r [-> [Hw [Hc _]]]]].
  cbn [skip_ws]. rewrite Hw, Hc. reflexivity.
Qed.

Lemma scan_value_open_dict (f level : nat) (body : string) :
  starts_value body = true ->
  scan_value (S f) ("{" +++ newline_indent level +++ body)
  = match scan_members f body with
    | Some (pairs, rest) => Some (PDict (dict_of_pairs pairs), rest)
    | None => None
    end.
Proof.
  intros Hb. cbn [append scan_value]. cbn [Ascii.eqb Bool.eqb dquote].
  rewrite skip_ws_newline_indent.
  destruct (starts_value_head body Hb) as [c [r [-> [Hw [_ Hc]]]]].
  cbn [skip_ws]. rewrite Hw, Hc. reflexivity.
Qed.

Lemma scan_items_last (f level : nat) (tx rest : string) (x : pyval) :
  scan_value f (tx +++ newline_indent level +++ "]" +++ rest)
  = Some (x, newline_indent level +++ "]" +++ rest) ->
  scan_items (S f) (tx +++ newline_indent level +++ "]" +++ rest) = Some ([x], rest).
Proof.
  intros H. cbn [scan_items]. rewrite H, skip_ws_newline_indent. reflexivity.
Qed.

Lemma scan_items_next (f level : nat) (tx body : string) (x : pyval) :
  starts_value body = true ->
  scan_value f (tx +++ item_separator level +++ body)
  = Some (x, item_separator level +++ body) ->
  scan_items (S f) (tx +++ item_separator level +++ body)
  = match scan_items f body with
    | Some (vs, rest) => Some (x :: vs, rest)
    | None => None
    end.
Proof.
  intros Hb H. cbn [scan_items]. rewrite H. unfold item_separator.
  cbn [append skip_ws is_ws Ascii.eqb Bool.eqb orb].
  rewrite skip_ws_newline_indent.
  destruct (starts_value_head body Hb) as [c [r [-> [Hw _]]]].
  cbn [skip_ws]. rewrite Hw. reflexivity.
Qed.

(** A member: the key, the colon, one space, the value. *)
Lemma scan_members_key (f : nat) (k tv after : string) :
  starts_value tv = true ->
  scan_members (S f) (keyed k tv +++ after)
  = match scan_value f (tv +++ after) with
    | Some (v, s2) =>
        match skip_ws s2 with
        | String c2 r2 =>
            if Ascii.eqb c2 "}" then Some ([(k, v)], r2)
            else if Ascii.eqb c2 ","
                 then match scan_members f (skip_ws r2) with
                      | Some (kvs, rest) => Some ((k, v) :: kvs, rest)
                      | None => None
                      end
                 else None
        | EmptyString => None
        end
    | None => None
    end.
Proof.
  intros Hv. unfold keyed. rewrite append_assoc.
  destruct (scan_string_encoded k ((": " +++ tv) +++ after)) as [body [-> Hs]].
  cbn [scan_members]. replace (Ascii.eqb dquote dquote) with true by reflexivity.
  rewrite Hs. rewrite append_assoc.
  cbn [append skip_ws is_ws Ascii.eqb Bool.eqb orb].
  destruct (starts_value_head tv Hv) as [c [r [-> [Hw _]]]].
  cbn [append skip_ws]. rewrite Hw. reflexivity.
Qed.

(** *** The decoder reads back every value the encoder writes *)

Lemma map_opt_cons {A B} (f : A -> option B) (x : A) (l : list A) :
  map_opt f (x :: l) = ocons (f x) (map_opt f l).
Proof. reflexivity. Qed.

Lemma ocons_some {A} (a : option A) (l : option (list A)) (r : list A) :
  ocons a l = Some r -> exists x xs, a = Some x /\ l = Some xs /\ r = x :: xs.
Proof.
  destruct a as [x|], l as [xs|]; cbn; try discriminate.
  intros [= <-]. eauto.
Qed.

Lemma item_separator_length (level : nat) :
  (2 <= String.length (item_separator level))%nat.
Proof. unfold item_separator, newline_indent. cbn [append String.length]. lia. Qed.

Lemma scan_items_encode (level : nat) (l : list pyval) :
  Forall reads_back_value l -> Forall wf l ->
  forall ts, map_opt (json_encode (S level)) l = Some ts -> l <> [] ->
  forall fuel rest,
    (String.length (String.concat (item_separator (S level)) ts) < fuel)%nat ->
    scan_items fuel (String.concat (item_separator (S level)) ts
                       +++ newline_indent level +++ "]" +++ rest)
    = Some (l, rest).
Proof.
  induction l as [|x l IH]; intros HP Hwf ts Hts Hne fuel rest Hfuel; [contradiction|].
  apply Forall_cons_iff in HP. destruct HP as [Hx HP].
  apply Forall_cons_iff in Hwf. destruct Hwf as [Hwx Hwf].
  rewrite map_opt_cons in Hts. apply ocons_some in Hts.
  destruct Hts as [tx [ts' [Htx [Hts' ->]]]].
  destruct fuel as [|f]; [lia|].
  destruct l as [|y l'].
  - injection Hts' as <-. cbn [String.concat] in *.
    apply scan_items_last. apply (Hx Hwx (S level)); [exact Htx|reflexivity|lia].
  - pose proof Hts' as Hy. rewrite map_opt_cons in Hy. apply ocons_some in Hy.
    destruct Hy as [ty [ts'' [Hty [_ ->]]]].
    change (String.concat (item_separator (S level)) (tx :: ty :: ts''))
      with (tx +++ item_separator (S level)
               +++ String.concat (item_separator (S level)) (ty :: ts'')) in *.
    rewrite length_append, length_append in Hfuel.
    pose proof (item_separator_length (S level)) as Hsep.
    rewrite !append_assoc.
    assert (Hb : starts_value (String.concat (item_separator (S level)) (ty :: ts'')
                                 +++ newline_indent level +++ "]" +++ rest) = true).
    { destruct ts''; cbn [String.concat]; rewrite ?append_assoc;
        apply starts_value_app; eapply starts_value_encode; exact Hty. }
    rewrite (scan_items_next f (S level) tx _ x Hb).
    + rewrite (IH HP Hwf _ Hts'); [reflexivity|discriminate|lia].
    + apply (Hx Hwx (S level)); [exact Htx|reflexivity|lia].
Qed.

Lemma scan_members_encode (level : nat) (d : list (string * pyval)) :
  Forall (fun kv => reads_back_value (snd kv)) d -> Forall (fun kv => wf (snd kv)) d ->
  forall ts, map_opt (member_text level) d = Some ts -> d <> [] ->
  forall fuel rest,
    (String.length (String.concat (item_separator (S level)) ts) < fuel)%nat ->
    scan_members fuel (String.concat (item_separator (S level)) ts
                         +++ newline_indent level +++ "}" +++ rest)
    = Some (d, rest).
Proof.
  induction d as [|[k x] d IH]; intros HP Hwf ts Hts Hne fuel rest Hfuel; [contradiction|].
  apply Forall_cons_iff in HP. destruct HP as [Hx HP].
  apply Forall_cons_iff in Hwf. destruct Hwf as [Hwx Hwf]. cbn [snd] in Hx, Hwx.
  rewrite map_opt_cons in Hts. apply ocons_some in Hts.
  destruct Hts as [tkx [ts' [Htkx [Hts' ->]]]].
  cbn [member_text] in Htkx.
  destruct (json_encode (S level) x) as [tx|] eqn:Htx; [|discriminate].
  injection Htkx as <-.
  pose proof (starts_value_encode _ _ _ Htx) as Hsv.
  assert (Hlen : (String.length tx < String.length (keyed k tx))%nat).
  { unfold keyed, encode_basestring_ascii. cbn [String.length append].
    rewrite !length_append. cbn [String.length]. lia. }
  destruct fuel as [|f]; [lia|].
  destruct d as [|[k' y] d'].
  - injection Hts' as <-. cbn [String.concat] in *.
    rewrite (scan_members_key f k tx _ Hsv).
    rewrite (Hx Hwx (S level) tx _ f Htx); [|reflexivity|lia].
    rewrite skip_ws_newline_indent. reflexivity.
  - pose proof Hts' as Hy. rewrite map_opt_cons in Hy. apply ocons_some in Hy.
    destruct Hy as [ty [ts'' [Hty [_ ->]]]].
    change (String.concat (item_separator (S level)) (keyed k tx :: ty :: ts''))
      with (keyed k tx +++ item_separator (S level)
               +++ String.concat (item_separator (S level)) (ty :: ts'')) in *.
    rewrite length_append, length_append in Hfuel.
    pose proof (item_separator_length (S level)) as Hsep.
    rewrite !append_assoc.
    rewrite (scan_members_key f k tx _ Hsv).
    rewrite (Hx Hwx (S level) tx _ f Htx); [|reflexivity|lia].
    unfold item_separator at 1. cbn [append skip_ws is_ws Ascii.eqb Bool.eqb orb].
    rewrite skip_ws_newline_indent.
    assert (Hb : starts_value (String.concat (item_separator (S level)) (ty :: ts'')
                                 +++ newline_indent level +++ "}" +++ rest) = true).
    { cbn [member_text] in Hty.
      destruct (json_encode (S level) y); [|discriminate]. injection Hty as <-.
      destruct ts''; cbn [String.concat]; rewrite ?append_assoc; reflexivity. }
    match goal with
    | |- context [skip_ws ?s] =>
        replace (skip_ws s) with s
          by (symmetry; rewrite <- (append_nil_r s) at 1;
              rewrite (skip_ws_value s "" Hb); apply append_nil_r)
    end.
    change (String "}" rest) with ("}" +++ rest).
    rewrite (IH HP Hwf _ Hts'); [reflexivity|discriminate|lia].
Qed.

Lemma scan_value_scalar (f : nat) (s : string) (r : pyval * string) :
  scan_scalar s = Some r -> scan_value (S f) s = Some r.
Proof.
  intros H. destruct s as [|c s]; [discriminate|]. cbn [scan_value].
  destruct (Ascii.eqb_spec c dquote) as [->|_]; [discriminate|].
  destruct (Ascii.eqb_spec c "{") as [->|_]; [discriminate|].
  destruct (Ascii.eqb_spec c "[") as [->|_]; [discriminate|].
  exact H.
Qed.

Lemma bracketed_app (o c : string) (level : nat) (ts : list string) (rest : string) :
  bracketed o c level ts +++ rest
  = o +++ newline_indent (S level)
      +++ (String.concat (item_separator (S level)) ts +++ newline_indent level +++ c +++ rest).
Proof. unfold bracketed. rewrite !append_assoc. reflexivity. Qed.

Lemma bracketed_length (o c : string) (level : nat) (ts : list string) :
  (String.length o + String.length (String.concat (item_separator (S level)) ts) + 2
   <= String.length (bracketed o c level ts))%nat.
Proof.
  unfold bracketed, newline_indent. rewrite !length_append. cbn [String.length]. lia.
Qed.

Lemma nonempty_text (level : nat) (v : pyval) (t : string) :
  json_encode level v = Some t -> (1 <= String.length t)%nat.
Proof.
  intros H. apply starts_value_encode in H. destruct t; [discriminate|]. cbn. lia.
Qed.

(** Every value with distinct keys is read back from its text. *)
Lemma reads_back_every_value (v : pyval) : reads_back_value v.
Proof.
  induction v as [|b|z|f|s|l IH|d IH] using pyval_induction;
    intros Hwf level t rest fuel He Ht Hfuel;
    pose proof (nonempty_text _ _ _ He) as Hlen;
    (destruct fuel as [|fuel]; [lia|]).
  - injection He as <-. reflexivity.
  - destruct b; injection He as <-; reflexivity.
  - injection He as <-. apply scan_value_scalar, scan_scalar_number;
      [exact Ht|apply scan_number_int].
  - apply scan_value_scalar. apply (floatstr_reads_back f t rest He Ht).
  - injection He as <-.
    destruct (scan_string_encoded s rest) as [body [-> Hs]].
    cbn [scan_value]. replace (Ascii.eqb dquote dquote) with true by reflexivity.
    rewrite Hs. reflexivity.
  - destruct l as [|x l]; [injection He as <-; reflexivity|].
    cbn [json_encode] in He.
    destruct (map_opt (json_encode (S level)) (x :: l)) as [ts|] eqn:Hts; [|discriminate].
    injection He as <-. inversion Hwf as [| | | | |l' Hwl|]; subst.
    pose proof (bracketed_length "[" "]" level ts) as Hb. cbn [String.length] in Hb.
    rewrite bracketed_app, scan_value_open_list.
    + rewrite (scan_items_encode level (x :: l) IH Hwl ts Hts); [reflexivity|discriminate|lia].
    + rewrite map_opt_cons in Hts. apply ocons_some in Hts.
      destruct Hts as [tx [ts' [Htx [_ ->]]]].
      destruct ts'; cbn [String.concat]; rewrite ?append_assoc;
        apply starts_value_app; eapply starts_value_encode; exact Htx.
  - destruct d as [|kv d]; [injection He as <-; reflexivity|].
    cbn [json_encode] in He.
    change (map_opt _ (kv :: d)) with (map_opt (member_text level) (kv :: d)) in He.
    destruct (map_opt (member_text level) (kv :: d)) as [ts|] eqn:Hts; [|discriminate].
    injection He as <-. inversion Hwf as [| | | | | |d' Hnd Hwd]; subst.
    pose proof (bracketed_length "{" "}" level ts) as Hb. cbn [String.length] in Hb.
    rewrite bracketed_app, scan_value_open_dict.
    + rewrite (scan_members_encode level (kv :: d) IH Hwd ts Hts); [|discriminate|lia].
      rewrite dict_of_pairs_nodup by exact Hnd. reflexivity.
    + rewrite map_opt_cons in Hts. apply ocons_some in Hts.
      destruct Hts as [tkv [ts' [Htkv [_ ->]]]]. destruct kv as [k x].
      cbn [member_text] in Htkv.
      destruct (json_encode (S level) x); [|discriminate]. injection Htkv as <-.
      destruct ts'; cbn [String.concat]; rewrite ?append_assoc; reflexivity.
Qed.

(** [json.loads (json.dumps v)] is [v]. *)
Lemma json_roundtrip (v : pyval) (t : string) :
  wf v -> json_dumps v = Some t -> json_loads t = Some v.
Proof.
  intros Hwf Hd. unfold json_dumps in Hd. unfold json_loads.
  pose proof (starts_value_encode _ _ _ Hd) as Hs.
  replace (skip_ws t) with t
    by (symmetry; rewrite <- (append_nil_r t) at 1;
        rewrite (skip_ws_value t "" Hs); apply append_nil_r).
  rewrite <- (append_nil_r t) at 2.
  rewrite (reads_back_every_value v Hwf 0%nat t "" (String.length t) Hd I (le_n _)).
  reflexivity.
Qed.

(** *** The report of a run has distinct keys throughout *)

Lemma wf_parsing_record (W : World) (file_path parser_name : string) (st : St) :
  wf (PDict (fst (benchmark_file_parsing W file_path parser_name st))).
Proof.
  destruct (benchmark_file_parsing_cases W file_path parser_name st)
    as [n [_ [_ [[msg Hr]|[p [text [chunks [_ Hr]]]]]]]]; rewrite Hr;
    (constructor;
     [ cbn; repeat (constructor; [cbn; intuition discriminate|]); constructor
     | repeat (constructor; [cbn; try destruct chunks; constructor|]); constructor ]).
Qed.

Lemma wf_embedding_record (W : World) (texts : list unicode) (st : St) :
  wf (PDict (fst (benchmark_embedding W texts "fake" st))).
Proof.
  unfold benchmark_embedding, bind, ret. rewrite benchmark_embedding_run_fake. cbn [fst].
  destruct (first_unencodable texts) as [e|]; cbn [fst];
    (constructor;
     [ cbn; repeat (constructor; [cbn; intuition discriminate|]); constructor
     | repeat (constructor; [cbn; try destruct texts; constructor|]); constructor ]).
Qed.

(** C9.  When a run returns, the JSON document it has written to the
    results file decodes to the very value of the in-memory report that was
    serialized: the same four fields, the same parsing and embedding
    records in the same number and order, the same field names and the
    same field values, floats compared bit for bit. *)
Theorem C9_written_report_decodes_to_the_report
  (W : World) (st st' : St) (results : dict) :
  main W st = (inr (Some results), st') ->
  exists text,
    written st' = (output_file W, text) :: written st
    /\ json_dumps (PDict results) = Some text
    /\ json_loads text = Some (PDict results).
Proof.
  intros Hmain.
  destruct (main_returns_report W st st' results Hmain)
    as [timestamp [rs [es [text [-> [Hrs [Hes [Hj Hw]]]]]]]].
  exists text. split; [exact Hw|]. split; [exact Hj|].
  apply json_roundtrip; [|exact Hj].
  constructor.
  - cbn. repeat (constructor; [cbn; intuition discriminate|]). constructor.
  - repeat (constructor; [cbn; try constructor|]); try constructor.
    + eapply Forall_impl; [|exact Hrs].
      intros r [fp [pn [s ->]]]. apply wf_parsing_record.
    + eapply Forall_impl; [|exact Hes].
      intros r [texts [s ->]]. apply wf_embedding_record.
Qed.

Lemma C9_witness :
  exists results st',
    main sample_world st0 = (inr (Some results), st')
    /\ List.length (match dict_get results "parsing_results" with
                    | Some (PList rs) => rs
                    | _ => []
                    end) = 4%nat
    /\ exists text,
         written st' = (output_file sample_world, text) :: written st0
         /\ json_dumps (PDict results) = Some text
         /\ json_loads text = Some (PDict results).
Proof.
  assert (H : main sample_world st0
              = (fst (main sample_world st0), snd (main sample_world st0)))
    by (destruct (main sample_world st0); reflexivity).
  remember (fst (main sample_world st0)) as r eqn:Hr.
  vm_compute in Hr. subst r.
  eexists. eexists. split; [exact H|]. split; [reflexivity|].
  exact (C9_written_report_decodes_to_the_report sample_world st0 _ _ H).
Defined.


(* ================================================================== *)
(** ** Further properties of the two measurements *)

(** A measurement with a supported parser kind, answer by answer. *)
Lemma benchmark_file_parsing_known
  (W : World) (file_path parser_name : string) (p : Parser) (st : St) :
  parser_named parser_name = Some p ->
  benchmark_file_parsing W file_path parser_name st
  = match construct W (1 + tick st) p with
    | inl e => (parse_failure file_path parser_name (elapsed_ms W st 2) (str_exn e),
                advanced st 3)
    | inr _ =>
        match read_text W (2 + tick st) file_path with
        | inl e => (parse_failure file_path parser_name (elapsed_ms W st 3) (str_exn e),
                    advanced st 4)
        | inr text =>
            match parse W (3 + tick st) p text file_path with
            | inl e => (parse_failure file_path parser_name (elapsed_ms W st 4) (str_exn e),
                        advanced st 5)
            | inr chunks => (parse_success file_path parser_name (elapsed_ms W st 4) chunks,
                             advanced st 5)
            end
        end
    end.
Proof.
  unfold parser_named. intros Hp. run.
  destruct (String.eqb parser_name "markdown");
    [|destruct (String.eqb parser_name "yaml");
      [|destruct (String.eqb parser_name "vue");
        [|destruct (String.eqb parser_name "code"); [|discriminate]]]];
    injection Hp as <-; split_world W; rewrite ?avg_chunk_size_total; reflexivity.
Qed.

Lemma parser_named_none (parser_name : string) :
  parser_named parser_name = None ->
  ~ In parser_name ["markdown"; "yaml"; "vue"; "code"].
Proof.
  intros H Hin. simpl in Hin.
  repeat (destruct Hin as [<-|Hin]; [discriminate H|]). exact Hin.
Qed.

(** X1.  With a supported parser kind, an exception raised while the
    parser is constructed, the file read or the text parsed is caught:
    the call returns the failure record whose error is [str(e)], the
    later stages are not attempted (the call counter stops 3, 4 or 5 calls
    later), and nothing is printed or written. *)
Theorem X1_stage_exception_becomes_failure_record
  (W : World) (st : St) (file_path parser_name : string) (p : Parser) (e : exn) (k : nat) :
  parser_named parser_name = Some p ->
  (k = 0%nat /\ construct W (1 + tick st) p = inl e)
  \/ (k = 1%nat /\ construct W (1 + tick st) p = inr tt
      /\ read_text W (2 + tick st) file_path = inl e)
  \/ (k = 2%nat /\ construct W (1 + tick st) p = inr tt
      /\ exists text, read_text W (2 + tick st) file_path = inr text
                      /\ parse W (3 + tick st) p text file_path = inl e) ->
  benchmark_file_parsing W file_path parser_name st
  = ([ ("file", PStr (basename file_path));
       ("parser", PStr parser_name);
       ("parse_time_ms", PFloat (elapsed_ms W st (2 + k)));
       ("error", PStr (str_exn e));
       ("success", PBool false) ],
     advanced st (3 + k)).
Proof.
  intros Hp H. rewrite (benchmark_file_parsing_known W _ _ p st Hp).
  destruct H as [[-> Hc]|[[-> [Hc Hr]]|[-> [Hc [text [Hr Hx]]]]]].
  - rewrite Hc. reflexivity.
  - rewrite Hc, Hr. reflexivity.
  - rewrite Hc, Hr, Hx. reflexivity.
Qed.

Lemma X1_witness :
  benchmark_file_parsing flaky_world "/fixtures/sample.md" "markdown" (advanced st0 8)
  = ([ ("file", PStr "sample.md");
       ("parser", PStr "markdown");
       ("parse_time_ms", PFloat (float_of_int 1000));
       ("error", PStr "parser state lost");
       ("success", PBool false) ],
     advanced (advanced st0 8) 5).
Proof.
  apply (X1_stage_exception_becomes_failure_record flaky_world (advanced st0 8)
           "/fixtures/sample.md" "markdown" MarkdownParser
           (PyExc "RuntimeError" "parser state lost") 2).
  - reflexivity.
  - right. right. split; [reflexivity|]. split; [reflexivity|].
    exists sample_text. split; reflexivity.
Defined.

(** X2.  A measurement is a success exactly when the parser kind is
    supported and the construction, the read and the parse all return;
    its record then counts the chunks the parse returned, and the call
    has asked the world five questions. *)
Theorem X2_success_exactly_when_every_stage_returns
  (W : World) (st : St) (file_path parser_name : string) :
  let r := benchmark_file_parsing W file_path parser_name st in
  (dict_success (fst r) = true
   <-> exists p text chunks,
         parser_named parser_name = Some p
         /\ construct W (1 + tick st) p = inr tt
         /\ read_text W (2 + tick st) file_path = inr text
         /\ parse W (3 + tick st) p text file_path = inr chunks)
  /\ (forall p text chunks,
        parser_named parser_name = Some p ->
        construct W (1 + tick st) p = inr tt ->
        read_text W (2 + tick st) file_path = inr text ->
        parse W (3 + tick st) p text file_path = inr chunks ->
        r = (parse_success file_path parser_name (elapsed_ms W st 4) chunks, advanced st 5)).
Proof.
  intros r. subst r. split; [split|].
  - intros Hs. destruct (parser_named parser_name) as [p|] eqn:Hp.
    + rewrite (benchmark_file_parsing_known W _ _ p st Hp) in Hs.
      destruct (construct W (1 + tick st) p) as [e|[]] eqn:Hc; [discriminate Hs|].
      destruct (read_text W (2 + tick st) file_path) as [e|text] eqn:Hr; [discriminate Hs|].
      destruct (parse W (3 + tick st) p text file_path) as [e|chunks] eqn:Hx;
        [discriminate Hs|].
      exists p, text, chunks. repeat split; assumption.
    + rewrite (benchmark_file_parsing_unknown W _ _ st (parser_named_none _ Hp)) in Hs.
      discriminate Hs.
  - intros [p [text [chunks [Hp [Hc [Hr Hx]]]]]].
    rewrite (benchmark_file_parsing_known W _ _ p st Hp), Hc, Hr, Hx. reflexivity.
  - intros p text chunks Hp Hc Hr Hx.
    rewrite (benchmark_file_parsing_known W _ _ p st Hp), Hc, Hr, Hx. reflexivity.
Qed.

(** X3.  Whatever its arguments and whatever the world answers, a file
    measurement prints nothing and writes nothing; it asks the world
    between two and five questions, the first and the last being clock
    readings; and its record always has the fields file (the base name of
    the path), parser, success and parse_time_ms, the elapsed time between
    those two readings in milliseconds. *)
Theorem X3_file_measurement_effects_and_fields
  (W : World) (st : St) (file_path parser_name : string) :
  let r := benchmark_file_parsing W file_path parser_name st in
  exists k,
    (1 <= k <= 4)%nat
    /\ snd r = advanced st (1 + k)
    /\ dict_get (fst r) "file" = Some (PStr (basename file_path))
    /\ dict_get (fst r) "parser" = Some (PStr parser_name)
    /\ dict_get (fst r) "parse_time_ms" = Some (PFloat (elapsed_ms W st k))
    /\ exists b, dict_get (fst r) "success" = Some (PBool b)
                 /\ (b = false <-> exists msg, dict_get (fst r) "error" = Some (PStr msg))
                 /\ (b = true <-> exists n, dict_get (fst r) "chunk_count" = Some (PInt n)).
Proof.
  intros r. subst r.
  assert (Hf : forall ms msg (s' : St) k,
            (1 <= k <= 4)%nat -> ms = elapsed_ms W st k -> s' = advanced st (1 + k) ->
            exists k0, (1 <= k0 <= 4)%nat
              /\ snd (parse_failure file_path parser_name ms msg, s') = advanced st (1 + k0)
              /\ dict_get (parse_failure file_path parser_name ms msg) "file"
                 = Some (PStr (basename file_path))
              /\ dict_get (parse_failure file_path parser_name ms msg) "parser"
                 = Some (PStr parser_name)
              /\ dict_get (parse_failure file_path parser_name ms msg) "parse_time_ms"
                 = Some (PFloat (elapsed_ms W st k0))
              /\ exists b, dict_get (parse_failure file_path parser_name ms msg) "success"
                           = Some (PBool b)
                   /\ (b = false <-> exists m, dict_get (parse_failure file_path parser_name ms msg)
                                                "error" = Some (PStr m))
                   /\ (b = true <-> exists n, dict_get (parse_failure file_path parser_name ms msg)
                                               "chunk_count" = Some (PInt n))).
  { intros ms msg s' k Hk -> ->. exists k.
    split; [lia|]. do 4 (split; [reflexivity|]).
    exists false. split; [reflexivity|]. split; split.
    - intros _. exists msg. reflexivity.
    - reflexivity.
    - discriminate.
    - intros [n Hn]. discriminate Hn. }
  destruct (parser_named parser_name) as [p|] eqn:Hp.
  - rewrite (benchmark_file_parsing_known W _ _ p st Hp).
    destruct (construct W (1 + tick st) p) as [e|[]]; [eapply (Hf _ _ _ 2%nat); auto; lia|].
    destruct (read_text W (2 + tick st) file_path) as [e|text];
      [eapply (Hf _ _ _ 3%nat); auto; lia|].
    destruct (parse W (3 + tick st) p text file_path) as [e|chunks];
      [eapply (Hf _ _ _ 4%nat); auto; lia|].
    exists 4%nat. split; [lia|]. do 4 (split; [reflexivity|]).
    exists true. split; [reflexivity|]. split; split.
    + discriminate.
    + intros [m Hm]. discriminate Hm.
    + intros _. eexists. reflexivity.
    + reflexivity.
  - rewrite (benchmark_file_parsing_unknown W _ _ st (parser_named_none _ Hp)).
    apply (Hf _ _ _ 1%nat); auto; lia.
Qed.

Lemma X2_witness :
  dict_success (fst (benchmark_file_parsing sample_world "/fixtures/sample.md" "markdown" st0))
  = true
  /\ benchmark_file_parsing sample_world "/fixtures/sample.md" "markdown" st0
     = (parse_success "/fixtures/sample.md" "markdown" (elapsed_ms sample_world st0 4)
          [ {| content := unicode_of_string "# Title" |};
            {| content := unicode_of_string "body text" |} ],
        advanced st0 5).
Proof.
  pose proof (X2_success_exactly_when_every_stage_returns
                sample_world st0 "/fixtures/sample.md" "markdown") as [H1 H2].
  split.
  - apply H1. exists MarkdownParser, sample_text.
    eexists. repeat split; reflexivity.
  - apply (H2 MarkdownParser sample_text); reflexivity.
Defined.

Lemma byte_over_255 (b : Z) :
  0 <= b <= 255 ->
  in_closed_unit_interval (fdiv (float_of_int b) f255) = true
  /\ fltb (fdiv (float_of_int b) f255) f1 = negb (b =? 255).
Proof.
  intros Hb.
  assert (Hall : forallb (fun b => in_closed_unit_interval (fdiv (float_of_int b) f255)
                                   && Bool.eqb (fltb (fdiv (float_of_int b) f255) f1)
                                               (negb (b =? 255)))
                         (map Z.of_nat (seq 0 256)) = true)
    by (vm_compute; reflexivity).
  rewrite forallb_forall in Hall.
  assert (Hin : In b (map Z.of_nat (seq 0 256))).
  { apply in_map_iff. exists (Z.to_nat b). split; [lia|]. apply in_seq. lia. }
  apply Hall in Hin. apply andb_prop in Hin. destruct Hin as [H1 H2].
  split; [exact H1|]. apply Bool.eqb_prop. exact H2.
Qed.

(** X4.  With provider ["fake"], when every text can be encoded the call
    computes one vector per text; a vector, whatever the text it comes
    from, has exactly 16 components, each a float between 0 and 1, both
    included.  The bound 1 is reached: the digest of ["g"] has a byte 255,
    whose component is 1.0, so the components are not all below 1.  When a
    text cannot be encoded the call has no list of vectors. *)
Theorem X4_fake_vectors_have_16_components_in_unit_interval
  (W : World) (st : St) (texts : list unicode) :
  (if forallb encodable texts
   then exists vectors,
          snd (fst (benchmark_embedding_run W texts "fake" st)) = Some vectors
          /\ List.length vectors = List.length texts
          /\ Forall (fun v => List.length v = 16%nat
                              /\ forallb in_closed_unit_interval v = true) vectors
   else snd (fst (benchmark_embedding_run W texts "fake" st)) = None)
  /\ (forall text v,
        fake_embedding text = inr v ->
        List.length v = 16%nat /\ forallb in_closed_unit_interval v = true)
  /\ (exists v,
        snd (fst (benchmark_embedding_run W [unicode_of_string "g"] "fake" st)) = Some [v]
        /\ In f1 v
        /\ forallb in_unit_interval v = false).
Proof.
  assert (Hv : forall bytes,
            let v := map (fun b => fdiv (float_of_int b) f255) (MD5.digest bytes) in
            List.length v = 16%nat /\ forallb in_closed_unit_interval v = true).
  { intros bytes v. subst v. destruct (digest_bytes bytes) as [Hlen Hb].
    split; [rewrite length_map; exact Hlen|].
    apply forallb_forall. intros x Hx. apply in_map_iff in Hx. destruct Hx as [b [<- Hin]].
    rewrite Forall_forall in Hb. specialize (Hb b Hin). unfold is_byte in Hb.
    apply byte_over_255. lia. }
  rewrite !benchmark_embedding_run_fake. split; [|split].
  - destruct (first_unencodable texts) as [e|] eqn:He.
    + destruct (first_unencodable_some texts e He) as [-> _]. reflexivity.
    + rewrite (proj1 (first_unencodable_none texts) He). cbn [fst snd].
      exists (map vector_of texts). split; [reflexivity|]. split; [apply length_map|].
      apply Forall_forall. intros v Hin. apply in_map_iff in Hin.
      destruct Hin as [t [<- _]]. apply Hv.
  - intros text v. rewrite fake_embedding_spec.
    destruct (utf8_encode text) as [e|bytes]; [discriminate|].
    intros [= <-]. apply Hv.
  - exists (vector_of (unicode_of_string "g")).
    split; [reflexivity|]. split; vm_compute; auto 20.
Qed.

(** X5.  Whatever the provider and the texts, an embedding measurement
    reads the clock twice and asks the world nothing else, prints nothing
    and writes nothing; its record always names the provider, counts the
    texts and holds the elapsed milliseconds between the two readings.  It
    is a success exactly when the provider is ["fake"] and every text can
    be encoded.  Otherwise its error is the message of the unknown
    provider, or that of the [UnicodeEncodeError] of the first text that
    cannot be encoded. *)
Theorem X5_embedding_measurement_effects_and_fields
  (W : World) (st : St) (texts : list unicode) (provider_name : string) :
  let r := benchmark_embedding W texts provider_name st in
  snd r = advanced st 2
  /\ dict_get (fst r) "embedding_provider" = Some (PStr provider_name)
  /\ dict_get (fst r) "text_count" = Some (PInt (len texts))
  /\ dict_get (fst r) "embed_time_ms" = Some (PFloat (elapsed_ms W st 1))
  /\ dict_get (fst r) "success"
     = Some (PBool (String.eqb provider_name "fake" && forallb encodable texts))
  /\ dict_get (fst r) "error"
     = (if String.eqb provider_name "fake"
        then option_map (fun e => PStr (str_exn e)) (first_unencodable texts)
        else Some (PStr ("Unknown embedding provider: " +++ provider_name)))
  /\ (first_unencodable texts = None <-> forallb encodable texts = true)
  /\ (forall e, first_unencodable texts = Some e ->
                exists c start stop, is_surrogate c = true
                                     /\ e = UnicodeEncodeError c start stop).
Proof.
  intros r. subst r. unfold benchmark_embedding, bind, ret.
  assert (Hs : forall e, first_unencodable texts = Some e ->
                 exists c start stop, is_surrogate c = true
                                      /\ e = UnicodeEncodeError c start stop).
  { intros e. induction texts as [|t texts IH]; [discriminate|].
    cbn [first_unencodable].
    destruct (utf8_encode t) as [e'|bytes] eqn:Ht; [|exact IH].
    intros [= <-]. clear IH. unfold utf8_encode in Ht. revert Ht. generalize 0%nat.
    induction t as [|c t IHt]; intros pos; cbn [utf8_from]; [discriminate|].
    destruct (is_surrogate c) eqn:Hc.
    - intros [= <-]. eauto.
    - destruct (utf8_from (S pos) t) as [e''|bs] eqn:Hf; [|discriminate].
      intros [= <-]. exact (IHt _ Hf). }
  destruct (String.eqb_spec provider_name "fake") as [->|Hp].
  - rewrite benchmark_embedding_run_fake. cbn [andb fst snd].
    split; [reflexivity|].
    destruct (first_unencodable texts) as [e|] eqn:He.
    + destruct (first_unencodable_some texts e He) as [Hall _]. rewrite Hall.
      repeat (split; [reflexivity|]). split; [split; discriminate|exact Hs].
    + pose proof (proj1 (first_unencodable_none texts) He) as Hall. rewrite Hall.
      repeat (split; [reflexivity|]). split; [split; reflexivity|exact Hs].
  - rewrite benchmark_embedding_run_other by exact Hp. cbn [andb fst snd].
    repeat (split; [reflexivity|]). split; [apply first_unencodable_none|exact Hs].
Qed.

(** The record CPython returns for the texts ["ok"] and ["a\ud800"]. *)
Example surrogate_record :
  fst (benchmark_embedding sample_world [unicode_of_string "ok"; [97; 0xd800]] "fake" st0)
  = [ ("embedding_provider", PStr "fake");
      ("text_count", PInt 2);
      ("embed_time_ms", PFloat (float_of_int 250));
      ("error", PStr ("'utf-8' codec can't encode character '" +++ str1 backslash
                        +++ "ud800' in position 1: surrogates not allowed"));
      ("success", PBool false) ].
Proof. vm_compute. reflexivity. Qed.

(* ================================================================== *)
(** ** Further properties of the driver *)

(** X6.  A run stops before any measurement exactly when the fixture
    directory is missing: it then has asked the world that one question,
    printed one line naming the directory, written no file, and returns
    without a report. *)
Theorem X6_missing_fixture_directory (W : World) (st : St) :
  (path_exists W (tick st) (fixture_dir W) = inr false ->
   main W st
   = (inr None,
      {| tick := S (tick st);
         stdout := ("Test files directory not found: " +++ fixture_dir W) :: stdout st;
         written := written st |}))
  /\ (fst (main W st) = inr None -> path_exists W (tick st) (fixture_dir W) = inr false).
Proof.
  split.
  - intros Hex. unfold main. fold (fixture_dir W). rewrite ebind_exists, Hex. reflexivity.
  - intros Hn. destruct (path_exists W (tick st) (fixture_dir W)) as [e|[|]] eqn:Hex;
      [| |reflexivity].
    + unfold main in Hn. fold (fixture_dir W) in Hn. rewrite ebind_exists, Hex in Hn.
      discriminate Hn.
    + destruct (main_spec W st Hex) as [rs [texts [out [st_loop [_ [_ Hm]]]]]].
      destruct out as [e|]; [rewrite (proj2 Hm) in Hn; discriminate Hn|].
      rewrite (proj2 Hm), ebind_run in Hn.
      destruct (fst (save W _ _)) as [e|[]]; discriminate Hn.
Qed.

Lemma X6_witness :
  main empty_world st0
  = (inr None,
     {| tick := 1;
        stdout := ["Test files directory not found: /repo/ChunkHound.Tests/Benchmarks/TestFiles"];
        written := [] |}).
Proof.
  apply (proj1 (X6_missing_fixture_directory empty_world st0)). reflexivity.
Defined.





Lemma basename_path_join (dir f : string) :
  has_slash f = false -> basename (path_join dir f) = f.
Proof.
  intros Hf. unfold path_join. change ("/" +++ f) with (String "/" f).
  assert (Hs : forall d, has_slash (d +++ String "/" f) = true).
  { induction d as [|c d IH]; [reflexivity|]. cbn [append has_slash]. rewrite IH.
    destruct (Ascii.eqb c "/"); reflexivity. }
  induction dir as [|c dir IH].
  - cbn. rewrite Hf. reflexivity.
  - cbn [append basename]. rewrite Hs. exact IH.
Qed.

Lemma record_name_measured (W : World) (file_path parser_name : string) (st : St) :
  record_name (PDict (fst (benchmark_file_parsing W file_path parser_name st)))
  = (Some (PStr (basename file_path)), Some (PStr parser_name)).
Proof.
  destruct (benchmark_file_parsing_cases W file_path parser_name st)
    as [n [_ [_ [[msg Hr]|[p [text [chunks [_ Hr]]]]]]]]; rewrite Hr; reflexivity.
Qed.

Lemma plan_run_all_present (W : World) (dir : string) items st rs ts out st' :
  (forall n path, path_exists W n path = inr true) ->
  plan_run W dir items st rs ts out st' ->
  out = None
  /\ map record_name rs
     = map (fun it => (Some (PStr (basename (path_join dir (fst it)))), Some (PStr (snd it))))
           items.
Proof.
  intros Hall.
  induction 1 as [|f pn items st e Hex|f pn items st rs ts out st' Hex _ _
                  |f pn items st new st1 rs ts out st' _ _ _ [IH1 IH2]].
  - split; reflexivity.
  - rewrite Hall in Hex. discriminate Hex.
  - rewrite Hall in Hex. discriminate Hex.
  - split; [exact IH1|]. cbn [map fst snd]. rewrite record_name_measured, IH2. reflexivity.
Qed.

(** X8.  When every look-up finds its path, the measuring phase completes
    and parsing_results holds exactly four records, in the declared
    order, named by file and parser: sample.md / markdown, sample.yaml /
    yaml, sample.vue / vue, sample.cs / code, whether each measurement
    succeeded or failed. *)
Theorem X8_four_records_in_declared_order (W : World) (st : St) :
  (forall n path, path_exists W n path = inr true) ->
  exists results st1 rs,
    measure W (fixture_dir W) (next st) = (inr results, st1)
    /\ main W st = (let? _ := save W results in eret (Some results)) st1
    /\ dict_get results "parsing_results" = Some (PList rs)
    /\ map record_name rs
       = [ (Some (PStr "sample.md"), Some (PStr "markdown"));
           (Some (PStr "sample.yaml"), Some (PStr "yaml"));
           (Some (PStr "sample.vue"), Some (PStr "vue"));
           (Some (PStr "sample.cs"), Some (PStr "code")) ].
Proof.
  intros Hall.
  destruct (main_spec W st (Hall _ _)) as [rs [texts [out [st_loop [Hp [_ Hm]]]]]].
  destruct (plan_run_all_present W _ _ _ _ _ _ _ Hall Hp) as [-> Hnames].
  destruct Hm as [Hm Hmain].
  eexists. eexists. exists rs. split; [exact Hm|]. split; [exact Hmain|].
  split; [reflexivity|].
  rewrite Hnames. unfold test_files. cbn [map fst snd].
  rewrite !basename_path_join by reflexivity. reflexivity.
Qed.

Lemma X8_witness :
  exists results st1 rs,
    measure flaky_world (fixture_dir flaky_world) (next st0) = (inr results, st1)
    /\ main flaky_world st0 = (let? _ := save flaky_world results in eret (Some results)) st1
    /\ dict_get results "parsing_results" = Some (PList rs)
    /\ map record_name rs
       = [ (Some (PStr "sample.md"), Some (PStr "markdown"));
           (Some (PStr "sample.yaml"), Some (PStr "yaml"));
           (Some (PStr "sample.vue"), Some (PStr "vue"));
           (Some (PStr "sample.cs"), Some (PStr "code")) ].
Proof.
  apply (X8_four_records_in_declared_order flaky_world st0). reflexivity.
Defined.

Lemma plan_run_all_failed (W : World) (dir : string) items st rs ts out st' :
  plan_run W dir items st rs ts out st' ->
  Forall (fun r => record_success r = false) rs -> ts = [].
Proof.
  induction 1 as [|f pn items st e _|f pn items st rs ts out st' _ _ IH
                  |f pn items st new st1 rs ts out st' _ Hc _ IH];
    intros Hall.
  - reflexivity.
  - reflexivity.
  - auto.
  - apply Forall_cons_iff in Hall. destruct Hall as [Hr Hall]. cbn [record_success] in Hr.
    destruct Hc as [[_ [-> _]]|[Hs _]]; [cbn; auto|congruence].
Qed.

(** A text is collected only after a success record. *)
Lemma plan_run_some_success (W : World) (dir : string) items st rs ts out st' :
  plan_run W dir items st rs ts out st' ->
  ts <> [] -> Exists (fun r => record_success r = true) rs.
Proof.
  intros Hp Hne. apply Exists_exists.
  destruct (Forall_Exists_dec (fun r => record_success r = false)
              (fun r => bool_dec (record_success r) false) rs) as [Hall|Hex].
  - exfalso. apply Hne. exact (plan_run_all_failed _ _ _ _ _ _ _ _ Hp Hall).
  - apply Exists_exists in Hex. destruct Hex as [r [Hin Hr]].
    exists r. split; [exact Hin|]. destruct (record_success r); congruence.
Qed.

(** X9.  The embedding benchmark runs on collected texts only.  Let the
    loop of [main] end in the state [st_loop] with the locals [l].  The
    measuring phase then returns the records [rs] the loop appended and
    at most one embedding record.  When every record of [rs] is a failure,
    no text was collected and [benchmark_embedding] is not called: the
    phase ends in [st_loop] itself, not one clock reading or printed line
    later, and embedding_results is empty.  When embedding_results is not
    empty, some record of [rs] is a success, some text was collected, and
    the phase ends one printed line and two clock readings after
    [st_loop]. *)
Theorem X9_no_embedding_without_a_parsed_file
  (W : World) (dir : string) (st st_loop : St) (l : Locals) :
  for_each (main_loop_body W dir) test_files (initial_locals W (clock W (tick st))) (next st)
  = (inr l, st_loop) ->
  exists rs es st1,
    results l = report (clock W (tick st)) (sys_version W) rs []
    /\ measure W dir st = (inr (report (clock W (tick st)) (sys_version W) rs es), st1)
    /\ (List.length es <= 1)%nat
    /\ (Forall (fun r => record_success r = false) rs ->
        all_texts l = [] /\ es = [] /\ st1 = st_loop)
    /\ (es <> [] ->
        Exists (fun r => record_success r = true) rs
        /\ all_texts l <> []
        /\ es = [PDict (fst (benchmark_embedding W (all_texts l) "fake"
                              (embedding_announced (all_texts l) st_loop)))]
        /\ st1 = advanced (embedding_announced (all_texts l) st_loop) 2).
Proof.
  intros Hloop.
  destruct (for_each_spec W dir test_files (initial_locals W (clock W (tick st))) (next st)
              (clock W (tick st)) (sys_version W) [] eq_refl)
    as [rs [ts [out [st' [Hp Hf]]]]].
  destruct out as [e|]; [rewrite Hf in Hloop; discriminate Hloop|].
  destruct Hf as [l' [Hf [Hr Ht]]]. rewrite Hf in Hloop. injection Hloop as -> ->.
  cbn [initial_locals all_texts app] in Hr, Ht.
  exists rs, (embedding_results_of W ts st_loop), (after_embedding W ts st_loop).
  split; [exact Hr|]. split; [|split; [|split]].
  - unfold measure. rewrite bind_run. unfold time_time at 1 2. cbn [fst snd].
    rewrite ebind_run. fold (report (clock W (tick st)) (sys_version W) [] []).
    fold (initial_locals W (clock W (tick st))). rewrite Hf. cbn [fst snd].
    unfold embedding_step. rewrite Hr, Ht.
    destruct ts as [|t ts]; [reflexivity|].
    cbn [truthy]. unfold bind, print, embedding_results_of, after_embedding.
    change {| tick := tick st_loop; stdout := _; written := written st_loop |}
      with (embedding_announced (t :: ts) st_loop).
    destruct (benchmark_embedding W (t :: ts) "fake" (embedding_announced (t :: ts) st_loop))
      as [er st3].
    reflexivity.
  - destruct ts; cbn; lia.
  - intros Hall. rewrite Ht, (plan_run_all_failed _ _ _ _ _ _ _ _ Hp Hall).
    repeat split.
  - intros Hne. rewrite Ht.
    assert (Hts : ts <> []) by (intros ->; apply Hne; reflexivity).
    split; [exact (plan_run_some_success _ _ _ _ _ _ _ _ Hp Hts)|]. split; [exact Hts|].
    unfold embedding_results_of, after_embedding.
    destruct ts as [|t ts]; [contradiction|].
    split; [reflexivity|apply benchmark_embedding_state].
Qed.

(** In the world without parsers the four files are looked for, announced
    and measured, each measurement fails at the import, and the measuring
    phase ends where the loop ended: after the clock reading of the
    timestamp and four times one look-up and three calls of a
    measurement, with the four announcements printed and nothing else. *)
Lemma X9_witness :
  exists l rs,
    for_each (main_loop_body broken_world (fixture_dir broken_world)) test_files
             (initial_locals broken_world (clock broken_world 1)) (next (next st0))
    = (inr l,
       {| tick := 1 + 1 + 4 * (1 + 3);
          stdout := [ "Benchmarking sample.cs with code parser...";
                      "Benchmarking sample.vue with vue parser...";
                      "Benchmarking sample.yaml with yaml parser...";
                      "Benchmarking sample.md with markdown parser..." ];
          written := [] |})
    /\ List.length rs = 4%nat
    /\ Forall (fun r => record_success r = false
                        /\ record_field r "error"
                           = Some (PStr "No module named 'chunkhound'")) rs
    /\ all_texts l = []
    /\ measure broken_world (fixture_dir broken_world) (next st0)
       = (inr (report (clock broken_world 1) (sys_version broken_world) rs []),
          {| tick := 1 + 1 + 4 * (1 + 3);
             stdout := [ "Benchmarking sample.cs with code parser...";
                         "Benchmarking sample.vue with vue parser...";
                         "Benchmarking sample.yaml with yaml parser...";
                         "Benchmarking sample.md with markdown parser..." ];
             written := [] |}).
Proof.
  assert (H : for_each (main_loop_body broken_world (fixture_dir broken_world)) test_files
                (initial_locals broken_world (clock broken_world (tick (next st0))))
                (next (next st0))
              = (fst (for_each (main_loop_body broken_world (fixture_dir broken_world))
                        test_files (initial_locals broken_world (clock broken_world 1))
                        (next (next st0))),
                 {| tick := 1 + 1 + 4 * (1 + 3);
                    stdout := [ "Benchmarking sample.cs with code parser...";
                                "Benchmarking sample.vue with vue parser...";
                                "Benchmarking sample.yaml with yaml parser...";
                                "Benchmarking sample.md with markdown parser..." ];
                    written := [] |}))
    by (vm_compute; reflexivity).
  remember (fst (for_each (main_loop_body broken_world (fixture_dir broken_world))
                   test_files (initial_locals broken_world (clock broken_world 1))
                   (next (next st0)))) as r eqn:Hr.
  vm_compute in Hr. subst r.
  destruct (X9_no_embedding_without_a_parsed_file broken_world (fixture_dir broken_world)
              (next st0) _ _ H) as [rs [es [st1 [Hres [Hm [_ [Hnone _]]]]]]].
  cbn [results] in Hres. injection Hres as <-.
  match type of Hm with
  | _ = (inr (report _ _ ?rs _), _) =>
      assert (Hall : Forall (fun r => record_success r = false
                                      /\ record_field r "error"
                                         = Some (PStr "No module named 'chunkhound'")) rs)
        by (repeat constructor)
  end.
  destruct Hnone as [Ht [-> ->]].
  { eapply Forall_impl; [|exact Hall]. intros r [Hs _]. exact Hs. }
  match type of Hall with
  | Forall _ ?rs => eexists; exists rs
  end.
  split; [exact H|]. split; [reflexivity|]. split; [exact Hall|].
  split; [exact Ht|exact Hm].
Defined.

Lemma second_parse_stable (W : World) (file_path : string) (p : Parser) (t k : nat)
  (text : unicode) (chunks : list Chunk) (new : list unicode) (err : option exn) :
  stable W ->
  read_text W k file_path = inr text ->
  parse W k p text file_path = inr chunks ->
  second_parse W file_path p t new err ->
  new = map content chunks.
Proof.
  intros [Hc [Hr Hp]] Hread Hparse Hs.
  inversion Hs as [text' chunks' _ Hr' Hp'|e Hc'|e _ Hr'|text' e _ Hr' Hp']; subst.
  - rewrite (Hr _ k) in Hr'. rewrite Hread in Hr'. injection Hr' as <-.
    rewrite (Hp _ k) in Hp'. rewrite Hparse in Hp'. injection Hp' as <-. reflexivity.
  - rewrite Hc in Hc'. discriminate Hc'.
  - rewrite (Hr _ k), Hread in Hr'. discriminate Hr'.
  - rewrite (Hr _ k), Hread in Hr'. injection Hr' as <-.
    rewrite (Hp _ k), Hparse in Hp'. discriminate Hp'.
Qed.

Lemma plan_run_stable (W : World) (dir : string) items st rs ts out st' :
  stable W -> plan_run W dir items st rs ts out st' -> len ts = total_chunk_count rs.
Proof.
  intros Hst.
  induction 1 as [|f pn items st e _|f pn items st rs ts out st' _ _ IH
                  |f pn items st new st1 rs ts out st' _ Hc _ IH].
  - reflexivity.
  - reflexivity.
  - exact IH.
  - cbn [total_chunk_count fold_right]. fold (total_chunk_count rs). rewrite <- IH.
    unfold len. rewrite length_app, Nat2Z.inj_add. f_equal.
    set (fp := path_join dir f) in *. set (s := announced f pn st) in *.
    destruct Hc as [[Hs [-> _]]|[Hs [p [err [Hp [H2 _]]]]]].
    + destruct (benchmark_file_parsing_cases W fp pn s)
        as [k [_ [_ [[msg Hr]|[p [text [chunks [_ Hr]]]]]]]]; rewrite Hr in *;
        [reflexivity|discriminate Hs].
    + pose proof (benchmark_file_parsing_known W fp pn p s Hp) as Hk.
      destruct (construct W (1 + tick s) p) as [e|[]];
        [rewrite Hk in Hs; discriminate Hs|].
      destruct (read_text W (2 + tick s) fp) as [e|text] eqn:Hread;
        [rewrite Hk in Hs; discriminate Hs|].
      destruct (parse W (3 + tick s) p text fp) as [e|chunks] eqn:Hparse;
        [rewrite Hk in Hs; discriminate Hs|].
      destruct Hst as [Hc' [Hr' Hp']].
      rewrite (Hr' _ (3 + tick s)%nat) in Hread.
      rewrite Hk in H2 |- *. cbn [fst snd] in H2 |- *.
      rewrite (second_parse_stable W fp p _ _ text chunks new err
                 (conj Hc' (conj Hr' Hp')) Hread Hparse H2).
      rewrite length_map. reflexivity.
Qed.

(** The texts the loop collects are chunk contents the parsers returned. *)
Lemma plan_run_encodable (W : World) (dir : string) items st rs ts out st' :
  encodable_chunks W -> plan_run W dir items st rs ts out st' ->
  forallb encodable ts = true.
Proof.
  intros Hen.
  induction 1 as [|f pn items st e _|f pn items st rs ts out st' _ _ IH
                  |f pn items st new st1 rs ts out st' _ Hc _ IH].
  - reflexivity.
  - reflexivity.
  - exact IH.
  - rewrite forallb_app, IH, andb_true_r.
    destruct Hc as [[_ [-> _]]|[_ [p [err [_ [H2 _]]]]]]; [reflexivity|].
    inversion H2 as [text chunks _ _ Hparse| | |]; subst; try reflexivity.
    exact (Hen _ _ _ _ _ Hparse).
Qed.

(** What a measuring phase that returns has built. *)
Lemma measure_returns (W : World) (dir : string) (st st1 : St) (results : dict) :
  measure W dir st = (inr results, st1) ->
  exists rs texts st_loop,
    plan_run W dir test_files (next st) rs texts None st_loop
    /\ results = report (clock W (tick st)) (sys_version W) rs
                        (embedding_results_of W texts st_loop)
    /\ st1 = after_embedding W texts st_loop.
Proof.
  intros Hm.
  destruct (measure_spec W dir st) as [rs [texts [out [st_loop [Hp Hs]]]]].
  destruct out as [e|]; rewrite Hs in Hm; [discriminate Hm|].
  injection Hm as <- <-. exists rs, texts, st_loop. repeat split. exact Hp.
Qed.

(** X10.  In a world whose files and parsers answer the same each time
    they are asked, the second parse of a file returns the chunks the
    measurement counted: when the measuring phase returns, the number of
    texts given to the embedding benchmark is the sum of the [chunk_count]
    of the parsing records.  When that sum is zero embedding_results is
    empty; otherwise its one record has that sum as [text_count], and is a
    success when the chunks the parsers return can all be encoded. *)
Theorem X10_text_count_is_the_sum_of_chunk_counts
  (W : World) (dir : string) (st st1 : St) (results : dict) :
  stable W ->
  measure W dir st = (inr results, st1) ->
  exists rs es,
    dict_get results "parsing_results" = Some (PList rs)
    /\ dict_get results "embedding_results" = Some (PList es)
    /\ 0 <= total_chunk_count rs
    /\ (total_chunk_count rs = 0 -> es = [])
    /\ (0 < total_chunk_count rs ->
        exists e, es = [e]
                  /\ record_field e "text_count" = Some (PInt (total_chunk_count rs))
                  /\ (encodable_chunks W -> record_success e = true)).
Proof.
  intros Hst Hm.
  destruct (measure_returns W dir st st1 results Hm) as [rs [texts [st_loop [Hp [-> _]]]]].
  pose proof (plan_run_stable W _ _ _ _ _ _ _ Hst Hp) as Hlen.
  exists rs. eexists. split; [reflexivity|]. split; [reflexivity|]. rewrite <- Hlen.
  split; [unfold len; lia|]. split.
  - intros Hz. destruct texts; [reflexivity|]. unfold len in Hz. cbn in Hz. lia.
  - intros Hpos. destruct texts as [|t texts]; [unfold len in Hpos; cbn in Hpos; lia|].
    eexists. split; [reflexivity|].
    unfold record_field, record_success, benchmark_embedding, bind, ret.
    rewrite benchmark_embedding_run_fake. cbn [fst].
    destruct (first_unencodable (t :: texts)) as [e|] eqn:He.
    + split; [reflexivity|]. intros Hen.
      pose proof (plan_run_encodable W _ _ _ _ _ _ _ Hen Hp) as Hall.
      apply first_unencodable_none in Hall. congruence.
    + split; reflexivity.
Qed.

Lemma X10_witness :
  stable sample_world
  /\ encodable_chunks sample_world
  /\ exists results st1 rs es,
       measure sample_world (fixture_dir sample_world) (next st0) = (inr results, st1)
       /\ dict_get results "parsing_results" = Some (PList rs)
       /\ dict_get results "embedding_results" = Some (PList es)
       /\ total_chunk_count rs = 6
       /\ exists e, es = [e]
                    /\ record_field e "text_count" = Some (PInt 6)
                    /\ record_success e = true.
Proof.
  assert (Hs : stable sample_world) by (repeat split; intros; reflexivity).
  assert (He : encodable_chunks sample_world).
  { intros n p text path chunks. cbn. destruct p; intros [= <-]; reflexivity. }
  split; [exact Hs|]. split; [exact He|].
  assert (H : measure sample_world (fixture_dir sample_world) (next st0)
              = (fst (measure sample_world (fixture_dir sample_world) (next st0)),
                 snd (measure sample_world (fixture_dir sample_world) (next st0))))
    by (destruct (measure sample_world (fixture_dir sample_world) (next st0)); reflexivity).
  remember (fst (measure sample_world (fixture_dir sample_world) (next st0))) as r eqn:Hr.
  vm_compute in Hr. subst r.
  destruct (X10_text_count_is_the_sum_of_chunk_counts sample_world _ _ _ _ Hs H)
    as [rs [es [Hrs [Hes [_ [_ Hpos]]]]]].
  cbn in Hrs, Hes. injection Hrs as <-. injection Hes as <-.
  do 2 eexists. eexists. eexists. split; [exact H|].
  split; [reflexivity|]. split; [reflexivity|].
  assert (Ht : total_chunk_count
                 [ PDict (parse_success "sample.md" "markdown" (float_of_int 1000)
                            [ {| content := unicode_of_string "# Title" |};
                              {| content := unicode_of_string "body text" |} ]);
                   PDict (parse_success "sample.yaml" "yaml" (float_of_int 1000) []);
                   PDict (parse_success "sample.vue" "vue" (float_of_int 1000)
                            [ {| content := unicode_of_string "# Title" |};
                              {| content := unicode_of_string "body text" |} ]);
                   PDict (parse_success "sample.cs" "code" (float_of_int 1000)
                            [ {| content := unicode_of_string "# Title" |};
                              {| content := unicode_of_string "body text" |} ]) ] = 6)
    by reflexivity.
  vm_compute in Ht. split; [exact Ht|].
  vm_compute in Hpos. destruct (Hpos eq_refl) as [e [He1 [He2 He3]]].
  exists e. split; [exact He1|]. split; [exact He2|]. exact (He3 He).
Defined.

(** A chunk with a lone surrogate: the sum still is the number of texts,
    and the embedding record is a failure. *)
Example surrogate_counts :
  exists results st' rs e,
    main surrogate_world st0 = (inr (Some results), st')
    /\ dict_get results "parsing_results" = Some (PList rs)
    /\ total_chunk_count rs = 5
    /\ dict_get results "embedding_results" = Some (PList [PDict e])
    /\ dict_get e "text_count" = Some (PInt 5)
    /\ dict_get e "success" = Some (PBool false)
    /\ dict_get e "error"
       = Some (PStr ("'utf-8' codec can't encode character '" +++ str1 backslash
                       +++ "udc80' in position 1: surrogates not allowed")).
Proof.
  do 4 eexists. split; [vm_compute; reflexivity|].
  repeat split; vm_compute; reflexivity.
Qed.

(** Without that stability the two numbers part: in the flaky world the
    first record counts one chunk and no text reaches the embedding. *)
Example flaky_counts :
  exists results st' rs,
    main flaky_world st0 = (inr (Some results), st')
    /\ dict_get results "parsing_results" = Some (PList rs)
    /\ total_chunk_count rs = 1
    /\ dict_get results "embedding_results" = Some (PList []).
Proof.
  do 3 eexists. split; [vm_compute; reflexivity|].
  split; [reflexivity|]. split; reflexivity.
Qed.

(* ================================================================== *)
(** ** The summary *)

(** Checks against CPython: [f"{x:.2f}"] for 2.675, 0.125, 0.375, 1e22,
    -0.001, 0.005, 1.005, 123456.789, 99.995 and 5e-324, and for the
    [int] 2**70; [repr] of a few strings and of a nested list. *)
Example format_2f_values :
  map (fun d => format_2f (decimal_value (snd d) (fst (fst d)) (snd (fst d))))
      [ (2675, -3, false); (125, -3, false); (375, -3, false); (1, 22, false);
        (1, -3, true); (5, -3, false); (1005, -3, false); (123456789, -3, false);
        (99995, -3, false); (5, -324, false) ]
  = [ "2.67"; "0.12"; "0.38"; "10000000000000000000000.00"; "-0.00"; "0.01"; "1.00";
      "123456.79"; "100.00"; "0.00" ]
  /\ format_spec_2f (PInt (2 ^ 70)) = inr "1180591620717411303424.00"
  /\ (exists e, format_spec_2f (PInt (2 ^ 1024)) = inl e)
  /\ (exists e, format_spec_2f (PStr "abc") = inl e).
Proof.
  split; [vm_compute; reflexivity|]. split; [vm_compute; reflexivity|].
  split; eexists; vm_compute; reflexivity.
Qed.

Example repr_values :
  repr_str "a" = "'a'"
  /\ repr_str "it's" = str1 dquote +++ "it's" +++ str1 dquote
  /\ repr_str ("both ' and " +++ str1 dquote)
     = "'both " +++ str1 backslash +++ "' and " +++ str1 dquote +++ "'"
  /\ repr_str (String "127" (String "160" (String "173" (String "233" (String "010" "")))))
     = "'" +++ str1 backslash +++ "x7f" +++ str1 backslash +++ "xa0"
           +++ str1 backslash +++ "xad" +++ String "233" (str1 backslash) +++ "n'"
  /\ repr_of (PList [ PInt 1; PFloat (decimal_value false 25 (-1)); PStr "a"; PNone;
                      PBool true; PList []; PDict [("k", PList [PInt 1]); ("j", PStr "x")] ])
     = Some "[1, 2.5, 'a', None, True, [], {'k': [1], 'j': 'x'}]".
Proof. repeat split; vm_compute; reflexivity. Qed.

Lemma print_each_lines (line : pyval -> exn + string) (items : list pyval) :
  forall lines st,
    Forall2 (fun r t => line r = inr t) items lines ->
    print_each line items st = (inr tt, printed (rev lines) st).
Proof.
  unfold print_each.
  induction items as [|r items IH]; intros lines st H; inversion H as [|? t ? lines' Hr Hrest];
    subst.
  - destruct st; reflexivity.
  - cbn [for_each]. unfold ebind at 1, bind at 1. rewrite Hr.
    unfold bind at 1, print at 1, eret at 1, ret at 1.
    rewrite (IH lines' _ Hrest). unfold printed. cbn [tick stdout written rev].
    rewrite <- app_assoc. reflexivity.
Qed.

Lemma parsing_summary_line_measured
  (W : World) (file_path parser_name : string) (st : St) :
  let r := PDict (fst (benchmark_file_parsing W file_path parser_name st)) in
  exists line, parsing_summary_line r = inr line /\ parsing_line_of r line.
Proof.
  intros r. subst r.
  destruct (benchmark_file_parsing_cases W file_path parser_name st)
    as [n [_ [_ [[msg Hr]|[p [text [chunks [_ Hr]]]]]]]]; rewrite Hr;
    eexists; (split; [reflexivity|]);
    exists (basename file_path); eexists;
    (split; [reflexivity|]); (split; [reflexivity|]).
  - right. split; [reflexivity|]. exists msg. split; reflexivity.
  - left. split; [reflexivity|]. eexists. split; reflexivity.
Qed.

Lemma embedding_summary_line_measured (W : World) (texts : list unicode) (st : St) :
  let r := PDict (fst (benchmark_embedding W texts "fake" st)) in
  exists line, embedding_summary_line r = inr line /\ embedding_line_of r line.
Proof.
  intros r. subst r. unfold benchmark_embedding, bind, ret.
  rewrite benchmark_embedding_run_fake. cbn [fst].
  destruct (first_unencodable texts) as [e|]; cbn [fst];
    (eexists; split; [reflexivity|]); do 2 eexists;
    (split; [reflexivity|]); (split; [reflexivity|]).
  - right. split; [reflexivity|]. eexists. split; reflexivity.
  - left. split; reflexivity.
Qed.

Lemma Forall_lines {A} (P : A -> Prop) (line : A -> exn + string) (Q : A -> string -> Prop)
  (l : list A) :
  (forall r, P r -> exists t, line r = inr t /\ Q r t) ->
  Forall P l ->
  exists lines, Forall2 (fun r t => line r = inr t) l lines /\ Forall2 Q l lines.
Proof.
  intros H. induction 1 as [|r l Hr _ [lines [IH1 IH2]]].
  - exists []. split; constructor.
  - destruct (H r Hr) as [t [Ht Hq]]. exists (t :: lines). split; constructor; assumption.
Qed.

(** X11.  After a run that has written its report the summary never
    raises and changes nothing but the standard output: it prints the
    header, then one line per parsing record and one per embedding record,
    in the order of the report.  A success record gives
    [<file>: <parse_time_ms to two decimals>ms, <chunk_count> chunks], a
    failure record [<file>: FAILED - <error>] with the error text the
    record holds; the default ['Unknown error'] is never needed. *)
Theorem X11_summary_prints_one_line_per_record
  (W : World) (st st' : St) (results : dict) :
  main W st = (inr (Some results), st') ->
  exists rs es lines_p lines_e,
    dict_get results "parsing_results" = Some (PList rs)
    /\ dict_get results "embedding_results" = Some (PList es)
    /\ Forall2 parsing_line_of rs lines_p
    /\ Forall2 embedding_line_of es lines_e
    /\ main_and_summary W st
       = (inr tt, printed (rev lines_e ++ rev lines_p ++ [summary_header]) st').
Proof.
  intros Hmain.
  destruct (main_returns_report W st st' results Hmain)
    as [timestamp [rs [es [text [-> [Hrs [Hes _]]]]]]].
  destruct (Forall_lines _ parsing_summary_line parsing_line_of rs
              (fun r '(ex_intro _ fp (ex_intro _ pn (ex_intro _ s Hr))) =>
                 eq_ind_r (fun r => exists t, parsing_summary_line r = inr t
                                              /\ parsing_line_of r t)
                          (parsing_summary_line_measured W fp pn s) Hr) Hrs)
    as [lines_p [Hp1 Hp2]].
  destruct (Forall_lines _ embedding_summary_line embedding_line_of es
              (fun r '(ex_intro _ texts (ex_intro _ s Hr)) =>
                 eq_ind_r (fun r => exists t, embedding_summary_line r = inr t
                                              /\ embedding_line_of r t)
                          (embedding_summary_line_measured W texts s) Hr) Hes)
    as [lines_e [He1 He2]].
  exists rs, es, lines_p, lines_e.
  split; [reflexivity|]. split; [reflexivity|]. split; [exact Hp2|]. split; [exact He2|].
  unfold main_and_summary, ebind at 1, bind at 1. rewrite Hmain.
  unfold print_summary, bind at 1, print at 1.
  unfold ebind at 1, bind at 1, ret at 1. cbn [getitem dict_get String.eqb Ascii.eqb Bool.eqb
    then_ iterate].
  cbn. unfold ebind, bind, ret.
  rewrite (print_each_lines _ rs lines_p _ Hp1), (print_each_lines _ es lines_e _ He1).
  unfold printed. cbn [tick stdout written]. rewrite <- !app_assoc. reflexivity.
Qed.

Lemma X11_witness :
  exists results st',
    main sample_world st0 = (inr (Some results), st')
    /\ exists rs es lines_p lines_e,
         dict_get results "parsing_results" = Some (PList rs)
         /\ dict_get results "embedding_results" = Some (PList es)
         /\ Forall2 parsing_line_of rs lines_p
         /\ Forall2 embedding_line_of es lines_e
         /\ main_and_summary sample_world st0
            = (inr tt, printed (rev lines_e ++ rev lines_p ++ [summary_header]) st').
Proof.
  assert (H : main sample_world st0
              = (fst (main sample_world st0), snd (main sample_world st0)))
    by (destruct (main sample_world st0); reflexivity).
  remember (fst (main sample_world st0)) as r eqn:Hr.
  vm_compute in Hr. subst r.
  eexists. eexists. split; [exact H|].
  exact (X11_summary_prints_one_line_per_record sample_world st0 _ _ H).
Defined.

(** The summary of the sample run. *)
Example sample_summary :
  firstn 6 (stdout (snd (main_and_summary sample_world st0)))
  = [ "Embedding: 250.00ms for 6 texts";
      "sample.cs: 1000.00ms, 2 chunks";
      "sample.vue: 1000.00ms, 2 chunks";
      "sample.yaml: 1000.00ms, 0 chunks";
      "sample.md: 1000.00ms, 2 chunks";
      summary_header ]
  /\ fst (main_and_summary sample_world st0) = inr tt.
Proof. split; vm_compute; reflexivity. Qed.

(** The summary of the flaky run: one success, three failures, no
    embedding. *)
Example flaky_summary :
  firstn 5 (stdout (snd (main_and_summary flaky_world st0)))
  = [ "sample.cs: FAILED - parser state lost";
      "sample.vue: FAILED - parser state lost";
      "sample.yaml: FAILED - parser state lost";
      "sample.md: 1000.00ms, 1 chunks";
      summary_header ]
  /\ fst (main_and_summary flaky_world st0) = inr tt.
Proof. split; vm_compute; reflexivity. Qed.

(** The summary of the run with a lone surrogate: four successes and the
    embedding that failed. *)
Example surrogate_summary :
  firstn 2 (stdout (snd (main_and_summary surrogate_world st0)))
  = [ "Embedding: FAILED - 'utf-8' codec can't encode character '" +++ str1 backslash
        +++ "udc80' in position 1: surrogates not allowed";
      "sample.cs: 1000.00ms, 1 chunks" ]
  /\ fst (main_and_summary surrogate_world st0) = inr tt.
Proof. split; vm_compute; reflexivity. Qed.
